(** * Artifact reconciliation and grid decomposition: a shallow embedding

    The development follows the Python sources of the image service:
    - [app/session/memory.py]            (module [Memory])
    - [app/tools/generate_image_tool.py] (modules [Imaging], [Tools])
    - [app/tools/edit_image_tool.py]     (module [Tools])
    - [app/tools/artifact_wrapper.py]    (module [Wrapper])
    - [app/api/main.py]                  (module [Api])

    Python strings are modelled as [string] (one [ascii] per character),
    Python integers as [Z] or [nat], [Optional[str]] as [option string]. *)

From Stdlib Require Import String Ascii List ZArith Lia Bool Arith.
From Stdlib Require Import DecimalString.
From Stdlib Require Import Sorting.Sorted Sorting.Permutation.
Import ListNotations.

Local Open Scope string_scope.
Local Open Scope list_scope.

(* ================================================================== *)
(** * Python primitives used by the sources *)
(* ================================================================== *)

Module Py.

(** [x in xs] for a list of strings. *)
Fixpoint str_in (x : string) (xs : list string) : bool :=
  match xs with
  | [] => false
  | y :: ys => if String.eqb x y then true else str_in x ys
  end.

(** [s.startswith(prefix)] *)
Definition startswith (s prefix : string) : bool := String.prefix prefix s.

(** [s.endswith(suffix)] *)
Fixpoint endswith (s suffix : string) : bool :=
  if String.eqb s suffix then true
  else match s with
       | EmptyString => false
       | String _ t => endswith t suffix
       end.

(** [sub in s] for strings. *)
Fixpoint contains (sub s : string) : bool :=
  if String.prefix sub s then true
  else match s with
       | EmptyString => false
       | String _ t => contains sub t
       end.

(** [s.isascii()]: every character is below 128. *)
Fixpoint isascii (s : string) : bool :=
  match s with
  | EmptyString => true
  | String c t => (nat_of_ascii c <? 128)%nat && isascii t
  end.

(** [s.lower()] on ASCII text, where only the letters A-Z change.  On other
    text [str.lower] also maps characters outside ASCII (the Kelvin sign
    becomes [k]); what depends on the lower-cased text of arbitrary input is
    stated for text with [isascii]. *)
Definition lower_char (c : ascii) : ascii :=
  let n := nat_of_ascii c in
  if (65 <=? n)%nat && (n <=? 90)%nat then ascii_of_nat (n + 32) else c.

Fixpoint lower (s : string) : string :=
  match s with
  | EmptyString => EmptyString
  | String c t => String (lower_char c) (lower t)
  end.

(** [str(n)] for a non-negative integer. *)
Definition str_of_nat (n : nat) : string :=
  NilEmpty.string_of_uint (Nat.to_uint n).

(** [s[:n]] and [s[n:]] for a non-negative index. *)
Fixpoint take (n : nat) (s : string) : string :=
  match n, s with
  | S k, String c t => String c (take k t)
  | _, _ => EmptyString
  end.

Fixpoint drop (n : nat) (s : string) : string :=
  match n, s with
  | S k, String _ t => drop k t
  | _, _ => s
  end.

(** [s.rfind(c)] for a one-character needle: the highest index, or -1. *)
Fixpoint rfind (c : ascii) (s : string) : Z :=
  match s with
  | EmptyString => (-1)%Z
  | String a t =>
      let r := rfind c t in
      if (0 <=? r)%Z then (r + 1)%Z
      else if Ascii.eqb a c then 0%Z else (-1)%Z
  end.

(** The scan of [genericpath._splitext] over the indices
    [filenameIndex, filenameIndex + n): true as soon as a character differs
    from the extension separator (an empty slice differs as well). *)
Fixpoint has_non_dot (p : string) (filenameIndex n : nat) : bool :=
  match n with
  | O => false
  | S k =>
      match String.get filenameIndex p with
      | Some c =>
          if Ascii.eqb c "."%char then has_non_dot p (S filenameIndex) k
          else true
      | None => true
      end
  end.

(** [os.path.splitext] (posixpath). *)
Definition splitext (p : string) : string * string :=
  let sepIndex := rfind "/"%char p in
  let dotIndex := rfind "."%char p in
  if (sepIndex <? dotIndex)%Z
     && has_non_dot p (Z.to_nat (sepIndex + 1))
                      (Z.to_nat (dotIndex - (sepIndex + 1)))
  then (take (Z.to_nat dotIndex) p, drop (Z.to_nat dotIndex) p)
  else (p, EmptyString).

(** The last path component of [base] has a character other than a dot, so
    that a suffix [".ext"] appended to [base] is split off as its extension. *)
Definition has_stem (base : string) : bool :=
  let start := Z.to_nat (rfind "/"%char base + 1) in
  has_non_dot base start (String.length base - start).


(** [os.path.join(a, b)] (posixpath, two components). *)
Definition join (a b : string) : string :=
  if startswith b "/" then b
  else if String.eqb a "" || endswith a "/" then a ++ b
  else a ++ "/" ++ b.

(** Truth value of an [Optional[str]]: [None] and [""] are falsy. *)
Definition truthy (o : option string) : bool :=
  match o with
  | None => false
  | Some s => negb (String.eqb s "")
  end.

(** [a or b]: the first operand when it is truthy, else the second. *)
Definition or_ (a b : option string) : option string :=
  if truthy a then a else b.

(** [s.split(sep)] for a one-character separator. *)
Fixpoint split_on (sep : ascii) (s : string) : list string :=
  match s with
  | EmptyString => [EmptyString]
  | String c t =>
      if Ascii.eqb c sep then EmptyString :: split_on sep t
      else match split_on sep t with
           | h :: r => String c h :: r
           | [] => [String c EmptyString]
           end
  end.

(** [sep.join(parts)] *)
Fixpoint join_with (sep : string) (parts : list string) : string :=
  match parts with
  | [] => EmptyString
  | [p] => p
  | p :: rest => (p ++ sep ++ join_with sep rest)%string
  end.

(** The loop of [posixpath.normpath] over one component; [new_comps] grows
    at its end. *)
Definition normpath_step (initial_slashes : nat) (new_comps : list string)
  (comp : string) : list string :=
  if String.eqb comp "" || String.eqb comp "." then new_comps
  else if negb (String.eqb comp "..")
          || (Nat.eqb initial_slashes 0
              && match new_comps with [] => true | _ => false end)
          || match new_comps with
             | [] => false
             | _ => String.eqb (last new_comps "") ".."
             end
  then new_comps ++ [comp]
  else removelast new_comps.

(** [os.path.normpath] (posixpath). *)
Definition normpath (path : string) : string :=
  if String.eqb path "" then "."
  else
    let initial_slashes :=
      if startswith path "/"
      then if startswith path "//" && negb (startswith path "///")
           then 2 else 1
      else 0 in
    let comps := split_on "/"%char path in
    let comps := fold_left (normpath_step initial_slashes) comps [] in
    let path := join_with "/" comps in
    let path :=
      match initial_slashes with
      | 0 => path
      | 1 => ("/" ++ path)%string
      | _ => ("//" ++ path)%string
      end in
    if String.eqb path "" then "." else path.

(** [os.path.abspath] (posixpath), with the value of [os.getcwd()]. *)
Definition abspath (cwd path : string) : string :=
  if negb (startswith path "/") then normpath (join cwd path)
  else normpath path.

End Py.

(* ================================================================== *)
(** * app/session/memory.py *)
(* ================================================================== *)

Module Memory.

Record SessionMemory : Type := mkMemory {
  _last_generated : option string;
  _last_edited : option string;
  _recent_images : list string
}.

(** [SessionMemory.__init__] *)
Definition init : SessionMemory :=
  {| _last_generated := None; _last_edited := None; _recent_images := [] |}.

Definition set_last_generated (self : SessionMemory) (filename : string)
  : SessionMemory :=
  {| _last_generated := Some filename;
     _last_edited := _last_edited self;
     _recent_images :=
       if negb (Py.str_in filename (_recent_images self))
       then firstn 10 (filename :: _recent_images self)
       else _recent_images self |}.

Definition set_last_edited (self : SessionMemory) (filename : string)
  : SessionMemory :=
  {| _last_generated := _last_generated self;
     _last_edited := Some filename;
     _recent_images :=
       if negb (Py.str_in filename (_recent_images self))
       then firstn 10 (filename :: _recent_images self)
       else _recent_images self |}.

(** What either mutator does to the recent list. *)
Definition touch (recent : list string) (x : string) : list string :=
  if negb (Py.str_in x recent) then firstn 10 (x :: recent) else recent.

Definition get_last_generated (self : SessionMemory) : option string :=
  _last_generated self.

Definition get_last_edited (self : SessionMemory) : option string :=
  _last_edited self.

Definition get_most_recent (self : SessionMemory) : option string :=
  match _recent_images self with
  | x :: _ => Some x
  | [] => Py.or_ (_last_generated self) (_last_edited self)
  end.

(** The two mutators of the ledger, as a request sequence sees them. *)
Inductive insertion : Type :=
  | Generated (filename : string)
  | Edited (filename : string).

Definition name_of (i : insertion) : string :=
  match i with Generated f => f | Edited f => f end.

Definition apply (self : SessionMemory) (i : insertion) : SessionMemory :=
  match i with
  | Generated f => set_last_generated self f
  | Edited f => set_last_edited self f
  end.

(** The ledger after a sequence of insertions, oldest first, starting from
    the fresh singleton that [get_memory] creates. *)
Definition run (ins : list insertion) : SessionMemory :=
  fold_left apply ins init.

(** Reference order of the claim: the distinct names of a sequence, the most
    recently first-inserted name first. *)
Definition first_inserted_order (names : list string) : list string :=
  fold_left (fun acc x => if Py.str_in x acc then acc else x :: acc) names [].

(** A sequence never re-inserts a name that the capacity bound has already
    dropped from the recent list: checked alongside the run. *)
Fixpoint no_reinsertion_after_eviction_from
  (seen recent : list string) (names : list string) : bool :=
  match names with
  | [] => true
  | x :: rest =>
      let recent' :=
        if negb (Py.str_in x recent) then firstn 10 (x :: recent) else recent in
      (negb (Py.str_in x seen) || Py.str_in x recent)
      && no_reinsertion_after_eviction_from (x :: seen) recent' rest
  end.

Definition no_reinsertion_after_eviction (names : list string) : bool :=
  no_reinsertion_after_eviction_from [] [] names.

(** The file name of the last insertion of one kind in a sequence, if the
    sequence has one. *)
Definition generated_name (i : insertion) : option string :=
  match i with Generated f => Some f | Edited _ => None end.

Definition edited_name (i : insertion) : option string :=
  match i with Generated _ => None | Edited f => Some f end.

Fixpoint last_of (pick : insertion -> option string) (ins : list insertion)
  : option string :=
  match ins with
  | [] => None
  | i :: rest =>
      match last_of pick rest with
      | Some f => Some f
      | None => pick i
      end
  end.

End Memory.

(* ================================================================== *)
(** * app/tools/generate_image_tool.py: images and the grid split *)
(* ================================================================== *)

Module Imaging.

Local Open Scope Z_scope.

(** An RGB pixel and an RGB image: [image.size] and the pixel access object
    of [image.load()].  Coordinates are Python integers.  Pictures are taken
    in RGB mode, so that the conversion step of [remove_white_borders] leaves
    them as they are. *)
Definition rgb : Type := (Z * Z * Z)%type.

Record image : Type := mkImage {
  width : Z;
  height : Z;
  pixels : Z -> Z -> rgb
}.

(** [range(n)] *)
Definition range (n : Z) : list Z := map Z.of_nat (seq 0 (Z.to_nat n)).

(** [Image.crop(box)] with [box = (left, upper, right, lower)], here
    [(x0, y0, x1, y1)]: the right and lower edges are exclusive; whatever lies outside the source is filled with zeros. *)
Definition crop (im : image) (box : Z * Z * Z * Z) : image :=
  let '(x0, y0, x1, y1) := box in
  {| width := x1 - x0;
     height := y1 - y0;
     pixels := fun x y =>
       let sx := x0 + x in
       let sy := y0 + y in
       if (0 <=? sx) && (sx <? width im) && (0 <=? sy) && (sy <? height im)
       then pixels im sx sy
       else (0, 0, 0) |}.

(** A content pixel of an image: inside the image, with a channel below the
    threshold. *)
Definition content (im : image) (threshold : Z) (x y : Z) : Prop :=
  0 <= x < width im /\ 0 <= y < height im
  /\ (let '(r, g, b) := pixels im x y in
      r < threshold \/ g < threshold \/ b < threshold).

(** The running bounding box of [remove_white_borders]. *)
Record bounds : Type := mkBounds {
  min_x : Z;
  min_y : Z;
  max_x : Z;
  max_y : Z
}.

(** [r < threshold or g < threshold or b < threshold] *)
Definition non_white (threshold : Z) (p : rgb) : bool :=
  let '(r, g, b) := p in
  (r <? threshold) || (g <? threshold) || (b <? threshold).

(** Body of the inner loop at pixel [(x, y)]. *)
Definition visit (im : image) (threshold : Z) (y : Z) (acc : bounds) (x : Z)
  : bounds :=
  if non_white threshold (pixels im x y)
  then {| min_x := Z.min (min_x acc) x;
          min_y := Z.min (min_y acc) y;
          max_x := Z.max (max_x acc) x;
          max_y := Z.max (max_y acc) y |}
  else acc.

(** The two nested loops, [for y in range(height): for x in range(width)]. *)
Definition find_bounds (im : image) (threshold : Z) : bounds :=
  fold_left
    (fun acc y => fold_left (visit im threshold y) (range (width im)) acc)
    (range (height im))
    {| min_x := width im; min_y := height im; max_x := 0; max_y := 0 |}.

(** The box handed to [image.crop], or [None] when the guard
    [min_x >= max_x or min_y >= max_y] returns the image as it is. *)
Definition trim_box (im : image) (threshold : Z) : option (Z * Z * Z * Z) :=
  let b := find_bounds im threshold in
  if (min_x b >=? max_x b) || (min_y b >=? max_y b) then None
  else
    let padding := 5 in
    Some (Z.max 0 (min_x b - padding),
          Z.max 0 (min_y b - padding),
          Z.min (width im) (max_x b + padding),
          Z.min (height im) (max_y b + padding)).

Definition remove_white_borders (im : image) (threshold : Z) : image :=
  match trim_box im threshold with
  | None => im
  | Some box => crop im box
  end.

(** Default of the [threshold] argument. *)
Definition default_threshold : Z := 240.

(** ** Files under the working directory *)

(** The content of a file, as [PIL.Image.open] sees it: the picture it
    decodes to, bytes that do not decode, or no bytes at all (which do not
    decode either).  A disk maps the paths of regular files to their
    content; directories are not on the disk. *)
Inductive file : Type :=
  | Picture (im : image)
  | Garbage
  | Empty.

Definition disk : Type := string -> option file.

(** [os.path.exists(p)]: a regular file of the disk, or one of the
    directories [is_directory]. *)
Definition path_exists (is_directory : string -> bool) (d : disk)
  (p : string) : bool :=
  match d p with
  | Some _ => true
  | None => is_directory p
  end.

Definition write (d : disk) (path : string) (f : file) : disk :=
  fun p => if String.eqb p path then Some f else d p.

Definition remove (d : disk) (path : string) : disk :=
  fun p => if String.eqb p path then None else d p.

Definition UPLOAD_DIR : string := "uploads".

(** An image without pixels, as a crop of width or height 0 is. *)
Definition empty (im : image) : bool :=
  (width im <=? 0) || (height im <=? 0).

(** What an [Image.save] that raises after it has opened its file leaves
    behind: PIL removes the file if the call created it; a file that was
    there before stays, truncated to the bytes written so far, which do not
    decode. *)
Definition failed_save (d : disk) (path : string) : disk :=
  match d path with
  | None => d
  | Some _ => write d path Garbage
  end.

(** The exceptions that [split_grid_image] turns into an error result:
    [Image.open] does not identify the file, [Image.save] does not know the
    extension, or [Image.save] is given an image without pixels. *)
Inductive split_exception : Type :=
  | UnidentifiedImage
  | UnknownExtension (ext : string)
  | EmptyImage.

Inductive split_result : Type :=
  | SplitNotFound (filepath : string)
  | SplitFailed (e : split_exception)
  | SplitOk (split_data : list (string * image)).

(** The four fixed origins, in the order of the [enumerate(..., 1)] loop. *)
Definition origins (quad_width quad_height : Z) : list (Z * Z) :=
  [(0, 0); (quad_width, 0); (0, quad_height); (quad_width, quad_height)].

(** [grid_image.crop((x, y, x + quad_width, y + quad_height))] *)
Definition quadrant (grid_image : image) (quad_width quad_height : Z)
  (origin : Z * Z) : image :=
  let '(x, y) := origin in
  crop grid_image (x, y, x + quad_width, y + quad_height).

(** [f"{base_name}_{i}{ext}"] *)
Definition quad_filename (base_name : string) (i : nat) (ext : string)
  : string :=
  base_name ++ "_" ++ Py.str_of_nat i ++ ext.

Section Split.

(** PIL's table of registered file extensions, consulted by [Image.save]
    on the lower-cased extension before the file is opened. *)
Variable registered_extension : string -> bool.

(** The loop over the quadrants from ordinal [i] on: each one is cropped,
    trimmed and saved.  [quadrant.save] raises out of the loop for an
    unknown extension, before it opens the file, and for a quadrant without
    pixels, once the file is open. *)
Fixpoint save_quadrants (grid_image : image) (quad_width quad_height : Z)
  (base_name ext : string) (i : nat) (todo : list (Z * Z))
  (d : disk) (split_data : list (string * image))
  : disk * (split_exception + list (string * image)) :=
  match todo with
  | [] => (d, inr split_data)
  | origin :: rest =>
      let q := quadrant grid_image quad_width quad_height origin in
      let q := remove_white_borders q default_threshold in
      let name := quad_filename base_name i ext in
      let quad_filepath := Py.join UPLOAD_DIR name in
      if registered_extension (Py.lower ext) then
        if empty q then (failed_save d quad_filepath, inl EmptyImage)
        else
          save_quadrants grid_image quad_width quad_height base_name ext
            (S i) rest (write d quad_filepath (Picture q))
            (split_data ++ [(name, q)])
      else (d, inl (UnknownExtension ext))
  end.

Definition split_grid_image (filename : string) (remove_original : bool)
  (d : disk) : disk * split_result :=
  let filepath := Py.join UPLOAD_DIR filename in
  match d filepath with
  | None => (d, SplitNotFound filepath)
  | Some Garbage | Some Empty => (d, SplitFailed UnidentifiedImage)
  | Some (Picture grid_image) =>
      let quad_width := width grid_image / 2 in
      let quad_height := height grid_image / 2 in
      let '(base_name, ext) := Py.splitext filename in
      match save_quadrants grid_image quad_width quad_height base_name ext
              1 (origins quad_width quad_height) d [] with
      | (d', inl e) => (d', SplitFailed e)
      | (d', inr split_data) =>
          (if remove_original then remove d' filepath else d',
           SplitOk split_data)
      end
  end.

End Split.

End Imaging.
(* ================================================================== *)
(** * The compute tools: generate_image_tool.py and edit_image_tool.py *)
(* ================================================================== *)

Module Tools.

Import Imaging.
Local Open Scope string_scope.

(** What [image_model.generate_content] does: it raises (with the text of
    the exception), or returns the parts of the first candidate, if any;
    a part carries inline data or not.  The bytes of the inline data are
    identified with the file they become once written: [Empty] for inline
    data without bytes. *)
Inductive response : Type :=
  | Raises (e : string)
  | Returns (parts : option (list (option file))).

(** The first part with inline data, where the loop over the parts stops. *)
Fixpoint first_inline_data (parts : list (option file)) : option file :=
  match parts with
  | [] => None
  | Some data :: _ => Some data
  | None :: rest => first_inline_data rest
  end.

(** The result dictionary of [generate_image_compute]: the file names of
    [images] (the mime type is always ["image/png"]) or the error text. *)
Inductive generate_result : Type :=
  | GenerateOk (images : list string) (message : string) (unique_id : string)
  | GenerateError (error : string).

(** [f"image_{ts}_{i+1}.png"] *)
Definition composite_name (ts : string) (i : nat) : string :=
  "image_" ++ ts ++ "_" ++ Py.str_of_nat (i + 1) ++ ".png".

(** ["; ".join(errors)] *)
Fixpoint join_errors (errors : list string) : string :=
  match errors with
  | [] => ""
  | [e] => e
  | e :: rest => (e ++ "; " ++ join_errors rest)
  end.

Section Generate.

Variable registered_extension : string -> bool.

(** One iteration of [for i in range(pack_size)]. *)
Definition generate_step (ts : string) (model : response) (i : nat)
  (st : disk * list string * list string)
  : disk * list string * list string :=
  let '(d, all_images, errors) := st in
  match model with
  | Raises e =>
      (d, all_images,
       (errors ++ [("Error generating image " ++ Py.str_of_nat (i + 1)
                    ++ ": " ++ e)%string])%list)
  | Returns None => st
  | Returns (Some parts) =>
      match first_inline_data parts with
      | None => st
      | Some image_bytes =>
          let name := composite_name ts i in
          let filepath := Py.join UPLOAD_DIR name in
          let d := write d filepath image_bytes in
          match split_grid_image registered_extension name true d with
          | (d', SplitOk split_data) =>
              (d', (all_images ++ map fst split_data)%list, errors)
          | (d', _) => (d', (all_images ++ [name])%list, errors)
          end
      end
  end.

(** [generate_image_compute]: [now] is the value of
    [datetime.now().strftime("%Y%m%d_%H%M%S_%f")] and [uuid4] the text of
    [str(uuid.uuid4())]; [pack_size] is forced to 1. *)
Definition generate_image_compute (now uuid4 : string) (model : response)
  (prompt : string) (pack_size : Z) (d : disk) : disk * generate_result :=
  let pack_size := 1%nat in
  let ts := now in
  let unique_id := Py.take 8 uuid4 in
  let ts := ts ++ "_" ++ unique_id in
  let '(d', all_images, errors) :=
    fold_left (fun st i => generate_step ts model i st)
              (seq 0 pack_size) (d, [], []) in
  match all_images with
  | [] =>
      (d', GenerateError
             ("Failed to generate any images. "
              ++ match errors with
                 | [] => "Unknown error"
                 | _ => join_errors errors
                 end))
  | _ =>
      (d', GenerateOk all_images
             ("Successfully generated "
              ++ Py.str_of_nat (length all_images) ++ " images")
             unique_id)
  end.

End Generate.


(** [f"edited_{ts}_{name}{ext}"] *)
Definition edited_name (ts original_filename : string) : string :=
  let '(name, ext) := Py.splitext original_filename in
  ("edited_" ++ ts ++ "_" ++ name ++ ext).

Section Edit.

(** [os.path.isdir]: the paths that exist without being files of the
    disk. *)
Variable is_directory : string -> bool.


End Edit.

End Tools.

(* ================================================================== *)
(** * app/tools/artifact_wrapper.py: the edit wrapper *)
(* ================================================================== *)

Module Wrapper.

Import Imaging Memory.
Local Open Scope string_scope.

(** The first lines of [edit_image_with_artifacts]: the image path taken
    from the ledger when the caller gave none. *)
Definition resolve_image_path (memory : SessionMemory)
  (image_path : option string) : option string :=
  if negb (Py.truthy image_path) then
    let image_path := get_last_generated memory in
    if Py.truthy image_path then image_path
    else get_most_recent memory
  else image_path.


(** One iteration of the loop of [generate_image_with_artifacts] over the
    images: a file that is missing, or an artifact whose saving raises, is
    skipped with a warning; the first artifact saved goes to the ledger. *)
Definition save_step (save_artifact : string -> option string) (d : disk)
  (st : nat * SessionMemory) (filename : string) : nat * SessionMemory :=
  let '(saved_count, memory) := st in
  let filepath := Py.join UPLOAD_DIR filename in
  match d filepath with
  | None => st
  | Some _ =>
      match save_artifact filename with
      | Some _ => st
      | None =>
          let saved_count := S saved_count in
          (saved_count,
           if Nat.eqb saved_count 1
           then set_last_generated memory filename
           else memory)
      end
  end.

(** [generate_image_with_artifacts], with the inputs of
    [generate_image_compute] and the [tool_context] of the edit wrapper. *)
Definition generate_image_with_artifacts
  (registered_extension : string -> bool) (now uuid4 : string)
  (model : Tools.response) (tool_context : option (string -> option string))
  (prompt : string) (pack_size : Z) (memory : SessionMemory) (d : disk)
  : string * SessionMemory * disk :=
  match Tools.generate_image_compute registered_extension now uuid4 model
          prompt pack_size d with
  | (d', Tools.GenerateError error) => ("Error: " ++ error, memory, d')
  | (d', Tools.GenerateOk images _ _) =>
      match images with
      | [] => ("Error: No images were generated", memory, d')
      | _ =>
          let '(saved_count, memory) :=
            match tool_context with
            | Some save_artifact =>
                fold_left (save_step save_artifact d') images (0, memory)
            | None => (0, memory)
            end in
          ("Successfully generated " ++ Py.str_of_nat (length images)
           ++ " images. Artifacts saved: " ++ Py.str_of_nat saved_count,
           memory, d')
      end
  end.

(** The images of a generation whose artifacts get saved: the file is on
    the disk and [save_artifact] does not raise. *)
Definition saved_images (save_artifact : string -> option string) (d : disk)
  (images : list string) : list string :=
  filter (fun filename =>
            match d (Py.join UPLOAD_DIR filename), save_artifact filename with
            | Some _, None => true
            | _, _ => false
            end) images.

(** [save_image_artifact_from_disk], which [save_image_artifact_tool] calls
    with the same arguments. *)
Definition save_image_artifact_from_disk
  (tool_context : option (string -> option string))
  (filename update_memory : string) (memory : SessionMemory) (d : disk)
  : string * SessionMemory :=
  match tool_context with
  | None =>
      ("Error: No tool_context available to save artifact for " ++ filename,
       memory)
  | Some save_artifact =>
      let filepath := Py.join UPLOAD_DIR filename in
      let found :=
        match d filepath with
        | Some _ => Some filepath
        | None => match d filename with
                  | Some _ => Some filename
                  | None => None
                  end
        end in
      match found with
      | None => ("Error: Image file not found: " ++ filename, memory)
      | Some filepath =>
          match save_artifact filename with
          | Some e =>
              ("Error saving artifact " ++ filename ++ ": " ++ e, memory)
          | None =>
              let memory :=
                if String.eqb update_memory "generated"
                then set_last_generated memory filename
                else if String.eqb update_memory "edited"
                then set_last_edited memory filename
                else memory in
              ("Successfully saved artifact: " ++ filename, memory)
          end
      end
  end.

Definition save_image_artifact_tool
  (tool_context : option (string -> option string))
  (filename update_memory : string) (memory : SessionMemory) (d : disk)
  : string * SessionMemory :=
  save_image_artifact_from_disk tool_context filename update_memory memory d.

End Wrapper.

(* ================================================================== *)
(** * app/api/main.py *)
(* ================================================================== *)

Module Api.

Import Memory.
Local Open Scope string_scope.
Local Open Scope Z_scope.

(** ** The uploads directory as the endpoints observe it *)

(** One name of [os.listdir(UPLOAD_DIR)] with what [os.path.getmtime]
    answers for it: a time, or [None] when the call raises (the file is gone
    by then). *)
Record dirent : Type := mkDirent {
  d_name : string;
  d_mtime : option Z
}.

(** One observation of the directory: [None] when [os.listdir] raises. *)
Definition listing : Type := option (list dirent).

(** The delegation layer writes files on its own schedule: the [k]-th call
    of [list_images] of a request sees [w k]. *)
Definition world : Type := nat -> listing.

(** The sort keys of the selected files; one failing [getmtime] raises. *)
Fixpoint keyed (files : list dirent) : option (list (string * Z)) :=
  match files with
  | [] => Some []
  | f :: rest =>
      match d_mtime f, keyed rest with
      | Some t, Some ks => Some ((d_name f, t) :: ks)
      | _, _ => None
      end
  end.

(** [files.sort(key=getmtime, reverse=True)]: a stable sort, so files with
    equal times keep their order. *)
Fixpoint insert_desc (f : string * Z) (sorted : list (string * Z))
  : list (string * Z) :=
  match sorted with
  | [] => [f]
  | g :: rest =>
      if snd g >? snd f then g :: insert_desc f rest else f :: g :: rest
  end.

Definition sort_desc (files : list (string * Z)) : list (string * Z) :=
  fold_right insert_desc [] files.

Definition list_images (dir : listing) (prefix : string) (limit : nat)
  : list string :=
  match dir with
  | None => []
  | Some entries =>
      let files :=
        filter (fun f => Py.endswith (d_name f) ".png"
                         && Py.startswith (d_name f) prefix) entries in
      match keyed files with
      | None => []
      | Some files => firstn limit (map fst (sort_desc files))
      end
  end.

(** ** The poller *)

(** The variables of [wait_for_images], with the number of listings made so
    far in the request. *)
Record poll : Type := mkPoll {
  filenames : list string;
  waited : Z;
  listings : nat
}.

Definition is_empty {A : Type} (l : list A) : bool :=
  match l with [] => true | _ => false end.

(** [while not filenames and waited < max_wait_time]; [fuel] bounds the
    number of iterations. *)
Fixpoint wait_loop (fuel : nat) (w : world) (prefix : string) (limit : nat)
  (max_wait_time poll_interval : Z) (st : poll) : option poll :=
  if is_empty (filenames st) && (waited st <? max_wait_time) then
    match fuel with
    | O => None
    | S fuel' =>
        wait_loop fuel' w prefix limit max_wait_time poll_interval
          {| filenames := list_images (w (listings st)) prefix limit;
             waited := waited st + poll_interval;
             listings := S (listings st) |}
    end
  else Some st.

(** [wait_for_images], started when the request has made [clock] listings. *)
Definition wait_for_images (fuel : nat) (w : world) (clock : nat)
  (prefix : string) (limit : nat) (max_wait_time poll_interval : Z)
  : option poll :=
  wait_loop fuel w prefix limit max_wait_time poll_interval
    {| filenames := list_images (w clock) prefix limit;
       waited := 0;
       listings := S clock |}.

(** The [j]-th listing of a poll started at [clock], and the variables of
    the loop after [j] sleeps. *)
Definition listed (w : world) (clock : nat) (prefix : string) (limit : nat)
  (j : nat) : list string :=
  list_images (w (clock + j)%nat) prefix limit.

Definition after_sleeps (w : world) (clock : nat) (prefix : string)
  (limit : nat) (poll_interval : Z) (j : nat) : poll :=
  {| filenames := listed w clock prefix limit j;
     waited := Z.of_nat j * poll_interval;
     listings := S (clock + j) |}.

(** The loop goes on after [j] sleeps: nothing listed and time left. *)
Definition keeps_waiting (w : world) (clock : nat) (prefix : string)
  (limit : nat) (max_wait_time poll_interval : Z) (j : nat) : Prop :=
  listed w clock prefix limit j = []
  /\ Z.of_nat j * poll_interval < max_wait_time.

(** The loop ends after [j] sleeps: something listed or no time left. *)
Definition stops (w : world) (clock : nat) (prefix : string)
  (limit : nat) (max_wait_time poll_interval : Z) (j : nat) : Prop :=
  listed w clock prefix limit j <> []
  \/ max_wait_time <= Z.of_nat j * poll_interval.

(** ** The delegation call *)

(** An event of [runner.run_async]: whether it is the final response, and
    the parts of its content ([None] when the content or its parts are
    missing); a part carries a text or not. *)
Record event : Type := mkEvent {
  is_final_response : bool;
  content_parts : option (list (option string))
}.

Inductive run : Type :=
  | RunRaises (e : string)
  | RunYields (events : list event).

(** [for part in parts: if part.text: message += part.text] *)
Definition add_parts (message : string) (parts : list (option string))
  : string :=
  fold_left (fun m p => if Py.truthy p
                        then m ++ match p with Some t => t | None => "" end
                        else m)
            parts message.

(** [event.content and event.content.parts] *)
Definition parts_of (e : event) : list (option string) :=
  match content_parts e with Some ps => ps | None => [] end.

(** The message after the [async for] loop and the preference for the final
    event. *)
Definition agent_message (events : list event) : string :=
  let '(message, final_event) :=
    fold_left
      (fun '(message, final_event) e =>
         (add_parts message (parts_of e),
          if is_final_response e then Some e else final_event))
      events ("", None) in
  match final_event with
  | Some e =>
      if negb (is_empty (parts_of e)) then add_parts "" (parts_of e)
      else message
  | None => message
  end.

(** ** Requests, responses and outcomes

    The session identifier of the requests and responses is bookkeeping of
    the delegation layer and is left out. *)

Record GenerateRequest : Type := mkGenerateRequest {
  prompt : string
}.

Record EditRequest : Type := mkEditRequest {
  edit_prompt : string;
  image_filename : option string
}.

Module GenerateResponse.
Record t : Type := mk {
  success : bool;
  message : string;
  filenames : list string
}.
End GenerateResponse.

Module EditResponse.
Record t : Type := mk {
  success : bool;
  message : string;
  filename : string
}.
End EditResponse.

Inductive outcome (A : Type) : Type :=
  | HTTPException (status_code : Z) (detail : string)
  | Returned (response : A).

Arguments HTTPException {A} status_code detail.
Arguments Returned {A} response.

(** ** The endpoints *)

(** The delegation layer as an endpoint sees it: the text of the new message
    decides whether the run raises or which events it yields.  What the
    tools of the run write to the uploads directory shows in the listings of
    the [world]; what they record in the ledger is not followed: the ledger
    an endpoint returns is the ledger it was given with the endpoint's own
    update. *)
Definition runner : Type := string -> run.

(** [POST /api/generate].  [None] only when the poller runs out of fuel. *)
Definition generate_images (fuel : nat) (run_async : runner) (w : world)
  (request : GenerateRequest) (memory : SessionMemory)
  : option (outcome GenerateResponse.t * SessionMemory) :=
  match run_async (prompt request) with
  | RunRaises e =>
      Some (HTTPException 500 ("Error generating images: " ++ e), memory)
  | RunYields events =>
      let message := agent_message events in
      match wait_for_images fuel w 0 "" 4 90 2 with
      | None => None
      | Some st =>
          match filenames st with
          | [] =>
              let all_files := list_images (w (listings st)) "" 100 in
              let error_msg := "No images generated. " in
              let error_msg :=
                if negb (is_empty all_files)
                then error_msg ++ "Found "
                     ++ Py.str_of_nat (length all_files)
                     ++ " other image(s) in uploads directory."
                else error_msg ++ "No PNG files found in uploads directory."
              in
              Some (HTTPException 500 error_msg, memory)
          | first :: _ =>
              let filenames := filenames st in
              let memory := set_last_generated memory first in
              let message :=
                if negb (String.eqb message "")
                   && (Py.contains "Error:" message
                       || Py.contains "error" (Py.lower message)
                       || Py.contains "failed" (Py.lower message))
                then "Successfully generated "
                     ++ Py.str_of_nat (length filenames) ++ " image(s)"
                else if String.eqb message ""
                then "Successfully generated "
                     ++ Py.str_of_nat (length filenames) ++ " image(s)"
                else message in
              Some (Returned
                      {| GenerateResponse.success := true;
                         GenerateResponse.message := message;
                         GenerateResponse.filenames := firstn 4 filenames |},
                    memory)
          end
      end
  end.

(** [request.image_filename or memory.get_last_generated()
     or memory.get_most_recent()] *)
Definition image_to_edit (request : EditRequest) (memory : SessionMemory)
  : option string :=
  Py.or_ (image_filename request)
         (Py.or_ (get_last_generated memory) (get_most_recent memory)).

(** [f"Please edit the image {image_to_edit}. Edit request:
     {request.edit_prompt}"] *)
Definition edit_instruction (image_to_edit edit_prompt : string) : string :=
  "Please edit the image " ++ image_to_edit
  ++ ". Edit request: " ++ edit_prompt.

(** [POST /api/edit].  [None] only when the poller runs out of fuel. *)
Definition edit_image (fuel : nat) (run_async : runner) (w : world)
  (request : EditRequest) (memory : SessionMemory)
  : option (outcome EditResponse.t * SessionMemory) :=
  let image_to_edit := image_to_edit request memory in
  if negb (Py.truthy image_to_edit) then
    Some (HTTPException 400
            "No image available to edit. Please provide image_filename or generate an image first.",
          memory)
  else
    let image_to_edit :=
      match image_to_edit with Some f => f | None => "" end in
    let prompt := edit_instruction image_to_edit (edit_prompt request) in
    match run_async prompt with
    | RunRaises e =>
        Some (HTTPException 500 ("Error editing image: " ++ e), memory)
    | RunYields events =>
        let message := agent_message events in
        match wait_for_images fuel w 0 "edited_" 1 90 2 with
        | None => None
        | Some st =>
            match filenames st with
            | [] =>
                Some (HTTPException 500
                        "Edited image not found. The agent may still be processing.",
                      memory)
            | filename :: _ =>
                let memory := set_last_edited memory filename in
                let message :=
                  if negb (String.eqb filename "") then
                    if negb (String.eqb message "")
                       && (Py.contains "Error:" message
                           || Py.contains "error" (Py.lower message)
                           || Py.contains "failed" (Py.lower message)
                           || Py.contains "cannot edit" (Py.lower message)
                           || Py.contains "only generate" (Py.lower message)
                           || Py.contains "I cannot" message)
                    then "Image edited successfully"
                    else if String.eqb message ""
                    then "Image edited successfully"
                    else message
                  else message in
                Some (Returned
                        {| EditResponse.success := true;
                           EditResponse.message := message;
                           EditResponse.filename := filename |},
                      memory)
            end
        end
    end.

(** The error indicators that [generate_images] looks for in the message,
    and the longer list of [edit_image]. *)
Definition error_wording (message : string) : bool :=
  Py.contains "Error:" message
  || Py.contains "error" (Py.lower message)
  || Py.contains "failed" (Py.lower message).

Definition failure_wording (message : string) : bool :=
  Py.contains "Error:" message
  || Py.contains "error" (Py.lower message)
  || Py.contains "failed" (Py.lower message)
  || Py.contains "cannot edit" (Py.lower message)
  || Py.contains "only generate" (Py.lower message)
  || Py.contains "I cannot" message.

(** Newest first: every file is at least as recent as the files after it. *)
Definition newest_first (files : list (string * Z)) : Prop :=
  StronglySorted (fun f g => snd g <= snd f) files.

(** The text of all the parts of all the events, in order. *)
Definition all_text (events : list event) : string :=
  fold_left (fun m e => add_parts m (parts_of e)) events "".

(** [GET /api/images] *)
Module ImagesResponse.
Record t : Type := mk {
  success : bool;
  count : nat;
  images : list string
}.
End ImagesResponse.

Definition list_all_images (dir : listing) : ImagesResponse.t :=
  let images := list_images dir "" 100 in
  {| ImagesResponse.success := true;
     ImagesResponse.count := length images;
     ImagesResponse.images := images |}.

(** [GET /api/images/{filename}]: the response is the path handed to
    [FileResponse].  [cwd] is the working directory of the process;
    [os.path.exists] holds of the files of the disk and of the directories
    [is_directory]. *)
Definition get_image (cwd : string) (is_directory : string -> bool)
  (d : Imaging.disk) (filename : string) : outcome string :=
  let path := Py.join Imaging.UPLOAD_DIR filename in
  if negb (Py.startswith (Py.abspath cwd path)
             (Py.abspath cwd Imaging.UPLOAD_DIR))
  then HTTPException 403 "Invalid filename"
  else if negb (Imaging.path_exists is_directory d path)
  then HTTPException 404 ("Image not found: " ++ filename)
  else Returned path.

(** [POST /api/upload]: [open_error] is the text of the exception that
    opening the path for writing raises, if it does. *)
Definition upload_image (open_error : string -> option string)
  (filename : string) (content : Imaging.file)
  (memory : SessionMemory) (d : Imaging.disk)
  : outcome string * SessionMemory * Imaging.disk :=
  let path := Py.join Imaging.UPLOAD_DIR filename in
  match open_error path with
  | Some e =>
      (HTTPException 500 ("Error uploading file: " ++ e), memory, d)
  | None =>
      (Returned ("File uploaded successfully: " ++ filename),
       set_last_generated memory filename,
       Imaging.write d path content)
  end.

(** ** The chat endpoint *)

Record ChatRequest : Type := mkChatRequest {
  chat_message : string
}.

Module ChatResponse.
Record t : Type := mk {
  success : bool;
  message : string;
  filenames : list string
}.
End ChatResponse.

(** [any(keyword in text for keyword in keywords)] *)
Definition any_in (keywords : list string) (text : string) : bool :=
  existsb (fun keyword => Py.contains keyword text) keywords.

Definition generation_keywords : list string :=
  ["generate"; "create"; "make"; "show me"; "image"; "picture"; "dress";
   "outfit"].

Definition success_keywords : list string :=
  ["successfully generated"; "i've generated"; "generated images";
   "successfully edited"; "i've edited"; "edited image"].

(** What [os.path.exists] and [os.path.getmtime] make of a name in one
    observation of the directory. *)
Definition stat (dir : listing) (name : string) : option dirent :=
  match dir with
  | None => None
  | Some entries =>
      find (fun f => String.eqb (d_name f) name) entries
  end.

(** The text of the [FileNotFoundError] of [os.path.getmtime]. *)
Definition no_such_file (name : string) : string :=
  "[Errno 2] No such file or directory: '"
  ++ Py.join Imaging.UPLOAD_DIR name ++ "'".

(** The loop that keeps the images modified since the threshold: a name
    that is gone is skipped, a name whose [getmtime] raises ends the request
    with that exception. *)
Fixpoint recent_since (dir : listing) (time_threshold : Z)
  (all_images : list string) : string + list string :=
  match all_images with
  | [] => inr []
  | img :: rest =>
      match stat dir img with
      | None => recent_since dir time_threshold rest
      | Some f =>
          match d_mtime f with
          | None => inl (no_such_file img)
          | Some img_mtime =>
              match recent_since dir time_threshold rest with
              | inl e => inl e
              | inr recent_images =>
                  if img_mtime >=? time_threshold
                  then inr (img :: recent_images)
                  else inr recent_images
              end
          end
      end
  end.

(** The sort keys of [recent_images.sort]: a missing file raises. *)
Fixpoint sort_keys (dir : listing) (recent_images : list string)
  : string + list (string * Z) :=
  match recent_images with
  | [] => inr []
  | img :: rest =>
      match stat dir img with
      | Some {| d_mtime := Some t |} =>
          match sort_keys dir rest with
          | inl e => inl e
          | inr ks => inr ((img, t) :: ks)
          end
      | _ => inl (no_such_file img)
      end
  end.

(** [POST /api/chat].  [request_start_time] is the value of [time.time()]
    when the request comes in, in the unit of the modification times.  The
    request sees the directory three times: when it lists ([w 0]), when it
    filters by time ([w 1]) and when it sorts ([w 2]). *)
Definition chat (request_start_time : Z) (run_async : runner) (w : world)
  (request : ChatRequest) (memory : SessionMemory)
  : outcome ChatResponse.t * SessionMemory :=
  match run_async (chat_message request) with
  | RunRaises e =>
      (HTTPException 500 ("Error processing message: " ++ e), memory)
  | RunYields events =>
      let message := agent_message events in
      let request_lower := Py.lower (chat_message request) in
      let has_generation_intent := any_in generation_keywords request_lower in
      let message_lower := Py.lower message in
      let has_image_keywords := any_in success_keywords message_lower in
      let respond recent_images memory :=
        (Returned
           {| ChatResponse.success := true;
              ChatResponse.message :=
                if String.eqb message "" then "Response received"
                else message;
              ChatResponse.filenames := recent_images |},
         memory) in
      if has_generation_intent || has_image_keywords then
        let time_threshold := request_start_time - 5 in
        let all_images := list_images (w 0%nat) "" 10 in
        match recent_since (w 1%nat) time_threshold all_images with
        | inl e =>
            (HTTPException 500 ("Error processing message: " ++ e), memory)
        | inr recent_images =>
            match sort_keys (w 2%nat) recent_images with
            | inl e =>
                (HTTPException 500 ("Error processing message: " ++ e),
                 memory)
            | inr keys =>
                let recent_images := map fst (sort_desc keys) in
                let recent_images := firstn 4 recent_images in
                match recent_images with
                | [] => respond recent_images memory
                | first :: _ =>
                    respond recent_images
                      (if Py.startswith first "edited_"
                       then set_last_edited memory first
                       else set_last_generated memory first)
                end
            end
        end
      else respond [] memory
  end.

(** The poll bound of the two endpoints: at most 45 sleeps of 2 seconds
    bring [waited] to 90. *)
Definition enough_fuel : nat := 45.

End Api.

(* ================================================================== *)
(** * Sample inputs *)
(* ================================================================== *)

Module Samples.

Import Imaging.
Local Open Scope Z_scope.

Definition white : rgb := (255, 255, 255).
Definition black : rgb := (0, 0, 0).

(** A white 20x20 quadrant with a single black pixel at (10, 10). *)
Definition one_dot : image :=
  {| width := 20; height := 20;
     pixels := fun x y => if (x =? 10) && (y =? 10) then black else white |}.

(** A white 20x20 quadrant with black pixels at (10, 10) and (11, 11):
    the content spans the columns 10..11 and the rows 10..11. *)
Definition two_dots : image :=
  {| width := 20; height := 20;
     pixels := fun x y =>
       if ((x =? 10) && (y =? 10)) || ((x =? 11) && (y =? 11))
       then black else white |}.

(** A 4x2 composite whose four 2x1 quadrants are red, green, blue and
    grey. *)
Definition four_colours : image :=
  {| width := 4; height := 2;
     pixels := fun x y =>
       if y =? 0 then (if x <? 2 then (200, 0, 0) else (0, 200, 0))
       else (if x <? 2 then (0, 0, 200) else (90, 90, 90)) |}.

(** The extensions PIL knows, as far as the samples need them. *)
Definition png_only (ext : string) : bool := String.eqb ext ".png".

End Samples.

Module Worlds.

Import Api.
Local Open Scope string_scope.

(** An uploads directory that stays empty. *)
Definition empty : world := fun _ => Some [].

(** A directory that holds one quadrant of an earlier request. *)
Definition one_png : world :=
  fun _ => Some [mkDirent "image_1_1.png" (Some 100%Z)].

(** A directory left by earlier requests: two quadrants and a newer edited
    image, besides a file that is not a PNG. *)
Definition leftovers : world :=
  fun _ => Some [mkDirent "image_1_1.png" (Some 100%Z);
                 mkDirent "edited_2_image_1_1.png" (Some 300%Z);
                 mkDirent "notes.txt" (Some 900%Z);
                 mkDirent "image_1_2.png" (Some 101%Z)].

(** A delegation layer that answers every instruction with one final event
    carrying [text]. *)
Definition says (text : string) : runner :=
  fun _ => RunYields [mkEvent true (Some [Some text])].

End Worlds.

(* ================================================================== *)
(** * Facts about the Python primitives *)
(* ================================================================== *)

Section PyFacts.

Local Open Scope string_scope.

Lemma str_in_In (x : string) (xs : list string) :
  Py.str_in x xs = true <-> In x xs.
Proof.
  induction xs as [|y ys IH]; simpl.
  - split; [discriminate | tauto].
  - destruct (String.eqb_spec x y) as [->|Hne].
    + split; auto.
    + rewrite IH. split; [auto | intros [H|H]; [congruence | exact H]].
Qed.

Lemma str_in_false (x : string) (xs : list string) :
  Py.str_in x xs = false <-> ~ In x xs.
Proof.
  rewrite <- str_in_In. destruct (Py.str_in x xs); split; congruence.
Qed.

Lemma take_app (a b : string) : Py.take (String.length a) (a ++ b) = a.
Proof.
  induction a as [|c a IH]; simpl.
  - destruct b; reflexivity.
  - now rewrite IH.
Qed.

Lemma drop_app (a b : string) : Py.drop (String.length a) (a ++ b) = b.
Proof. induction a as [|c a IH]; simpl; auto. Qed.

Lemma take_drop (n : nat) (s : string) : Py.take n s ++ Py.drop n s = s.
Proof.
  revert s; induction n as [|n IH]; intros [|c s]; simpl; auto.
  now rewrite IH.
Qed.

Lemma app_assoc_str (a b c : string) : (a ++ b) ++ c = a ++ (b ++ c).
Proof. induction a as [|x a IH]; simpl; [reflexivity | now rewrite IH]. Qed.

Lemma length_app_str (a b : string) :
  String.length (a ++ b) = (String.length a + String.length b)%nat.
Proof. induction a as [|x a IH]; simpl; [reflexivity | now rewrite IH]. Qed.

Lemma rfind_bounds (c : ascii) (s : string) :
  (-1 <= Py.rfind c s < Z.of_nat (String.length s))%Z.
Proof.
  induction s as [|a s IH]; simpl; [lia|].
  destruct (Z.leb_spec 0 (Py.rfind c s)); [lia|].
  destruct (Ascii.eqb a c); lia.
Qed.

Lemma rfind_app_absent (c : ascii) (a b : string) :
  Py.rfind c b = (-1)%Z -> Py.rfind c (a ++ b) = Py.rfind c a.
Proof.
  intros Hb. induction a as [|x a IH]; simpl.
  - exact Hb.
  - now rewrite IH.
Qed.

Lemma rfind_app_last (c : ascii) (a b : string) :
  Py.rfind c b = (-1)%Z ->
  Py.rfind c (a ++ String c b) = Z.of_nat (String.length a).
Proof.
  intros Hb. induction a as [|x a IH].
  - simpl. rewrite Hb. simpl. now rewrite Ascii.eqb_refl.
  - cbn [append Py.rfind String.length]. rewrite IH.
    destruct (Z.leb_spec 0 (Z.of_nat (String.length a))); lia.
Qed.

Lemma has_non_dot_found (p : string) (c : ascii) (k from n : nat) :
  (from <= k < from + n)%nat ->
  String.get k p = Some c -> c <> "."%char ->
  Py.has_non_dot p from n = true.
Proof.
  revert from. induction n as [|n IH]; intros from Hk Hget Hc; [lia|].
  simpl. destruct (String.get from p) as [c'|] eqn:Hfrom; [|reflexivity].
  destruct (Ascii.eqb_spec c' "."%char) as [->|]; [|reflexivity].
  apply IH; auto.
  assert (k <> from) by (intros ->; congruence). lia.
Qed.

Lemma has_non_dot_app (a b : string) (from n : nat) :
  (from + n <= String.length a)%nat ->
  Py.has_non_dot (a ++ b) from n = Py.has_non_dot a from n.
Proof.
  revert from. induction n as [|n IH]; intros from Hn; [reflexivity|].
  simpl. rewrite <- (append_correct1 a b from) by lia.
  destruct (String.get from a) as [c|]; [|reflexivity].
  destruct (Ascii.eqb c "."%char); [apply IH; lia | reflexivity].
Qed.

(** A name [base.ext] splits at its last dot. *)
Lemma splitext_stem (base e : string) :
  Py.has_stem base = true ->
  Py.rfind "."%char e = (-1)%Z -> Py.rfind "/"%char e = (-1)%Z ->
  Py.splitext (base ++ "." ++ e) = (base, "." ++ e).
Proof.
  intros Hstem Hdot Hsep. unfold Py.splitext.
  change (base ++ "." ++ e) with (base ++ String "."%char e).
  rewrite (rfind_app_last "."%char base e Hdot).
  rewrite (rfind_app_absent "/"%char base (String "."%char e))
    by (simpl; rewrite Hsep; reflexivity).
  pose proof (rfind_bounds "/"%char base) as Hb.
  replace (Py.rfind "/"%char base <? Z.of_nat (String.length base))%Z
    with true by (symmetry; apply Z.ltb_lt; lia).
  rewrite has_non_dot_app by lia.
  unfold Py.has_stem in Hstem.
  replace (Z.to_nat (Z.of_nat (String.length base)
                     - (Py.rfind "/"%char base + 1)))
    with (String.length base - Z.to_nat (Py.rfind "/"%char base + 1))%nat
    by lia.
  rewrite Hstem. simpl andb. cbv iota.
  rewrite Nat2Z.id, take_app, drop_app. reflexivity.
Qed.

(** The two halves of [splitext] always make up the path again. *)
Lemma splitext_join (p : string) :
  fst (Py.splitext p) ++ snd (Py.splitext p) = p.
Proof.
  unfold Py.splitext.
  destruct (_ && _); simpl; [apply take_drop|].
  induction p as [|c p IH]; simpl; [reflexivity | now rewrite IH].
Qed.

(** A base that ends in a character other than a dot or a slash has a stem. *)
Lemma has_stem_last (x : string) (c : ascii) :
  c <> "."%char -> c <> "/"%char ->
  Py.has_stem (x ++ String c "") = true.
Proof.
  intros Hdot Hsep. unfold Py.has_stem.
  assert (Hr : Py.rfind "/"%char (x ++ String c "") = Py.rfind "/"%char x).
  { apply rfind_app_absent. simpl.
    destruct (Ascii.eqb_spec c "/"%char); [contradiction | reflexivity]. }
  rewrite Hr. pose proof (rfind_bounds "/"%char x) as Hb.
  apply (has_non_dot_found _ c (String.length x)); auto.
  - rewrite length_app_str. simpl. lia.
  - change (String.length x) with (0 + String.length x)%nat.
    rewrite <- (append_correct2 x (String c "") 0). reflexivity.
Qed.


End PyFacts.

(* ================================================================== *)
(** * The recency ledger *)
(* ================================================================== *)

Section LedgerFacts.

Import Memory.
Local Open Scope string_scope.

Lemma recent_apply (m : SessionMemory) (i : insertion) :
  _recent_images (apply m i) = touch (_recent_images m) (name_of i).
Proof. destruct i; reflexivity. Qed.

Lemma recent_fold (ins : list insertion) (m : SessionMemory) :
  _recent_images (fold_left apply ins m)
  = fold_left touch (map name_of ins) (_recent_images m).
Proof.
  revert m. induction ins as [|i ins IH]; intros m; simpl; [reflexivity|].
  now rewrite IH, recent_apply.
Qed.

Lemma In_firstn {A : Type} (n : nat) (l : list A) (x : A) :
  In x (firstn n l) -> In x l.
Proof.
  revert l. induction n as [|n IH]; intros [|y l]; simpl; try tauto.
  intros [H|H]; auto.
Qed.

Lemma NoDup_firstn' {A : Type} (n : nat) (l : list A) :
  NoDup l -> NoDup (firstn n l).
Proof.
  revert l. induction n as [|n IH]; intros l Hl; simpl; [constructor|].
  destruct l as [|y l]; [constructor|].
  inversion Hl; subst. constructor; auto.
  intros Hin. apply In_firstn in Hin. contradiction.
Qed.

Lemma touch_shape (recent : list string) (x : string) :
  NoDup recent /\ length recent <= 10 ->
  NoDup (touch recent x) /\ length (touch recent x) <= 10.
Proof.
  intros [Hnd Hlen]. unfold touch.
  destruct (Py.str_in x recent) eqn:Hin; simpl negb; cbv iota.
  - split; assumption.
  - split.
    + apply NoDup_firstn'. constructor; [|exact Hnd].
      now apply str_in_false.
    + rewrite length_firstn. apply Nat.le_min_l.
Qed.

Lemma fold_touch_shape (names recent : list string) :
  NoDup recent /\ length recent <= 10 ->
  NoDup (fold_left touch names recent)
  /\ length (fold_left touch names recent) <= 10.
Proof.
  revert recent. induction names as [|x names IH]; intros recent H; simpl.
  - exact H.
  - apply IH, touch_shape, H.
Qed.

Lemma firstn_cons_firstn {A : Type} (n : nat) (x : A) (l : list A) :
  firstn (S n) (x :: firstn (S n) l) = firstn (S n) (x :: l).
Proof.
  rewrite (firstn_cons n x (firstn (S n) l)), (firstn_cons n x l).
  f_equal. rewrite firstn_firstn. f_equal. lia.
Qed.

(** With no name re-inserted after its eviction, the recent list is the head
    of the first-insertion order. *)
Lemma fold_touch_order (names seen recent order : list string) :
  recent = firstn 10 order ->
  (forall y, Py.str_in y seen = Py.str_in y order) ->
  no_reinsertion_after_eviction_from seen recent names = true ->
  fold_left touch names recent
  = firstn 10
      (fold_left (fun acc x => if Py.str_in x acc then acc else x :: acc)
                 names order).
Proof.
  revert seen recent order.
  induction names as [|x names IH]; intros seen recent order Hrec Hseen Hok.
  - exact Hrec.
  - cbn [fold_left]. cbn [no_reinsertion_after_eviction_from] in Hok.
    apply andb_true_iff in Hok as [Hx Hok].
    fold (touch recent x) in Hok.
    destruct (Py.str_in x recent) eqn:Hin.
    + assert (Hord : Py.str_in x order = true).
      { apply str_in_In. apply str_in_In in Hin. subst recent.
        eapply In_firstn; eauto. }
      rewrite Hord.
      assert (Ht : touch recent x = recent)
        by (unfold touch; rewrite Hin; reflexivity).
      rewrite Ht in *. apply (IH (x :: seen) recent order); auto.
      intros y. simpl. rewrite Hseen.
      destruct (String.eqb_spec y x) as [->|]; [now rewrite Hord | reflexivity].
    + rewrite orb_false_r in Hx. apply negb_true_iff in Hx.
      rewrite Hseen in Hx. rewrite Hx.
      assert (Ht : touch recent x = firstn 10 (x :: order)).
      { unfold touch. rewrite Hin. simpl negb. cbv iota. subst recent.
        apply firstn_cons_firstn. }
      rewrite Ht in *.
      apply (IH (x :: seen) (firstn 10 (x :: order)) (x :: order)); auto.
      intros y. simpl. now rewrite Hseen.
Qed.

End LedgerFacts.

(** C6 (as amended). Inserting a name that is already in the recent list
    leaves the list as it is; after any sequence of insertions the recent
    list has no duplicates and at most 10 names; and when no name is
    re-inserted after the capacity bound dropped it, the list is exactly the
    10 most recently first-inserted distinct names, most recent first. *)
Theorem ledger_recent_after_insertions :
  forall ins : list Memory.insertion,
    let m := Memory.run ins in
    let names := map Memory.name_of ins in
    (forall i, Py.str_in (Memory.name_of i) (Memory._recent_images m) = true ->
               Memory._recent_images (Memory.apply m i)
               = Memory._recent_images m)
    /\ NoDup (Memory._recent_images m)
    /\ length (Memory._recent_images m) <= 10
    /\ (Memory.no_reinsertion_after_eviction names = true ->
        Memory._recent_images m
        = firstn 10 (Memory.first_inserted_order names)).
Proof.
  intros ins m names. subst m names. unfold Memory.run.
  rewrite recent_fold. simpl Memory._recent_images.
  split; [|split; [|split]].
  - intros i Hin. rewrite recent_apply, recent_fold. simpl.
    unfold Memory.touch at 1. now rewrite Hin.
  - apply fold_touch_shape. split; [constructor | simpl; lia].
  - apply fold_touch_shape. split; [constructor | simpl; lia].
  - intros Hok. unfold Memory.first_inserted_order.
    apply (fold_touch_order _ [] [] []); auto.
Qed.

(** Eleven distinct names: only the ten most recent remain. *)
Lemma ledger_recent_after_insertions_witness :
  Memory.no_reinsertion_after_eviction
    ["n1"; "n2"; "n3"; "n4"; "n5"; "n6"; "n7"; "n8"; "n9"; "n10"; "n11"]%string
  = true
  /\ Memory._recent_images
       (Memory.run
          (map Memory.Generated
             ["n1"; "n2"; "n3"; "n4"; "n5"; "n6"; "n7"; "n8"; "n9"; "n10";
              "n11"]%string))
     = ["n11"; "n10"; "n9"; "n8"; "n7"; "n6"; "n5"; "n4"; "n3"; "n2"]%string.
Proof.
  split; [reflexivity|].
  exact (proj2 (proj2 (proj2
    (ledger_recent_after_insertions
       (map Memory.Generated
          ["n1"; "n2"; "n3"; "n4"; "n5"; "n6"; "n7"; "n8"; "n9"; "n10";
           "n11"]%string)))) eq_refl).
Defined.

(** C6 as stated fails: a name that was evicted and is inserted again comes
    back at the front, although ten other names were first inserted after
    it. *)
Lemma ledger_reinsertion_after_eviction :
  Memory._recent_images
    (Memory.run
       (map Memory.Generated
          ["a"; "b1"; "b2"; "b3"; "b4"; "b5"; "b6"; "b7"; "b8"; "b9"; "b10";
           "a"]%string))
  = ["a"; "b10"; "b9"; "b8"; "b7"; "b6"; "b5"; "b4"; "b3"; "b2"]%string
  /\ firstn 10
       (Memory.first_inserted_order
          ["a"; "b1"; "b2"; "b3"; "b4"; "b5"; "b6"; "b7"; "b8"; "b9"; "b10";
           "a"]%string)
     = ["b10"; "b9"; "b8"; "b7"; "b6"; "b5"; "b4"; "b3"; "b2"; "b1"]%string.
Proof. split; reflexivity. Qed.

(** C7. With no explicit source, the edit endpoint and the edit wrapper both
    take the ledger's last generated image when it is set, and otherwise the
    head of the recent list; an image edited after the last generation does
    not displace the generated one. *)
Theorem implicit_edit_target :
  forall (m : Memory.SessionMemory) (request : Api.EditRequest),
    Py.truthy (Api.image_filename request) = false ->
    (forall g, Memory.get_last_generated m = Some g -> g <> ""%string ->
       Api.image_to_edit request m = Some g
       /\ Wrapper.resolve_image_path m (Api.image_filename request) = Some g)
    /\ (forall x rest,
          Memory.get_last_generated m = None ->
          Memory._recent_images m = x :: rest ->
          Api.image_to_edit request m = Some x
          /\ Wrapper.resolve_image_path m (Api.image_filename request)
             = Some x)
    /\ (forall g e, g <> ""%string ->
          let m' := Memory.set_last_edited (Memory.set_last_generated m g) e in
          Api.image_to_edit request m' = Some g
          /\ Wrapper.resolve_image_path m' (Api.image_filename request)
             = Some g).
Proof.
  intros m request Hsrc.
  assert (Hset : forall m0 g, Memory.get_last_generated m0 = Some g ->
            g <> ""%string ->
            Api.image_to_edit request m0 = Some g
            /\ Wrapper.resolve_image_path m0 (Api.image_filename request)
               = Some g).
  { intros m0 g Hg Hne.
    unfold Api.image_to_edit, Wrapper.resolve_image_path, Py.or_.
    rewrite Hsrc, Hg. simpl.
    destruct (String.eqb_spec g ""); [contradiction | split; reflexivity]. }
  split; [|split].
  - intros g; apply Hset.
  - intros x rest Hnone Hrecent.
    unfold Api.image_to_edit, Wrapper.resolve_image_path, Py.or_,
      Memory.get_most_recent.
    rewrite Hsrc, Hnone, Hrecent. split; reflexivity.
  - intros g e Hne m'. apply Hset; auto.
Qed.

Lemma implicit_edit_target_witness :
  Api.image_to_edit (Api.mkEditRequest "make it red" None)
    (Memory.set_last_edited
       (Memory.set_last_generated Memory.init "image_1_1.png")
       "edited_1_image_1_1.png")
  = Some "image_1_1.png"%string.
Proof.
  exact (proj1 (proj2 (proj2
    (implicit_edit_target Memory.init
       (Api.mkEditRequest "make it red" None) eq_refl))
    "image_1_1.png"%string "edited_1_image_1_1.png"%string
    ltac:(discriminate))).
Defined.

(* ================================================================== *)
(** * Border trim and the grid split *)
(* ================================================================== *)

Section ScanFacts.

Import Imaging.
Local Open Scope Z_scope.

Variable im : image.
Variable threshold : Z.

(** The pixels in visiting order, and the scan as one loop over them. *)
Let points (xs ys : list Z) : list (Z * Z) :=
  flat_map (fun y => map (fun x => (x, y)) xs) ys.

Let scan (ps : list (Z * Z)) (acc : bounds) : bounds :=
  fold_left (fun acc p => visit im threshold (snd p) acc (fst p)) ps acc.

Let hit (x y : Z) : Prop := non_white threshold (pixels im x y) = true.

Lemma non_white_iff (p : rgb) :
  non_white threshold p = true <->
  (let '(r, g, b) := p in r < threshold \/ g < threshold \/ b < threshold).
Proof.
  destruct p as [[r g] b]. unfold non_white.
  rewrite !orb_true_iff, !Z.ltb_lt. tauto.
Qed.

Lemma In_range (n x : Z) : In x (range n) <-> 0 <= x < n.
Proof.
  unfold range. rewrite in_map_iff. split.
  - intros [k [<- Hk]]. apply in_seq in Hk. lia.
  - intros H. exists (Z.to_nat x). split; [lia|]. apply in_seq. lia.
Qed.

Lemma In_points (xs ys : list Z) (x y : Z) :
  In (x, y) (points xs ys) <-> In x xs /\ In y ys.
Proof.
  unfold points. rewrite in_flat_map. split.
  - intros [y' [Hy Hin]]. apply in_map_iff in Hin as [x' [Heq Hx]].
    inversion Heq; subst. tauto.
  - intros [Hx Hy]. exists y. split; [exact Hy|].
    apply in_map_iff. exists x. tauto.
Qed.

Lemma scan_rows (xs ys : list Z) (acc : bounds) :
  fold_left (fun acc y => fold_left (visit im threshold y) xs acc) ys acc
  = scan (points xs ys) acc.
Proof.
  revert acc. induction ys as [|y ys IH]; intros acc; [reflexivity|].
  cbn [fold_left]. rewrite IH. unfold scan, points. cbn [flat_map].
  rewrite fold_left_app. f_equal.
  clear. revert acc. induction xs as [|x xs IHx]; intros acc;
    [reflexivity | apply IHx].
Qed.

Lemma find_bounds_scan :
  find_bounds im threshold
  = scan (points (range (width im)) (range (height im)))
         {| min_x := width im; min_y := height im; max_x := 0; max_y := 0 |}.
Proof. apply scan_rows. Qed.

(** Every bound of the result is the initial one or a coordinate of a
    visited content pixel. *)
Definition attained (ps : list (Z * Z)) (b0 b : bounds) : Prop :=
  (min_x b = min_x b0 \/ exists x y, In (x, y) ps /\ hit x y /\ min_x b = x)
  /\ (max_x b = max_x b0
      \/ exists x y, In (x, y) ps /\ hit x y /\ max_x b = x)
  /\ (min_y b = min_y b0
      \/ exists x y, In (x, y) ps /\ hit x y /\ min_y b = y)
  /\ (max_y b = max_y b0
      \/ exists x y, In (x, y) ps /\ hit x y /\ max_y b = y).

(** The result encloses the initial box and every visited content pixel. *)
Definition encloses (ps : list (Z * Z)) (b0 b : bounds) : Prop :=
  (min_x b <= min_x b0 /\ max_x b0 <= max_x b
   /\ min_y b <= min_y b0 /\ max_y b0 <= max_y b)
  /\ forall x y, In (x, y) ps -> hit x y ->
       min_x b <= x <= max_x b /\ min_y b <= y <= max_y b.

Lemma scan_attained (ps : list (Z * Z)) (acc : bounds) :
  attained ps acc (scan ps acc).
Proof.
  revert acc. induction ps as [|[x y] ps IH]; intros acc.
  - unfold attained; simpl; tauto.
  - specialize (IH (visit im threshold y acc x)).
    change (scan ((x, y) :: ps) acc)
      with (scan ps (visit im threshold y acc x)).
    unfold attained in *.
    destruct IH as (H1 & H2 & H3 & H4).
    unfold visit in *. fold (hit x y) in *.
    destruct (non_white threshold (pixels im x y)) eqn:Hhit;
      cbn [min_x max_x min_y max_y] in *.
    + assert (Hxy : In (x, y) ((x, y) :: ps) /\ hit x y)
        by (split; [left; reflexivity | exact Hhit]).
      repeat split.
      * destruct H1 as [H1|(x' & y' & ? & ? & ?)];
          [|right; exists x', y'; simpl; tauto].
        destruct (Z.min_spec (min_x acc) x) as [[_ E]|[_ E]];
          [left; congruence | right; exists x, y; intuition congruence].
      * destruct H2 as [H2|(x' & y' & ? & ? & ?)];
          [|right; exists x', y'; simpl; tauto].
        destruct (Z.max_spec (max_x acc) x) as [[_ E]|[_ E]];
          [right; exists x, y; intuition congruence | left; congruence].
      * destruct H3 as [H3|(x' & y' & ? & ? & ?)];
          [|right; exists x', y'; simpl; tauto].
        destruct (Z.min_spec (min_y acc) y) as [[_ E]|[_ E]];
          [left; congruence | right; exists x, y; intuition congruence].
      * destruct H4 as [H4|(x' & y' & ? & ? & ?)];
          [|right; exists x', y'; simpl; tauto].
        destruct (Z.max_spec (max_y acc) y) as [[_ E]|[_ E]];
          [right; exists x, y; intuition congruence | left; congruence].
    + repeat split.
      * destruct H1 as [H1|(x' & y' & ? & ? & ?)];
          [left; exact H1 | right; exists x', y'; simpl; tauto].
      * destruct H2 as [H2|(x' & y' & ? & ? & ?)];
          [left; exact H2 | right; exists x', y'; simpl; tauto].
      * destruct H3 as [H3|(x' & y' & ? & ? & ?)];
          [left; exact H3 | right; exists x', y'; simpl; tauto].
      * destruct H4 as [H4|(x' & y' & ? & ? & ?)];
          [left; exact H4 | right; exists x', y'; simpl; tauto].
Qed.

Lemma scan_encloses (ps : list (Z * Z)) (acc : bounds) :
  encloses ps acc (scan ps acc).
Proof.
  revert acc. induction ps as [|[x y] ps IH]; intros acc.
  - unfold encloses; simpl. split; [lia | tauto].
  - specialize (IH (visit im threshold y acc x)).
    change (scan ((x, y) :: ps) acc)
      with (scan ps (visit im threshold y acc x)).
    destruct IH as [Hmono Hcov]. unfold encloses, visit in *.
    destruct (non_white threshold (pixels im x y)) eqn:Hhit;
      cbn [min_x max_x min_y max_y] in Hmono.
    + split; [lia|]. intros x' y' [Heq|Hin] Hh.
      * inversion Heq; subst. lia.
      * apply Hcov; assumption.
    + split; [lia|]. intros x' y' [Heq|Hin] Hh.
      * inversion Heq; subst. unfold hit in Hh. congruence.
      * apply Hcov; assumption.
Qed.

(** In terms of the content pixels of the image. *)
Lemma hit_content (x y : Z) :
  In (x, y) (points (range (width im)) (range (height im))) /\ hit x y
  <-> content im threshold x y.
Proof.
  unfold content, hit. rewrite In_points, !In_range, non_white_iff. tauto.
Qed.

Lemma find_bounds_attained :
  let b := find_bounds im threshold in
  (min_x b = width im \/ exists x y, content im threshold x y /\ min_x b = x)
  /\ (max_x b = 0 \/ exists x y, content im threshold x y /\ max_x b = x)
  /\ (min_y b = height im
      \/ exists x y, content im threshold x y /\ min_y b = y)
  /\ (max_y b = 0 \/ exists x y, content im threshold x y /\ max_y b = y).
Proof.
  intros b. subst b. rewrite find_bounds_scan.
  destruct (scan_attained (points (range (width im)) (range (height im)))
              {| min_x := width im; min_y := height im;
                 max_x := 0; max_y := 0 |}) as (H1 & H2 & H3 & H4).
  cbn [min_x max_x min_y max_y] in *.
  repeat split;
    match goal with
    | H : _ \/ _ |- _ =>
        destruct H as [H|(x & y & Hin & Hh & E)];
        [left; exact H
        |right; exists x, y; split; [apply hit_content; tauto | exact E]];
        fail
    end.
Qed.

Lemma find_bounds_encloses (x y : Z) :
  content im threshold x y ->
  let b := find_bounds im threshold in
  min_x b <= x <= max_x b /\ min_y b <= y <= max_y b.
Proof.
  intros Hc b. subst b. rewrite find_bounds_scan.
  apply hit_content in Hc as [Hin Hh].
  now apply scan_encloses.
Qed.

End ScanFacts.

Section TrimFacts.

Import Imaging.
Local Open Scope Z_scope.

(** The box computed for a picture whose content spans at least two columns
    and two rows, in terms of the minimal bounding box [(x0, y0)-(x1, y1)]
    of the content (both corners inclusive). *)
Lemma trim_box_of_content (im : image) (threshold x0 y0 x1 y1 : Z) :
  (forall x y, content im threshold x y -> x0 <= x <= x1 /\ y0 <= y <= y1) ->
  (exists y, content im threshold x0 y) ->
  (exists y, content im threshold x1 y) ->
  (exists x, content im threshold x y0) ->
  (exists x, content im threshold x y1) ->
  x0 < x1 -> y0 < y1 ->
  trim_box im threshold
  = Some (Z.max 0 (x0 - 5), Z.max 0 (y0 - 5),
          Z.min (width im) (x1 + 5), Z.min (height im) (y1 + 5)).
Proof.
  intros Hbox [ya Ha] [yb Hb] [xc Hc] [xd Hd] Hx Hy.
  pose proof (find_bounds_attained im threshold) as Hatt.
  pose proof (find_bounds_encloses im threshold _ _ Ha) as Ea.
  pose proof (find_bounds_encloses im threshold _ _ Hb) as Eb.
  pose proof (find_bounds_encloses im threshold _ _ Hc) as Ec.
  pose proof (find_bounds_encloses im threshold _ _ Hd) as Ed.
  cbv zeta in *. unfold trim_box.
  set (b := find_bounds im threshold) in *.
  destruct Hatt as (A1 & A2 & A3 & A4).
  assert (Hin : 0 <= x0 < width im /\ 0 <= y0 < height im
                /\ 0 <= x1 < width im /\ 0 <= y1 < height im).
  { unfold content in Ha, Hb, Hc, Hd. lia. }
  assert (E1 : min_x b = x0).
  { destruct A1 as [E|(x & y & Hxy & E)]; [lia|].
    apply Hbox in Hxy. lia. }
  assert (E2 : max_x b = x1).
  { destruct A2 as [E|(x & y & Hxy & E)]; [lia|].
    apply Hbox in Hxy. lia. }
  assert (E3 : min_y b = y0).
  { destruct A3 as [E|(x & y & Hxy & E)]; [lia|].
    apply Hbox in Hxy. lia. }
  assert (E4 : max_y b = y1).
  { destruct A4 as [E|(x & y & Hxy & E)]; [lia|].
    apply Hbox in Hxy. lia. }
  rewrite E1, E2, E3, E4.
  replace (x0 >=? x1) with false
    by (symmetry; rewrite Z.geb_leb; apply Z.leb_gt; lia).
  replace (y0 >=? y1) with false
    by (symmetry; rewrite Z.geb_leb; apply Z.leb_gt; lia).
  reflexivity.
Qed.

(** The trim of a picture with pixels has pixels. *)
Lemma trim_not_empty (im : image) (threshold : Z) :
  empty im = false -> empty (remove_white_borders im threshold) = false.
Proof.
  intros Him. unfold remove_white_borders.
  destruct (trim_box im threshold) as [[[[x0 y0] x1] y1]|] eqn:E;
    [|exact Him].
  unfold empty in *. apply orb_false_iff in Him as [Hw Hh].
  apply Z.leb_gt in Hw, Hh.
  pose proof (find_bounds_attained im threshold) as Hatt. cbv zeta in Hatt.
  unfold trim_box in E. set (b := find_bounds im threshold) in *.
  destruct ((min_x b >=? max_x b) || (min_y b >=? max_y b)) eqn:G;
    [discriminate|].
  apply orb_false_iff in G as [Gx Gy].
  rewrite Z.geb_leb in Gx, Gy. apply Z.leb_gt in Gx, Gy.
  inversion E; subst; clear E.
  destruct Hatt as (A1 & A2 & A3 & A4).
  assert (B1 : 0 <= min_x b)
    by (destruct A1 as [->|(x & y & C & ->)]; unfold content in *; lia).
  assert (B2 : max_x b < width im)
    by (destruct A2 as [->|(x & y & C & ->)]; unfold content in *; lia).
  assert (B3 : 0 <= min_y b)
    by (destruct A3 as [->|(x & y & C & ->)]; unfold content in *; lia).
  assert (B4 : max_y b < height im)
    by (destruct A4 as [->|(x & y & C & ->)]; unfold content in *; lia).
  cbn [crop width height].
  apply orb_false_iff. split; apply Z.leb_gt; lia.
Qed.

(** The trim of a picture without pixels has none. *)
Lemma trim_empty (im : image) (threshold : Z) :
  empty im = true -> empty (remove_white_borders im threshold) = true.
Proof.
  intros Him. unfold remove_white_borders.
  destruct (trim_box im threshold) as [[[[x0 y0] x1] y1]|] eqn:E;
    [|exact Him].
  unfold empty in *. apply orb_true_iff in Him.
  pose proof (find_bounds_attained im threshold) as Hatt. cbv zeta in Hatt.
  unfold trim_box in E. set (b := find_bounds im threshold) in *.
  destruct ((min_x b >=? max_x b) || (min_y b >=? max_y b)) eqn:G;
    [discriminate|].
  apply orb_false_iff in G as [Gx Gy].
  rewrite Z.geb_leb in Gx, Gy. apply Z.leb_gt in Gx, Gy.
  inversion E; subst; clear E.
  destruct Hatt as (A1 & A2 & A3 & A4).
  assert (Hno : forall x y, ~ content im threshold x y).
  { intros x y C. unfold content in C.
    destruct Him as [H|H]; apply Z.leb_le in H; lia. }
  assert (B1 : min_x b = width im)
    by (destruct A1 as [E|(x & y & C & _)]; [exact E | now apply Hno in C]).
  assert (B2 : max_x b = 0)
    by (destruct A2 as [E|(x & y & C & _)]; [exact E | now apply Hno in C]).
  assert (B3 : min_y b = height im)
    by (destruct A3 as [E|(x & y & C & _)]; [exact E | now apply Hno in C]).
  assert (B4 : max_y b = 0)
    by (destruct A4 as [E|(x & y & C & _)]; [exact E | now apply Hno in C]).
  cbn [crop width height].
  apply orb_true_iff. left. apply Z.leb_le. lia.
Qed.

(** A trimmed quadrant has pixels exactly when the quadrant size is
    positive in both directions. *)
Lemma trimmed_quadrant_empty (grid : image) (quad_width quad_height : Z)
  (origin : Z * Z) :
  empty (remove_white_borders
           (quadrant grid quad_width quad_height origin) default_threshold)
  = negb ((0 <? quad_width) && (0 <? quad_height)).
Proof.
  destruct origin as [x y].
  assert (Hq : empty (quadrant grid quad_width quad_height (x, y))
               = negb ((0 <? quad_width) && (0 <? quad_height))).
  { unfold empty, quadrant. cbn [crop width height].
    replace (x + quad_width - x) with quad_width by lia.
    replace (y + quad_height - y) with quad_height by lia.
    destruct (Z.ltb_spec 0 quad_width); destruct (Z.ltb_spec 0 quad_height);
      destruct (Z.leb_spec quad_width 0); destruct (Z.leb_spec quad_height 0);
      simpl; reflexivity || lia. }
  destruct (empty (quadrant grid quad_width quad_height (x, y))) eqn:E.
  - rewrite <- Hq. now apply trim_empty.
  - rewrite <- Hq. now apply trim_not_empty.
Qed.

End TrimFacts.

(** C9. Border trim is skipped whenever all content pixels lie in one column
    or all lie in one row (which covers a blank picture and a picture with a
    single content pixel): the picture is returned as it is. *)
Theorem trim_skipped_on_single_row_or_column :
  forall (im : Imaging.image) (threshold : Z),
    (0 <= Imaging.width im)%Z -> (0 <= Imaging.height im)%Z ->
    (exists x0, forall x y, Imaging.content im threshold x y -> x = x0)
    \/ (exists y0, forall x y, Imaging.content im threshold x y -> y = y0) ->
    Imaging.trim_box im threshold = None
    /\ Imaging.remove_white_borders im threshold = im.
Proof.
  intros im threshold Hw Hh Hline.
  assert (Hnone : Imaging.trim_box im threshold = None).
  { pose proof (find_bounds_attained im threshold) as Hatt.
    cbv zeta in Hatt. unfold Imaging.trim_box.
    set (b := Imaging.find_bounds im threshold) in *.
    destruct Hatt as (A1 & A2 & A3 & A4).
    assert (Hguard : (Imaging.min_x b >= Imaging.max_x b
                      \/ Imaging.min_y b >= Imaging.max_y b)%Z).
    { destruct Hline as [[x0 Hcol]|[y0 Hrow]]; [left | right].
      - destruct A1 as [E1|(x & y & Hc & E1)];
          destruct A2 as [E2|(x' & y' & Hc' & E2)];
          try (pose proof (Hcol _ _ Hc));
          try (pose proof (Hcol _ _ Hc'));
          try (destruct Hc as ([? ?] & _)); try (destruct Hc' as ([? ?] & _));
          lia.
      - destruct A3 as [E1|(x & y & Hc & E1)];
          destruct A4 as [E2|(x' & y' & Hc' & E2)];
          try (pose proof (Hrow _ _ Hc));
          try (pose proof (Hrow _ _ Hc'));
          try (destruct Hc as (_ & [? ?] & _));
          try (destruct Hc' as (_ & [? ?] & _));
          lia. }
    replace ((Imaging.min_x b >=? Imaging.max_x b)%Z
             || (Imaging.min_y b >=? Imaging.max_y b)%Z) with true;
      [reflexivity|].
    symmetry. apply orb_true_iff. rewrite !Z.geb_leb, !Z.leb_le. lia. }
  split; [exact Hnone|].
  unfold Imaging.remove_white_borders. now rewrite Hnone.
Qed.

(** A quadrant with exactly one content pixel comes back uncropped. *)
Lemma trim_skipped_on_single_row_or_column_witness :
  Imaging.remove_white_borders Samples.one_dot Imaging.default_threshold
  = Samples.one_dot.
Proof.
  refine (proj2 (trim_skipped_on_single_row_or_column
                   Samples.one_dot Imaging.default_threshold _ _ _)).
  - simpl; lia.
  - simpl; lia.
  - left. exists 10%Z. intros x y (_ & _ & Hc).
    unfold Samples.one_dot, Imaging.default_threshold in Hc. simpl in Hc.
    destruct (Z.eqb_spec x 10); [assumption|].
    simpl in Hc. unfold Samples.white in Hc. lia.
Defined.

(** C4, evaluated on a quadrant whose content is the 2x2 box of the columns
    10..11 and the rows 10..11: the crop box is (5, 5, 16, 16).  Its right
    and lower edges are exclusive, so the crop keeps 5 columns left of the
    content and 5 rows above it, but only 4 columns right of it and 4 rows
    below it; the result is 11x11 where a 5-pixel padding all around gives
    12x12. *)
Theorem trim_pads_four_on_right_and_bottom :
  Imaging.trim_box Samples.two_dots Imaging.default_threshold
  = Some (5, 5, 16, 16)%Z
  /\ Imaging.width
       (Imaging.remove_white_borders Samples.two_dots
          Imaging.default_threshold) = 11%Z
  /\ Imaging.height
       (Imaging.remove_white_borders Samples.two_dots
          Imaging.default_threshold) = 11%Z.
Proof. vm_compute. repeat split. Qed.

Section SplitFacts.

Import Imaging.
Local Open Scope Z_scope.

Lemma even_halves (n : Z) : Z.even n = true -> n = 2 * (n / 2).
Proof.
  intros H. apply Z.even_spec in H as [k ->].
  now rewrite (Z.mul_comm 2 k), Z.div_mul, Z.mul_comm by lia.
Qed.

Lemma crop_pixels (im : image) (x0 y0 x1 y1 i j : Z) :
  0 <= x0 + i < width im -> 0 <= y0 + j < height im ->
  pixels (crop im (x0, y0, x1, y1)) i j = pixels im (x0 + i) (y0 + j).
Proof.
  intros Hx Hy. simpl.
  replace (0 <=? x0 + i) with true by (symmetry; apply Z.leb_le; lia).
  replace (x0 + i <? width im) with true by (symmetry; apply Z.ltb_lt; lia).
  replace (0 <=? y0 + j) with true by (symmetry; apply Z.leb_le; lia).
  replace (y0 + j <? height im) with true by (symmetry; apply Z.ltb_lt; lia).
  reflexivity.
Qed.

(** The result of the split for a decodable composite stored as
    [base.ext] with a registered extension. *)
Lemma split_grid_image_names (registered_extension : string -> bool)
  (grid : image) (base e : string) (remove_original : bool) (d : disk) :
  Py.has_stem base = true ->
  Py.rfind "."%char e = -1 -> Py.rfind "/"%char e = -1 ->
  registered_extension (Py.lower ("." ++ e)) = true ->
  d (Py.join UPLOAD_DIR (base ++ "." ++ e)) = Some (Picture grid) ->
  0 < width grid / 2 -> 0 < height grid / 2 ->
  let W := width grid in
  let H := height grid in
  let trimmed o :=
    remove_white_borders (quadrant grid (W / 2) (H / 2) o)
      default_threshold in
  let path name := Py.join UPLOAD_DIR name in
  split_grid_image registered_extension (base ++ "." ++ e)
    remove_original d
  = (let d4 :=
       write
         (write
            (write
               (write d (path (base ++ "_1." ++ e)%string)
                  (Picture (trimmed (0, 0))))
               (path (base ++ "_2." ++ e)%string)
               (Picture (trimmed (W / 2, 0))))
            (path (base ++ "_3." ++ e)%string)
            (Picture (trimmed (0, H / 2))))
         (path (base ++ "_4." ++ e)%string)
         (Picture (trimmed (W / 2, H / 2))) in
     if remove_original
     then remove d4 (path (base ++ "." ++ e)%string) else d4,
     SplitOk
       [((base ++ "_1." ++ e)%string, trimmed (0, 0));
        ((base ++ "_2." ++ e)%string, trimmed (W / 2, 0));
        ((base ++ "_3." ++ e)%string, trimmed (0, H / 2));
        ((base ++ "_4." ++ e)%string, trimmed (W / 2, H / 2))]).
Proof.
  intros Hstem Hdot Hsep Hreg Hfile HW HH W H trimmed path.
  unfold split_grid_image. rewrite Hfile. fold W. fold H.
  rewrite (splitext_stem base e Hstem Hdot Hsep).
  cbn [save_quadrants origins]. rewrite Hreg.
  rewrite !trimmed_quadrant_empty.
  replace (0 <? W / 2) with true by (symmetry; now apply Z.ltb_lt).
  replace (0 <? H / 2) with true by (symmetry; now apply Z.ltb_lt).
  reflexivity.
Qed.

End SplitFacts.

(** C5. For a composite of even width W > 0 and even height H > 0 stored
    as [base.ext], the split crops four quadrants of size (W/2, H/2) at the
    origins (0,0), (W/2,0), (0,H/2), (W/2,H/2); every pixel of a quadrant is
    the source pixel at its origin's offset, every source pixel lies in
    exactly one quadrant, and the trimmed quadrants are saved, in that order,
    as [base_1.ext] .. [base_4.ext]. *)
Theorem grid_split_tiles_and_names :
  forall (registered_extension : string -> bool) (grid : Imaging.image)
         (base e : string) (remove_original : bool) (d : Imaging.disk),
    let W := Imaging.width grid in
    let H := Imaging.height grid in
    let filename := (base ++ "." ++ e)%string in
    (0 < W)%Z -> (0 < H)%Z -> Z.even W = true -> Z.even H = true ->
    Py.has_stem base = true ->
    Py.rfind "."%char e = (-1)%Z -> Py.rfind "/"%char e = (-1)%Z ->
    registered_extension (Py.lower ("." ++ e)) = true ->
    d (Py.join Imaging.UPLOAD_DIR filename) = Some (Imaging.Picture grid) ->
    let q := Imaging.quadrant grid (W / 2) (H / 2) in
    let trimmed o :=
      Imaging.remove_white_borders (q o) Imaging.default_threshold in
    let path name := Py.join Imaging.UPLOAD_DIR name in
    Imaging.origins (W / 2) (H / 2)
    = [(0, 0); (W / 2, 0); (0, H / 2); (W / 2, H / 2)]%Z
    /\ (forall o, In o (Imaging.origins (W / 2) (H / 2)) ->
          Imaging.width (q o) = (W / 2)%Z
          /\ Imaging.height (q o) = (H / 2)%Z
          /\ forall i j, (0 <= i < W / 2)%Z -> (0 <= j < H / 2)%Z ->
               Imaging.pixels (q o) i j
               = Imaging.pixels grid (fst o + i) (snd o + j))
    /\ (forall x y, (0 <= x < W)%Z -> (0 <= y < H)%Z ->
          exists o,
            In o (Imaging.origins (W / 2) (H / 2))
            /\ (fst o <= x < fst o + W / 2)%Z
            /\ (snd o <= y < snd o + H / 2)%Z
            /\ forall o', In o' (Imaging.origins (W / 2) (H / 2)) ->
                 (fst o' <= x < fst o' + W / 2)%Z ->
                 (snd o' <= y < snd o' + H / 2)%Z -> o' = o)
    /\ Imaging.split_grid_image registered_extension filename
         remove_original d
       = (let d4 :=
            Imaging.write
              (Imaging.write
                 (Imaging.write
                    (Imaging.write d
                       (path (base ++ "_1." ++ e)%string)
                       (Imaging.Picture (trimmed (0, 0)%Z)))
                    (path (base ++ "_2." ++ e)%string)
                    (Imaging.Picture (trimmed (W / 2, 0)%Z)))
                 (path (base ++ "_3." ++ e)%string)
                 (Imaging.Picture (trimmed (0, H / 2)%Z)))
              (path (base ++ "_4." ++ e)%string)
              (Imaging.Picture (trimmed (W / 2, H / 2)%Z)) in
          if remove_original
          then Imaging.remove d4 (path filename) else d4,
          Imaging.SplitOk
            [((base ++ "_1." ++ e)%string, trimmed (0, 0)%Z);
             ((base ++ "_2." ++ e)%string, trimmed (W / 2, 0)%Z);
             ((base ++ "_3." ++ e)%string, trimmed (0, H / 2)%Z);
             ((base ++ "_4." ++ e)%string, trimmed (W / 2, H / 2)%Z)]).
Proof.
  intros registered_extension grid base e remove_original d W H filename
    HW HH HevW HevH Hstem Hdot Hsep Hreg Hfile q trimmed path.
  pose proof (even_halves W HevW) as EW.
  pose proof (even_halves H HevH) as EH.
  split; [reflexivity|]. split; [|split].
  - intros [ox oy] Hin. simpl in Hin.
    assert (Ho : (ox = 0 \/ ox = W / 2)%Z /\ (oy = 0 \/ oy = H / 2)%Z).
    { destruct Hin as [E|[E|[E|[E|[]]]]]; inversion E; subst; tauto. }
    split; [|split].
    + subst q. simpl. lia.
    + subst q. simpl. lia.
    + intros i j Hi Hj. subst q. unfold Imaging.quadrant.
      apply crop_pixels; fold W; fold H; simpl; lia.
  - intros x y Hx Hy.
    exists ((if x <? W / 2 then 0 else W / 2)%Z,
            (if y <? H / 2 then 0 else H / 2)%Z).
    destruct (Z.ltb_spec x (W / 2)); destruct (Z.ltb_spec y (H / 2));
      (split; [simpl; tauto|]); cbn [fst snd];
      (split; [lia|]); (split; [lia|]);
      intros [ox oy] Hin Hox Hoy; cbn [fst snd] in *; simpl in Hin;
      destruct Hin as [E|[E|[E|[E|[]]]]]; inversion E; subst;
      solve [reflexivity | f_equal; lia | exfalso; lia].
  - apply (split_grid_image_names registered_extension grid base e
             remove_original d Hstem Hdot Hsep Hreg Hfile);
      fold W; fold H; lia.
Qed.

(** A 4x2 composite stored as [grid.png]. *)
Lemma grid_split_tiles_and_names_witness :
  snd (Imaging.split_grid_image Samples.png_only "grid.png" true
         (fun p => if String.eqb p "uploads/grid.png"
                   then Some (Imaging.Picture Samples.four_colours)
                   else None))
  = Imaging.SplitOk
      [("grid_1.png"%string,
        Imaging.remove_white_borders
          (Imaging.quadrant Samples.four_colours 2 1 (0, 0)%Z)
          Imaging.default_threshold);
       ("grid_2.png"%string,
        Imaging.remove_white_borders
          (Imaging.quadrant Samples.four_colours 2 1 (2, 0)%Z)
          Imaging.default_threshold);
       ("grid_3.png"%string,
        Imaging.remove_white_borders
          (Imaging.quadrant Samples.four_colours 2 1 (0, 1)%Z)
          Imaging.default_threshold);
       ("grid_4.png"%string,
        Imaging.remove_white_borders
          (Imaging.quadrant Samples.four_colours 2 1 (2, 1)%Z)
          Imaging.default_threshold)].
Proof.
  exact (f_equal snd
    (proj2 (proj2 (proj2
      (grid_split_tiles_and_names Samples.png_only Samples.four_colours
         "grid" "png" true
         (fun p => if String.eqb p "uploads/grid.png"
                   then Some (Imaging.Picture Samples.four_colours)
                   else None)
         ltac:(simpl; lia) ltac:(simpl; lia) eq_refl eq_refl
         eq_refl eq_refl eq_refl eq_refl eq_refl))))).
Defined.

Section NamingFacts.

Import Imaging.
Local Open Scope string_scope.

Lemma composite_name_split (ts : string) :
  Tools.composite_name ts 0 = ("image_" ++ ts ++ "_1") ++ "." ++ "png".
Proof.
  unfold Tools.composite_name. simpl. f_equal. f_equal. f_equal.
  f_equal. f_equal. f_equal.
  rewrite app_assoc_str. reflexivity.
Qed.

Lemma composite_stem (ts : string) :
  Py.has_stem ("image_" ++ ts ++ "_1") = true.
Proof.
  replace ("image_" ++ ts ++ "_1")
    with (("image_" ++ ts ++ "_") ++ String "1"%char "").
  - apply has_stem_last; discriminate.
  - simpl. do 6 f_equal. apply app_assoc_str.
Qed.



Lemma eqb_app_head (a s t : string) :
  String.eqb (a ++ s) (a ++ t) = String.eqb s t.
Proof.
  induction a as [|c a IH]; simpl; [reflexivity|].
  now rewrite Ascii.eqb_refl.
Qed.

Lemma quadrant_path (ts suffix : string) :
  Py.join UPLOAD_DIR (("image_" ++ ts ++ "_1") ++ suffix)
  = ("uploads/image_" ++ ts ++ "_1") ++ suffix.
Proof.
  unfold Py.join, Py.startswith, UPLOAD_DIR. simpl.
  repeat (rewrite ?app_assoc_str; cbn [append]). reflexivity.
Qed.

(** A generation whose composite decodes and is at least 2 pixels wide and
    high: the names it returns and the disk it leaves. *)
Lemma generation_of_grid (registered_extension : string -> bool)
  (now uuid4 prompt : string) (pack_size : Z) (parts : list (option file))
  (grid : image) (d : disk) :
  registered_extension ".png" = true ->
  Tools.first_inline_data parts = Some (Picture grid) ->
  (2 <= width grid)%Z -> (2 <= height grid)%Z ->
  let ts := now ++ "_" ++ Py.take 8 uuid4 in
  let stem := "uploads/image_" ++ ts ++ "_1" in
  let W := width grid in
  let H := height grid in
  let trimmed o :=
    Picture
      (remove_white_borders (quadrant grid (W / 2) (H / 2) o)
         default_threshold) in
  let r := Tools.generate_image_compute registered_extension now uuid4
             (Tools.Returns (Some parts)) prompt pack_size d in
  snd r
  = Tools.GenerateOk
      [("image_" ++ ts ++ "_1") ++ "_1.png";
       ("image_" ++ ts ++ "_1") ++ "_2.png";
       ("image_" ++ ts ++ "_1") ++ "_3.png";
       ("image_" ++ ts ++ "_1") ++ "_4.png"]
      "Successfully generated 4 images" (Py.take 8 uuid4)
  /\ fst r (stem ++ ".png") = None
  /\ fst r (stem ++ "_1.png") = Some (trimmed (0, 0)%Z)
  /\ fst r (stem ++ "_2.png") = Some (trimmed (W / 2, 0)%Z)
  /\ fst r (stem ++ "_3.png") = Some (trimmed (0, H / 2)%Z)
  /\ fst r (stem ++ "_4.png") = Some (trimmed (W / 2, H / 2)%Z)
  /\ (forall p,
        ~ In p [stem ++ ".png"; stem ++ "_1.png"; stem ++ "_2.png";
                stem ++ "_3.png"; stem ++ "_4.png"] ->
        fst r p = d p).
Proof.
  intros Hreg Hparts HW HH ts stem W H trimmed r.
  assert (HW2 : (0 < W / 2)%Z)
    by (apply Z.lt_le_trans with 1%Z;
        [lia | apply Z.div_le_lower_bound; unfold W; lia]).
  assert (HH2 : (0 < H / 2)%Z)
    by (apply Z.lt_le_trans with 1%Z;
        [lia | apply Z.div_le_lower_bound; unfold H; lia]).
  subst r. unfold Tools.generate_image_compute.
  cbn [seq fold_left]. unfold Tools.generate_step. rewrite Hparts.
  fold ts. rewrite composite_name_split.
  rewrite (split_grid_image_names registered_extension grid
             ("image_" ++ ts ++ "_1") "png" true
             (write d
                (Py.join UPLOAD_DIR
                   (("image_" ++ ts ++ "_1") ++ "." ++ "png"))
                (Picture grid))
             (composite_stem ts) eq_refl eq_refl Hreg)
    by (solve [unfold write; now rewrite String.eqb_refl
              | exact HW2 | exact HH2]).
  cbv zeta. cbn [fst snd]. fold W. fold H.
  change (("image_" ++ ts ++ "_1") ++ "." ++ "png")
    with (("image_" ++ ts ++ "_1") ++ ".png").
  change (("image_" ++ ts ++ "_1") ++ "_1." ++ "png")
    with (("image_" ++ ts ++ "_1") ++ "_1.png").
  change (("image_" ++ ts ++ "_1") ++ "_2." ++ "png")
    with (("image_" ++ ts ++ "_1") ++ "_2.png").
  change (("image_" ++ ts ++ "_1") ++ "_3." ++ "png")
    with (("image_" ++ ts ++ "_1") ++ "_3.png").
  change (("image_" ++ ts ++ "_1") ++ "_4." ++ "png")
    with (("image_" ++ ts ++ "_1") ++ "_4.png").
  rewrite !quadrant_path. fold stem.
  cbn [map fst snd app length]. unfold remove, write. cbv beta.
  split; [reflexivity|].
  split; [now rewrite String.eqb_refl|].
  split; [rewrite !eqb_app_head; reflexivity|].
  split; [rewrite !eqb_app_head; reflexivity|].
  split; [rewrite !eqb_app_head; reflexivity|].
  split; [rewrite !eqb_app_head; reflexivity|].
  intros p Hp. cbn [In] in Hp.
  repeat match goal with
         | |- context [String.eqb p ?q] =>
             destruct (String.eqb_spec p q);
             [exfalso; apply Hp; subst p; auto 10|]
         end.
  reflexivity.
Qed.



End NamingFacts.



(* ================================================================== *)
(** * Listing and polling *)
(* ================================================================== *)

Section ListingFacts.

Import Api.
Local Open Scope Z_scope.

Lemma keyed_In (files : list dirent) (ks : list (string * Z)) :
  keyed files = Some ks ->
  forall n t, In (n, t) ks <->
              exists f, In f files /\ d_name f = n /\ d_mtime f = Some t.
Proof.
  revert ks. induction files as [|f files IH]; intros ks Hk n t.
  - inversion Hk; subst. simpl. split; [tauto | intros (? & [] & _)].
  - simpl in Hk. destruct (d_mtime f) as [tf|] eqn:Hf; [|discriminate].
    destruct (keyed files) as [ks'|]; [|discriminate].
    inversion Hk; subst; clear Hk. simpl. rewrite (IH ks' eq_refl). split.
    + intros [E|(g & Hg & Hn & Ht)].
      * inversion E; subst. exists f. auto.
      * exists g. auto.
    + intros (g & [->|Hg] & Hn & Ht).
      * left. congruence.
      * right. exists g. auto.
Qed.

Lemma keyed_total (files : list dirent) :
  (forall f, In f files -> d_mtime f <> None) ->
  exists ks, keyed files = Some ks.
Proof.
  induction files as [|f files IH]; intros Hall; simpl.
  - now exists [].
  - destruct (d_mtime f) as [t|] eqn:Hf.
    + destruct IH as [ks ->]; [intros g Hg; apply Hall; now right|].
      now eexists.
    + exfalso. apply (Hall f); [now left | exact Hf].
Qed.

Lemma insert_desc_In (f p : string * Z) (sorted : list (string * Z)) :
  In p (insert_desc f sorted) <-> p = f \/ In p sorted.
Proof.
  induction sorted as [|g rest IH]; simpl.
  - intuition.
  - destruct (snd g >? snd f); simpl; [rewrite IH|]; intuition.
Qed.

Lemma sort_desc_In (p : string * Z) (files : list (string * Z)) :
  In p (sort_desc files) <-> In p files.
Proof.
  induction files as [|f files IH]; simpl; [tauto|].
  rewrite insert_desc_In, IH. intuition.
Qed.

(** The head of a sorted list carries the largest time. *)
Definition head_newest (l : list (string * Z)) : Prop :=
  match l with
  | [] => True
  | h :: _ => forall p, In p l -> snd p <= snd h
  end.

Lemma insert_desc_head (f : string * Z) (sorted : list (string * Z)) :
  head_newest sorted -> head_newest (insert_desc f sorted).
Proof.
  destruct sorted as [|g rest]; simpl.
  - intros _ p [->|[]]. lia.
  - intros Hg. destruct (Z.gtb_spec (snd g) (snd f)); simpl.
    + intros p [->|Hp]; [lia|].
      apply insert_desc_In in Hp as [->|Hp]; [lia|].
      apply Hg. now right.
    + intros p [->|[->|Hp]]; [lia | lia |].
      specialize (Hg p (or_intror Hp)). lia.
Qed.

Lemma sort_desc_head (files : list (string * Z)) :
  head_newest (sort_desc files).
Proof.
  induction files as [|f files IH]; simpl; [exact I|].
  now apply insert_desc_head.
Qed.

(** Every listed name ends in [.png] and starts with the prefix. *)
Lemma list_images_selects (dir : listing) (prefix : string) (limit : nat)
  (x : string) :
  In x (list_images dir prefix limit) ->
  Py.endswith x ".png" = true /\ Py.startswith x prefix = true.
Proof.
  unfold list_images. destruct dir as [entries|]; [|intros []].
  destruct (keyed _) as [ks|] eqn:Hk; [|intros []].
  intros Hin. apply In_firstn in Hin.
  apply in_map_iff in Hin as [[n t] [E Hin]]. simpl in E. subst n.
  apply (proj1 (sort_desc_In _ _)) in Hin.
  apply (proj1 (keyed_In _ _ Hk _ _)) in Hin as (f & Hf & <- & _).
  apply filter_In in Hf as [_ Hf]. now apply andb_true_iff in Hf.
Qed.

Lemma listed_name_not_empty (dir : listing) (prefix : string) (limit : nat)
  (x : string) :
  In x (list_images dir prefix limit) -> x <> ""%string.
Proof.
  intros Hin ->. apply list_images_selects in Hin as [Hpng _].
  discriminate.
Qed.

(** A readable directory with a [.png] file lists the newest one first. *)
Lemma list_images_newest (entries : list dirent) (limit : nat) :
  (forall f, In f entries -> Py.endswith (d_name f) ".png" = true ->
             d_mtime f <> None) ->
  (exists f, In f entries /\ Py.endswith (d_name f) ".png" = true) ->
  exists newest rest tn,
    list_images (Some entries) "" (S limit) = newest :: rest
    /\ (exists f, In f entries /\ d_name f = newest
                  /\ d_mtime f = Some tn
                  /\ Py.endswith newest ".png" = true)
    /\ (forall f, In f entries -> Py.endswith (d_name f) ".png" = true ->
          exists t, d_mtime f = Some t /\ t <= tn).
Proof.
  intros Hall [f0 [Hf0 Hpng0]]. unfold list_images.
  set (files := filter _ entries).
  assert (Hfiles : forall f, In f files <->
                     In f entries /\ Py.endswith (d_name f) ".png" = true).
  { intros f. unfold files. rewrite filter_In, andb_true_iff.
    unfold Py.startswith.
    assert (String.prefix "" (d_name f) = true)
      by (destruct (d_name f); reflexivity).
    tauto. }
  destruct (keyed_total files) as [ks Hk].
  { intros f Hf. apply Hfiles in Hf as [? ?]. now apply Hall. }
  rewrite Hk.
  pose proof (sort_desc_head ks) as Hhead.
  destruct (sort_desc ks) as [|[n tn] sorted] eqn:Hs.
  - exfalso.
    assert (Hin : In f0 files) by (apply Hfiles; tauto).
    destruct (d_mtime f0) as [t0|] eqn:Ht0.
    + assert (H : In (d_name f0, t0) ks)
        by (apply (proj2 (keyed_In _ _ Hk _ _)); exists f0; auto).
      apply (proj2 (sort_desc_In _ _)) in H. rewrite Hs in H. exact H.
    + apply Hfiles in Hin as [? ?]. now apply (Hall f0).
  - exists n, (firstn limit (map fst sorted)), tn.
    split; [reflexivity|].
    assert (Hn : In (n, tn) ks)
      by (apply (proj1 (sort_desc_In _ _)); rewrite Hs; now left).
    apply (proj1 (keyed_In _ _ Hk _ _)) in Hn as (f & Hf & Hname & Ht).
    apply Hfiles in Hf as [Hf Hpng]. split.
    + exists f. rewrite <- Hname. auto.
    + intros g Hg Hgpng.
      destruct (d_mtime g) as [t|] eqn:Hgt;
        [|exfalso; now apply (Hall g)].
      exists t. split; [reflexivity|].
      assert (Hin : In (d_name g, t) (sort_desc ks)).
      { apply (proj2 (sort_desc_In _ _)), (proj2 (keyed_In _ _ Hk _ _)).
        exists g. repeat split; auto. apply Hfiles; tauto. }
      rewrite Hs in Hin. apply (Hhead _ Hin).
Qed.

End ListingFacts.

Section PollFacts.

Import Api.
Local Open Scope Z_scope.

Variable w : world.
Variable clock : nat.
Variable prefix : string.
Variable limit : nat.
Variables max_wait_time poll_interval : Z.

Local Abbreviation listed := (Api.listed w clock prefix limit).
Local Abbreviation after_sleeps :=
  (Api.after_sleeps w clock prefix limit poll_interval).
Local Abbreviation keeps_waiting :=
  (Api.keeps_waiting w clock prefix limit max_wait_time poll_interval).
Local Abbreviation stops :=
  (Api.stops w clock prefix limit max_wait_time poll_interval).

Lemma loop_condition (j : nat) :
  is_empty (filenames (after_sleeps j))
  && (waited (after_sleeps j) <? max_wait_time)
  = true <-> keeps_waiting j.
Proof.
  unfold Api.keeps_waiting. cbn [filenames waited Api.after_sleeps].
  rewrite andb_true_iff, Z.ltb_lt.
  destruct (listed j); simpl; intuition congruence.
Qed.

Lemma wait_loop_from (m j fuel : nat) :
  (m <= fuel)%nat ->
  (forall i, (j <= i < j + m)%nat -> keeps_waiting i) ->
  stops (j + m) ->
  wait_loop fuel w prefix limit max_wait_time poll_interval (after_sleeps j)
  = Some (after_sleeps (j + m)).
Proof.
  revert j fuel. induction m as [|m IH]; intros j fuel Hfuel Hkeep Hstop.
  - rewrite Nat.add_0_r in *.
    assert (Hc : is_empty (filenames (after_sleeps j))
                 && (waited (after_sleeps j) <? max_wait_time) = false).
    { destruct (_ && _) eqn:E; [|reflexivity].
      apply loop_condition in E as [Hl Ht].
      destruct Hstop as [Hs|Hs]; [contradiction | lia]. }
    destruct fuel; simpl; cbn [filenames waited Api.after_sleeps] in Hc;
      rewrite Hc; reflexivity.
  - destruct fuel as [|fuel]; [lia|].
    assert (Hc : keeps_waiting j) by (apply Hkeep; lia).
    apply loop_condition in Hc.
    cbn [wait_loop]. rewrite Hc.
    replace (j + S m)%nat with (S j + m)%nat in * by lia.
    rewrite <- (IH (S j) fuel); [|lia|intros i Hi; apply Hkeep; lia|auto].
    f_equal. unfold Api.after_sleeps, Api.listed.
    cbn [filenames waited listings].
    replace (clock + S j)%nat with (S (clock + j)) by lia.
    f_equal. lia.
Qed.

Lemma wait_for_images_first (n fuel : nat) :
  (n <= fuel)%nat ->
  (forall i, (i < n)%nat -> keeps_waiting i) ->
  stops n ->
  wait_for_images fuel w clock prefix limit max_wait_time poll_interval
  = Some (after_sleeps n).
Proof.
  intros Hfuel Hkeep Hstop. unfold wait_for_images.
  replace {| filenames := list_images (w clock) prefix limit;
             waited := 0; listings := S clock |}
    with (after_sleeps 0).
  - apply (wait_loop_from n 0 fuel); auto. intros i Hi. apply Hkeep. lia.
  - unfold Api.after_sleeps, Api.listed. now rewrite Nat.add_0_r.
Qed.

(** With a positive interval the loop reaches a stopping listing within the
    time bound. *)
Lemma stop_exists (b j : nat) :
  0 < poll_interval ->
  max_wait_time - Z.of_nat j * poll_interval <= Z.of_nat b * poll_interval ->
  exists m, (m <= b)%nat
            /\ (forall i, (j <= i < j + m)%nat -> keeps_waiting i)
            /\ stops (j + m).
Proof.
  intros Hpos. revert j. induction b as [|b IH]; intros j Hb.
  - exists 0%nat. split; [lia|]. split; [intros i Hi; lia|].
    right. rewrite Nat.add_0_r. lia.
  - destruct (listed j) as [|x l] eqn:Hl.
    + destruct (Z.lt_ge_cases (Z.of_nat j * poll_interval) max_wait_time)
        as [Hlt|Hge].
      * destruct (IH (S j)) as (m & Hm & Hkeep & Hstop); [lia|].
        exists (S m). split; [lia|]. split.
        -- intros i Hi. destruct (Nat.eq_dec i j) as [->|Hne].
           ++ split; assumption.
           ++ apply Hkeep. lia.
        -- now replace (j + S m)%nat with (S j + m)%nat by lia.
      * exists 0%nat. split; [lia|]. split; [intros i Hi; lia|].
        right. now rewrite Nat.add_0_r.
    + exists 0%nat. split; [lia|]. split; [intros i Hi; lia|].
      left. rewrite Nat.add_0_r, Hl. discriminate.
Qed.

End PollFacts.

(** C3 (as amended). With a positive interval the poller lists once, then
    sleeps [poll_interval] and lists again for as long as the listing is
    empty and [waited] is below [max_wait_time]; it returns at the first
    listing that is non-empty or at which [waited] has reached the bound,
    after a number of sleeps that given enough fuel it always reaches.  The
    count ([limit], 4 for a generation) only caps the names returned. *)
Theorem poller_returns_on_first_match_or_timeout :
  forall (w : Api.world) (clock : nat) (prefix : string) (limit : nat)
         (max_wait_time poll_interval : Z),
    (0 < poll_interval)%Z ->
    exists n : nat,
      (forall i, i < n ->
         Api.keeps_waiting w clock prefix limit max_wait_time poll_interval i)
      /\ Api.stops w clock prefix limit max_wait_time poll_interval n
      /\ (Z.of_nat n * poll_interval < Z.max 0 max_wait_time + poll_interval)%Z
      /\ length (Api.listed w clock prefix limit n) <= limit
      /\ forall fuel, n <= fuel ->
           Api.wait_for_images fuel w clock prefix limit max_wait_time
             poll_interval
           = Some (Api.after_sleeps w clock prefix limit poll_interval n).
Proof.
  intros w clock prefix limit max_wait_time poll_interval Hpos.
  destruct (stop_exists w clock prefix limit max_wait_time poll_interval
              (Z.to_nat (max_wait_time / poll_interval + 1)) 0 Hpos)
    as (n & Hn & Hkeep & Hstop).
  { pose proof (Z.mul_succ_div_gt max_wait_time poll_interval Hpos) as Hdiv.
    destruct (Z.le_gt_cases 0 max_wait_time) as [Hm|Hm].
    - pose proof (Z.div_pos max_wait_time poll_interval Hm Hpos). nia.
    - simpl. nia. }
  simpl in Hkeep, Hstop. exists n.
  split; [intros i Hi; apply Hkeep; lia|].
  split; [exact Hstop|]. split; [|split].
  - destruct n as [|n]; [lia|].
    destruct (Hkeep n) as [_ Hlt]; lia.
  - unfold Api.listed, Api.list_images.
    destruct (w (clock + n)) as [entries|]; [|simpl; lia].
    destruct (Api.keyed _); [|simpl; lia].
    rewrite length_firstn. lia.
  - intros fuel Hfuel. apply wait_for_images_first; auto.
    intros i Hi. apply Hkeep. lia.
Qed.

(** The generation poll on a directory that stays empty: 45 sleeps. *)
Lemma poller_returns_on_first_match_or_timeout_witness :
  exists n : nat,
    (forall i, i < n -> Api.keeps_waiting Worlds.empty 0 "" 4 90 2 i)
    /\ Api.stops Worlds.empty 0 "" 4 90 2 n
    /\ (Z.of_nat n * 2 < Z.max 0 90 + 2)%Z
    /\ length (Api.listed Worlds.empty 0 "" 4 n) <= 4
    /\ forall fuel, n <= fuel ->
         Api.wait_for_images fuel Worlds.empty 0 "" 4 90 2
         = Some (Api.after_sleeps Worlds.empty 0 "" 4 2 n).
Proof.
  exact (poller_returns_on_first_match_or_timeout Worlds.empty 0 ""%string 4
           90%Z 2%Z eq_refl).
Defined.

(** C3 as stated fails: with one matching artifact present the generation
    poll returns at once, with fewer than 4 names and all its time left. *)
Lemma poller_returns_with_one_match :
  Api.wait_for_images Api.enough_fuel Worlds.one_png 0 "" 4 90 2
  = Some {| Api.filenames := ["image_1_1.png"%string];
            Api.waited := 0;
            Api.listings := 1 |}
  /\ length ["image_1_1.png"%string] < 4
  /\ (0 < 90)%Z.
Proof. repeat split. unfold lt. repeat constructor. Qed.

Section EndpointFacts.

Import Api.
Local Open Scope Z_scope.

(** The two polls of the endpoints, in terms of the listings they see: the
    first non-empty listing within the 45 sleeps, or none. *)
Lemma endpoint_poll_finds (w : world) (prefix : string) (limit : nat)
  (fuel k : nat) (first : string) (rest : list string) :
  (k <= 45)%nat -> (k <= fuel)%nat ->
  (forall j, (j < k)%nat -> listed w 0 prefix limit j = []) ->
  listed w 0 prefix limit k = first :: rest ->
  wait_for_images fuel w 0 prefix limit 90 2
  = Some {| filenames := first :: rest;
            waited := Z.of_nat k * 2;
            listings := S k |}.
Proof.
  intros Hk Hfuel Hempty Hfound.
  rewrite (wait_for_images_first w 0 prefix limit 90 2 k fuel Hfuel).
  - unfold after_sleeps. now rewrite Hfound.
  - intros i Hi. split; [now apply Hempty | lia].
  - left. rewrite Hfound. discriminate.
Qed.

Lemma endpoint_poll_times_out (w : world) (prefix : string) (limit : nat)
  (fuel : nat) :
  (45 <= fuel)%nat ->
  (forall j, (j <= 45)%nat -> listed w 0 prefix limit j = []) ->
  wait_for_images fuel w 0 prefix limit 90 2
  = Some {| filenames := []; waited := 90; listings := 46 |}.
Proof.
  intros Hfuel Hempty.
  rewrite (wait_for_images_first w 0 prefix limit 90 2 45 fuel Hfuel).
  - unfold after_sleeps. now rewrite Hempty.
  - intros i Hi. split; [apply Hempty; lia | lia].
  - right. lia.
Qed.

(** The generate endpoint once its poll has found something. *)
Lemma generate_images_found (fuel k : nat) (run_async : runner) (w : world)
  (request : GenerateRequest) (memory : Memory.SessionMemory)
  (events : list event) (first : string) (rest : list string) :
  run_async (prompt request) = RunYields events ->
  (k <= 45)%nat -> (k <= fuel)%nat ->
  (forall j, (j < k)%nat -> listed w 0 "" 4 j = []) ->
  listed w 0 "" 4 k = first :: rest ->
  let message := agent_message events in
  let generic :=
    ("Successfully generated "
     ++ Py.str_of_nat (length (first :: rest)) ++ " image(s)")%string in
  exists user_message,
    generate_images fuel run_async w request memory
    = Some (Returned
              {| GenerateResponse.success := true;
                 GenerateResponse.message := user_message;
                 GenerateResponse.filenames := first :: rest |},
            Memory.set_last_generated memory first)
    /\ (message = ""%string \/ error_wording message = true ->
        user_message = generic)
    /\ (message <> ""%string -> failure_wording message = false ->
        user_message = message).
Proof.
  intros Hrun Hk Hfuel Hempty Hfound message generic.
  unfold generate_images. rewrite Hrun.
  rewrite (endpoint_poll_finds w "" 4 fuel k first rest) by assumption.
  cbn [filenames]. fold message. fold generic.
  assert (Hcap : firstn 4 (first :: rest) = first :: rest).
  { apply firstn_all2.
    assert (Hlen : (length (listed w 0 "" 4 k) <= 4)%nat).
    { unfold listed, list_images.
      destruct (w (0 + k)%nat); [|simpl; lia].
      destruct (keyed _); [|simpl; lia].
      rewrite length_firstn. lia. }
    now rewrite Hfound in Hlen. }
  rewrite Hcap. eexists. split; [reflexivity|].
  fold (error_wording message).
  destruct (String.eqb_spec message "") as [He|He].
  + split; [reflexivity | contradiction].
  + simpl negb. simpl andb. split.
    * intros [Hm|Hw]; [contradiction | now rewrite Hw].
    * intros _ Hf.
      assert (Hw : error_wording message = false).
      { unfold failure_wording in Hf. unfold error_wording.
        do 3 (apply orb_false_iff in Hf as [Hf _]). exact Hf. }
      now rewrite Hw.
Qed.

End EndpointFacts.

(** C1 (as amended). When the poll of an endpoint observes artifacts, the
    verdict is success.  The generate endpoint replaces the delegation
    message by a generic statement naming the number of artifacts when the
    message is empty or carries error wording ("Error:", "error",
    "failed"); the edit endpoint replaces it by "Image edited successfully"
    when it is empty or carries failure wording (also "cannot edit", "only
    generate", "I cannot").  A non-empty message without any failure wording
    is returned as the delegation layer gave it. *)
Theorem observed_artifacts_mean_success :
  (forall (fuel k : nat) (run_async : Api.runner) (w : Api.world)
          (request : Api.GenerateRequest) (memory : Memory.SessionMemory)
          (events : list Api.event) (first : string) (rest : list string),
      run_async (Api.prompt request) = Api.RunYields events ->
      k <= 45 -> k <= fuel ->
      (forall j, j < k -> Api.listed w 0 "" 4 j = []) ->
      Api.listed w 0 "" 4 k = first :: rest ->
      let message := Api.agent_message events in
      let generic :=
        ("Successfully generated "
         ++ Py.str_of_nat (length (first :: rest)) ++ " image(s)")%string in
      exists user_message,
        Api.generate_images fuel run_async w request memory
        = Some (Api.Returned
                  {| Api.GenerateResponse.success := true;
                     Api.GenerateResponse.message := user_message;
                     Api.GenerateResponse.filenames := first :: rest |},
                Memory.set_last_generated memory first)
        /\ (message = ""%string \/ Api.error_wording message = true ->
            user_message = generic)
        /\ (message <> ""%string -> Api.failure_wording message = false ->
            user_message = message))
  /\ (forall (fuel k : nat) (run_async : Api.runner) (w : Api.world)
             (request : Api.EditRequest) (memory : Memory.SessionMemory)
             (events : list Api.event) (target first : string)
             (rest : list string),
        Api.image_to_edit request memory = Some target ->
        target <> ""%string ->
        run_async (Api.edit_instruction target (Api.edit_prompt request))
        = Api.RunYields events ->
        k <= 45 -> k <= fuel ->
        (forall j, j < k -> Api.listed w 0 "edited_" 1 j = []) ->
        Api.listed w 0 "edited_" 1 k = first :: rest ->
        let message := Api.agent_message events in
        exists user_message,
          Api.edit_image fuel run_async w request memory
          = Some (Api.Returned
                    {| Api.EditResponse.success := true;
                       Api.EditResponse.message := user_message;
                       Api.EditResponse.filename := first |},
                  Memory.set_last_edited memory first)
          /\ (message = ""%string \/ Api.failure_wording message = true ->
              user_message = "Image edited successfully"%string)
          /\ (message <> ""%string -> Api.failure_wording message = false ->
              user_message = message)).
Proof.
  split.
  - apply generate_images_found.
  - intros fuel k run_async w request memory events target first rest
      Htarget Hne Hrun Hk Hfuel Hempty Hfound message.
    unfold Api.edit_image. rewrite Htarget. simpl Py.truthy.
    destruct (String.eqb_spec target ""); [contradiction|].
    simpl negb. cbv iota zeta. rewrite Hrun.
    rewrite (endpoint_poll_finds w "edited_" 1 fuel k first rest)
      by assumption.
    cbn [Api.filenames]. fold message.
    assert (Hfirst : first <> ""%string).
    { apply (listed_name_not_empty (w (0 + k)%nat) "edited_" 1).
      fold (Api.listed w 0 "edited_" 1 k). rewrite Hfound. now left. }
    destruct (String.eqb_spec first ""); [contradiction|].
    simpl negb. cbv iota.
    eexists. split; [reflexivity|].
    fold (Api.failure_wording message).
    destruct (String.eqb_spec message "") as [He|He].
    + split; [reflexivity | contradiction].
    + simpl negb. simpl andb. split.
      * intros [Hm|Hw]; [contradiction | now rewrite Hw].
      * intros _ Hf. now rewrite Hf.
Qed.

(** The scenario of the specification: one artifact, an error message. *)
Lemma observed_artifacts_mean_success_witness :
  Api.generate_images Api.enough_fuel (Worlds.says "Error: cannot edit")
    Worlds.one_png (Api.mkGenerateRequest "a red dress") Memory.init
  = Some (Api.Returned
            {| Api.GenerateResponse.success := true;
               Api.GenerateResponse.message :=
                 "Successfully generated 1 image(s)";
               Api.GenerateResponse.filenames := ["image_1_1.png"%string] |},
          Memory.set_last_generated Memory.init "image_1_1.png").
Proof.
  destruct (proj1 observed_artifacts_mean_success Api.enough_fuel 0
              (Worlds.says "Error: cannot edit") Worlds.one_png
              (Api.mkGenerateRequest "a red dress") Memory.init
              [Api.mkEvent true (Some [Some "Error: cannot edit"%string])]
              "image_1_1.png"%string [] eq_refl
              ltac:(lia) ltac:(unfold Api.enough_fuel; lia)
              ltac:(intros j Hj; lia) eq_refl)
    as (user_message & Hgen & Hreplaced & _).
  rewrite Hgen, (Hreplaced (or_intror eq_refl)). reflexivity.
Defined.

(** C1 as stated fails: with an artifact observed, a delegation message
    without error wording is returned unchanged, not replaced by the generic
    statement. *)
Lemma benign_message_is_kept :
  Api.generate_images Api.enough_fuel (Worlds.says "Here are your images")
    Worlds.one_png (Api.mkGenerateRequest "a red dress") Memory.init
  = Some (Api.Returned
            {| Api.GenerateResponse.success := true;
               Api.GenerateResponse.message := "Here are your images";
               Api.GenerateResponse.filenames := ["image_1_1.png"%string] |},
          Memory.set_last_generated Memory.init "image_1_1.png")
  /\ "Here are your images"%string
     <> "Successfully generated 1 image(s)"%string.
Proof. split; [reflexivity | discriminate]. Qed.

(** The generate endpoint does not look for the wording "cannot", which the
    edit endpoint replaces: such a message is returned as it is. *)
Example generate_keeps_cannot_wording :
  Api.generate_images Api.enough_fuel (Worlds.says "I cannot do that")
    Worlds.one_png (Api.mkGenerateRequest "a red dress") Memory.init
  = Some (Api.Returned
            {| Api.GenerateResponse.success := true;
               Api.GenerateResponse.message := "I cannot do that";
               Api.GenerateResponse.filenames := ["image_1_1.png"%string] |},
          Memory.set_last_generated Memory.init "image_1_1.png").
Proof. reflexivity. Qed.

(** C2 (as amended). When every listing of the poll is empty, the outcome is
    a failure (status 500) whose text is fixed by the endpoint and does not
    depend on the delegation message: for a generation the text says how many
    PNG files one more listing finds, for an edit that the edited image was
    not found. *)
Theorem empty_poll_is_generic_failure :
  (forall (fuel : nat) (run_async : Api.runner) (w : Api.world)
          (request : Api.GenerateRequest) (memory : Memory.SessionMemory)
          (events : list Api.event),
      run_async (Api.prompt request) = Api.RunYields events ->
      45 <= fuel ->
      (forall j, j <= 45 -> Api.listed w 0 "" 4 j = []) ->
      let all_files := Api.list_images (w 46) "" 100 in
      option_map fst
        (Api.generate_images fuel run_async w request memory)
      = Some (Api.HTTPException 500
                (match all_files with
                 | [] =>
                     "No images generated. No PNG files found in uploads directory."
                 | _ =>
                     "No images generated. Found "
                     ++ Py.str_of_nat (length all_files)
                     ++ " other image(s) in uploads directory."
                 end)%string))
  /\ (forall (fuel : nat) (run_async : Api.runner) (w : Api.world)
             (request : Api.EditRequest) (memory : Memory.SessionMemory)
             (events : list Api.event) (target : string),
        Api.image_to_edit request memory = Some target ->
        target <> ""%string ->
        run_async (Api.edit_instruction target (Api.edit_prompt request))
        = Api.RunYields events ->
        45 <= fuel ->
        (forall j, j <= 45 -> Api.listed w 0 "edited_" 1 j = []) ->
        option_map fst (Api.edit_image fuel run_async w request memory)
        = Some (Api.HTTPException 500
                  "Edited image not found. The agent may still be processing.")).
Proof.
  split.
  - intros fuel run_async w request memory events Hrun Hfuel Hempty all_files.
    unfold Api.generate_images. rewrite Hrun.
    rewrite (endpoint_poll_times_out w "" 4 fuel) by assumption.
    cbn [Api.filenames Api.listings]. fold all_files.
    destruct all_files; reflexivity.
  - intros fuel run_async w request memory events target Htarget Hne Hrun
      Hfuel Hempty.
    unfold Api.edit_image. rewrite Htarget. simpl Py.truthy.
    destruct (String.eqb_spec target ""); [contradiction|].
    simpl negb. cbv iota zeta. rewrite Hrun.
    rewrite (endpoint_poll_times_out w "edited_" 1 fuel) by assumption.
    reflexivity.
Qed.

(** The scenario of the specification: nothing observed, an empty message. *)
Lemma empty_poll_is_generic_failure_witness :
  option_map fst
    (Api.generate_images Api.enough_fuel (Worlds.says "") Worlds.empty
       (Api.mkGenerateRequest "a red dress") Memory.init)
  = Some (Api.HTTPException 500
            "No images generated. No PNG files found in uploads directory.").
Proof.
  exact (proj1 empty_poll_is_generic_failure Api.enough_fuel
           (Worlds.says "") Worlds.empty
           (Api.mkGenerateRequest "a red dress") Memory.init
           [Api.mkEvent true (Some [Some ""%string])] eq_refl
           ltac:(unfold Api.enough_fuel; lia)
           ltac:(intros j Hj; reflexivity)).
Defined.

(** C2 as stated fails: with nothing observed, the text surfaced is the
    endpoint's own, not the message of the delegation layer. *)
Lemma delegation_message_is_not_surfaced :
  Api.agent_message
    [Api.mkEvent true (Some [Some "The model is overloaded"%string])]
  = "The model is overloaded"%string
  /\ option_map fst
       (Api.generate_images Api.enough_fuel
          (Worlds.says "The model is overloaded") Worlds.empty
          (Api.mkGenerateRequest "a red dress") Memory.init)
     = Some (Api.HTTPException 500
               "No images generated. No PNG files found in uploads directory.")
  /\ option_map fst
       (Api.edit_image Api.enough_fuel
          (Worlds.says "The model is overloaded") Worlds.empty
          (Api.mkEditRequest "make it red" (Some "image_1_1.png"%string))
          Memory.init)
     = Some (Api.HTTPException 500
               "Edited image not found. The agent may still be processing.").
Proof. repeat split. Qed.

(** C10. The poll of the generate endpoint uses the empty prefix and no time
    threshold: when the directory already holds a [.png] file at the first
    listing, whatever its origin, the poll returns the newest names at once
    (nothing waited, one listing, whatever the fuel), the response carries
    them, and the ledger's last generated image becomes the newest of them. *)
Theorem generate_adopts_preexisting_artifacts :
  forall (fuel : nat) (run_async : Api.runner) (w : Api.world)
         (request : Api.GenerateRequest) (memory : Memory.SessionMemory)
         (events : list Api.event) (entries : list Api.dirent),
    run_async (Api.prompt request) = Api.RunYields events ->
    w 0 = Some entries ->
    (forall f, In f entries -> Py.endswith (Api.d_name f) ".png" = true ->
               Api.d_mtime f <> None) ->
    (exists f, In f entries /\ Py.endswith (Api.d_name f) ".png" = true) ->
    exists (newest : string) (rest : list string) (tn : Z)
           (user_message : string),
      Api.wait_for_images fuel w 0 "" 4 90 2
      = Some {| Api.filenames := newest :: rest;
                Api.waited := 0;
                Api.listings := 1 |}
      /\ Api.generate_images fuel run_async w request memory
         = Some (Api.Returned
                   {| Api.GenerateResponse.success := true;
                      Api.GenerateResponse.message := user_message;
                      Api.GenerateResponse.filenames := newest :: rest |},
                 Memory.set_last_generated memory newest)
      /\ Memory.get_last_generated (Memory.set_last_generated memory newest)
         = Some newest
      /\ (exists f, In f entries /\ Api.d_name f = newest
                    /\ Api.d_mtime f = Some tn)
      /\ (forall f, In f entries ->
            Py.endswith (Api.d_name f) ".png" = true ->
            exists t, Api.d_mtime f = Some t /\ (t <= tn)%Z).
Proof.
  intros fuel run_async w request memory events entries Hrun Hw Hall Hpng.
  destruct (list_images_newest entries 3 Hall Hpng)
    as (newest & rest & tn & Hlist & (f & Hf & Hname & Ht & _) & Hmax).
  assert (Hfound : Api.listed w 0 "" 4 0 = newest :: rest)
    by (unfold Api.listed; simpl; now rewrite Hw).
  destruct (generate_images_found fuel 0 run_async w request memory events
              newest rest Hrun ltac:(lia) ltac:(lia)
              ltac:(intros j Hj; lia) Hfound)
    as (user_message & Hgen & _).
  exists newest, rest, tn, user_message.
  split; [|split; [exact Hgen|split; [reflexivity|split]]].
  - rewrite (endpoint_poll_finds w "" 4 fuel 0 newest rest);
      [reflexivity | lia | lia | intros j Hj; lia | exact Hfound].
  - exists f. auto.
  - exact Hmax.
Qed.

(** A directory left by earlier requests, whose newest PNG is an edited
    image: the generation adopts it. *)
Lemma generate_adopts_preexisting_artifacts_witness :
  exists (newest : string) (rest : list string) (tn : Z)
         (user_message : string),
    Api.wait_for_images 0 Worlds.leftovers 0 "" 4 90 2
    = Some {| Api.filenames := newest :: rest;
              Api.waited := 0;
              Api.listings := 1 |}
    /\ Api.generate_images 0 (Worlds.says "Done") Worlds.leftovers
         (Api.mkGenerateRequest "a red dress") Memory.init
       = Some (Api.Returned
                 {| Api.GenerateResponse.success := true;
                    Api.GenerateResponse.message := user_message;
                    Api.GenerateResponse.filenames := newest :: rest |},
               Memory.set_last_generated Memory.init newest)
    /\ Memory.get_last_generated (Memory.set_last_generated Memory.init newest)
       = Some newest
    /\ (exists f,
          In f [Api.mkDirent "image_1_1.png" (Some 100%Z);
                Api.mkDirent "edited_2_image_1_1.png" (Some 300%Z);
                Api.mkDirent "notes.txt" (Some 900%Z);
                Api.mkDirent "image_1_2.png" (Some 101%Z)]
          /\ Api.d_name f = newest /\ Api.d_mtime f = Some tn)
    /\ (forall f,
          In f [Api.mkDirent "image_1_1.png" (Some 100%Z);
                Api.mkDirent "edited_2_image_1_1.png" (Some 300%Z);
                Api.mkDirent "notes.txt" (Some 900%Z);
                Api.mkDirent "image_1_2.png" (Some 101%Z)] ->
          Py.endswith (Api.d_name f) ".png" = true ->
          exists t, Api.d_mtime f = Some t /\ (t <= tn)%Z).
Proof.
  refine (generate_adopts_preexisting_artifacts 0 (Worlds.says "Done")
            Worlds.leftovers (Api.mkGenerateRequest "a red dress")
            Memory.init [Api.mkEvent true (Some [Some "Done"%string])]
            _ eq_refl eq_refl _ _).
  - intros f Hf _.
    simpl in Hf. destruct Hf as [<-|[<-|[<-|[<-|[]]]]]; discriminate.
  - exists (Api.mkDirent "image_1_1.png" (Some 100%Z)).
    split; [now left | reflexivity].
Defined.

(** The same directory, evaluated: the edited image leads the response and
    becomes the last generated image. *)
Example generate_adopts_edited_leftover :
  Api.generate_images 0 (Worlds.says "Done") Worlds.leftovers
    (Api.mkGenerateRequest "a red dress") Memory.init
  = Some (Api.Returned
            {| Api.GenerateResponse.success := true;
               Api.GenerateResponse.message := "Done";
               Api.GenerateResponse.filenames :=
                 ["edited_2_image_1_1.png"; "image_1_2.png";
                  "image_1_1.png"]%string |},
          {| Memory._last_generated := Some "edited_2_image_1_1.png"%string;
             Memory._last_edited := None;
             Memory._recent_images := ["edited_2_image_1_1.png"%string] |}).
Proof. reflexivity. Qed.

(* ================================================================== *)
(** * Further properties of the ledger *)
(* ================================================================== *)

Section LedgerMore.

Import Memory.

Lemma touch_In (recent : list string) (x y : string) :
  In y (touch recent x) -> y = x \/ In y recent.
Proof.
  unfold touch. destruct (Py.str_in x recent); simpl negb; cbv iota.
  - intros H. now right.
  - intros H. apply In_firstn in H. destruct H as [<-|H]; [now left | now right].
Qed.

Lemma touch_listed (recent : list string) (x : string) :
  In x (touch recent x).
Proof.
  unfold touch. destruct (Py.str_in x recent) eqn:E; simpl.
  - now apply str_in_In.
  - now left.
Qed.

Lemma touch_not_empty (recent : list string) (x : string) :
  touch recent x <> [].
Proof.
  intros E. pose proof (touch_listed recent x) as H. now rewrite E in H.
Qed.

Lemma run_snoc (ins : list insertion) (i : insertion) :
  run (ins ++ [i]) = apply (run ins) i.
Proof. unfold run. now rewrite fold_left_app. Qed.

Lemma recent_subset (ins : list insertion) (x : string) :
  In x (_recent_images (run ins)) -> In x (map name_of ins).
Proof.
  induction ins as [|i ins IH] using rev_ind; [intros []|].
  rewrite run_snoc, recent_apply, map_app, in_app_iff. simpl.
  intros H. apply touch_In in H as [->|H]; auto.
Qed.

Lemma pointers_fold (ins : list insertion) (m : SessionMemory) :
  _last_generated (fold_left apply ins m)
  = match last_of generated_name ins with
    | Some f => Some f
    | None => _last_generated m
    end
  /\ _last_edited (fold_left apply ins m)
     = match last_of edited_name ins with
       | Some f => Some f
       | None => _last_edited m
       end.
Proof.
  revert m. induction ins as [|i ins IH]; intros m; [split; reflexivity|].
  cbn [fold_left last_of]. destruct (IH (apply m i)) as [Hg He].
  rewrite Hg, He. split.
  - destruct (last_of generated_name ins); [reflexivity|].
    destruct i; reflexivity.
  - destruct (last_of edited_name ins); [reflexivity|].
    destruct i; reflexivity.
Qed.

End LedgerMore.

(** X1. On every ledger reached from a fresh one, [get_most_recent] answers
    with the head of the recent list, a name that was inserted; it answers
    [None] only when nothing was inserted yet, so its fall-back to the two
    pointers never supplies a name. *)
Theorem most_recent_is_head_once_inserted :
  forall ins : list Memory.insertion,
    (ins = []
     /\ Memory.get_most_recent (Memory.run ins) = None)
    \/ (exists x rest,
          Memory._recent_images (Memory.run ins) = x :: rest
          /\ Memory.get_most_recent (Memory.run ins) = Some x
          /\ In x (map Memory.name_of ins)).
Proof.
  intros ins. destruct ins as [|i ins] using rev_ind; [left; split; reflexivity|].
  right. clear IHins.
  destruct (Memory._recent_images (Memory.run (ins ++ [i]))) as [|x rest] eqn:E.
  - exfalso. rewrite run_snoc, recent_apply in E.
    exact (touch_not_empty _ _ E).
  - exists x, rest. split; [reflexivity|]. split.
    + unfold Memory.get_most_recent. now rewrite E.
    + apply recent_subset. rewrite E. now left.
Qed.

(** X2. The name of the latest insertion is always in the recent list (at
    its head when it was not listed before), and the recent list never holds
    a name that was not inserted. *)
Theorem latest_insertion_is_listed :
  forall (ins : list Memory.insertion) (i : Memory.insertion),
    In (Memory.name_of i)
       (Memory._recent_images (Memory.run (ins ++ [i])))
    /\ (Py.str_in (Memory.name_of i) (Memory._recent_images (Memory.run ins))
        = false ->
        exists rest,
          Memory._recent_images (Memory.run (ins ++ [i]))
          = Memory.name_of i :: rest)
    /\ (forall x, In x (Memory._recent_images (Memory.run (ins ++ [i]))) ->
                  In x (map Memory.name_of (ins ++ [i]))).
Proof.
  intros ins i. rewrite run_snoc, recent_apply. split; [|split].
  - apply touch_listed.
  - intros Hnew. unfold Memory.touch. rewrite Hnew. simpl. eauto.
  - intros x Hx. apply recent_subset.
    now rewrite run_snoc, recent_apply.
Qed.

(** X3. After any sequence of insertions the two pointers hold the name of
    the last generated and of the last edited image of the sequence, each
    unaffected by insertions of the other kind ([None] when the sequence has
    no insertion of that kind). *)
Theorem pointers_hold_last_of_each_kind :
  forall ins : list Memory.insertion,
    Memory.get_last_generated (Memory.run ins)
    = Memory.last_of Memory.generated_name ins
    /\ Memory.get_last_edited (Memory.run ins)
       = Memory.last_of Memory.edited_name ins.
Proof.
  intros ins. unfold Memory.run, Memory.get_last_generated,
    Memory.get_last_edited.
  destruct (pointers_fold ins Memory.init) as [Hg He]. rewrite Hg, He.
  split.
  - now destruct (Memory.last_of Memory.generated_name ins).
  - now destruct (Memory.last_of Memory.edited_name ins).
Qed.

(* ================================================================== *)
(** * Further properties of the trim and the split *)
(* ================================================================== *)

(** X4. Border trim never loses content and never invents pixels: when it
    crops, the box lies inside the picture, every content pixel of the
    picture lies inside the box, and every pixel of the result is the source
    pixel at the box's offset. *)
Theorem trim_keeps_every_content_pixel :
  forall (im : Imaging.image) (threshold x y : Z),
    Imaging.content im threshold x y ->
    match Imaging.trim_box im threshold with
    | None => Imaging.remove_white_borders im threshold = im
    | Some (x0, y0, x1, y1) =>
        (0 <= x0 <= x /\ x < x1 <= Imaging.width im)%Z
        /\ (0 <= y0 <= y /\ y < y1 <= Imaging.height im)%Z
        /\ Imaging.width (Imaging.remove_white_borders im threshold)
           = (x1 - x0)%Z
        /\ Imaging.height (Imaging.remove_white_borders im threshold)
           = (y1 - y0)%Z
        /\ forall i j,
             (0 <= i < x1 - x0)%Z -> (0 <= j < y1 - y0)%Z ->
             Imaging.pixels (Imaging.remove_white_borders im threshold) i j
             = Imaging.pixels im (x0 + i) (y0 + j)
    end.
Proof.
  intros im threshold x y Hc.
  pose proof (find_bounds_encloses im threshold x y Hc) as He.
  cbv zeta in He. unfold Imaging.remove_white_borders, Imaging.trim_box.
  set (b := Imaging.find_bounds im threshold) in *.
  destruct ((Imaging.min_x b >=? Imaging.max_x b)%Z
            || (Imaging.min_y b >=? Imaging.max_y b)%Z); [reflexivity|].
  cbv zeta. destruct Hc as (Hx & Hy & _).
  split; [lia|]. split; [lia|]. split; [reflexivity|].
  split; [reflexivity|].
  intros i j Hi Hj. apply crop_pixels; lia.
Qed.

(** The two black pixels of the sample are kept. *)
Lemma trim_keeps_every_content_pixel_witness :
  Imaging.pixels
    (Imaging.remove_white_borders Samples.two_dots Imaging.default_threshold)
    6 6
  = Imaging.pixels Samples.two_dots 11 11.
Proof.
  pose proof (trim_keeps_every_content_pixel Samples.two_dots
                Imaging.default_threshold 11 11
                ltac:(unfold Imaging.content, Imaging.default_threshold;
                      simpl; repeat split; try lia; left; lia)) as H.
  replace (Imaging.trim_box Samples.two_dots Imaging.default_threshold)
    with (Some (5, 5, 16, 16)%Z) in H by (vm_compute; reflexivity).
  destruct H as (_ & _ & _ & _ & H).
  exact (H 6%Z 6%Z ltac:(lia) ltac:(lia)).
Defined.

(** X5. The four quadrant boxes cover exactly the source pixels with
    [x < 2 * (W / 2)] and [y < 2 * (H / 2)]: for an odd width the last column
    of the composite lies in no quadrant, and for an odd height the last
    row. *)
Theorem split_drops_odd_row_and_column :
  forall (W H x y : Z),
    (0 <= x < W)%Z -> (0 <= y < H)%Z ->
    ((exists o, In o (Imaging.origins (W / 2) (H / 2))
                /\ (fst o <= x < fst o + W / 2)%Z
                /\ (snd o <= y < snd o + H / 2)%Z)
     <-> (x < 2 * (W / 2) /\ y < 2 * (H / 2))%Z)
    /\ (Z.odd W = true -> (2 * (W / 2) = W - 1)%Z)
    /\ (Z.odd H = true -> (2 * (H / 2) = H - 1)%Z).
Proof.
  intros W H x y Hx Hy. split; [|split].
  - split.
    + intros ([ox oy] & Hin & Hox & Hoy). simpl in Hin, Hox, Hoy.
      destruct Hin as [E|[E|[E|[E|[]]]]]; inversion E; subst; lia.
    + intros [Hx2 Hy2].
      exists ((if x <? W / 2 then 0 else W / 2)%Z,
              (if y <? H / 2 then 0 else H / 2)%Z).
      destruct (Z.ltb_spec x (W / 2)); destruct (Z.ltb_spec y (H / 2));
        (split; [simpl; tauto|]); cbn [fst snd]; lia.
  - intros Ho. apply Z.odd_spec in Ho as [k Hk].
    pose proof (Z.div_mod W 2). pose proof (Z.mod_pos_bound W 2). lia.
  - intros Ho. apply Z.odd_spec in Ho as [k Hk].
    pose proof (Z.div_mod H 2). pose proof (Z.mod_pos_bound H 2). lia.
Qed.

(** The last column of a 5x4 composite. *)
Lemma split_drops_odd_row_and_column_witness :
  ((exists o, In o (Imaging.origins (5 / 2) (4 / 2))
              /\ (fst o <= 4 < fst o + 5 / 2)%Z
              /\ (snd o <= 0 < snd o + 4 / 2)%Z)
   <-> (4 < 2 * (5 / 2) /\ 0 < 2 * (4 / 2))%Z)
  /\ (Z.odd 5 = true -> (2 * (5 / 2) = 5 - 1)%Z)
  /\ (Z.odd 4 = true -> (2 * (4 / 2) = 4 - 1)%Z).
Proof.
  exact (split_drops_odd_row_and_column 5 4 4 0 ltac:(lia) ltac:(lia)).
Defined.

Section SplitPaths.

Import Imaging.
Local Open Scope string_scope.

Lemma length_join_uploads (x : string) :
  String.length (Py.join UPLOAD_DIR x) = String.length x
  \/ String.length (Py.join UPLOAD_DIR x) = (String.length x + 8)%nat.
Proof.
  unfold Py.join, UPLOAD_DIR. destruct (Py.startswith x "/"); [now left|].
  right. cbn [String.eqb Py.endswith orb]. simpl. lia.
Qed.

(** The paths of the quadrants of one composite share what [os.path.join]
    puts before the name. *)
Lemma quadrant_paths (base_name ext : string) :
  exists pre,
    forall i,
      Py.join UPLOAD_DIR (quad_filename base_name i ext)
      = pre ++ base_name ++ "_" ++ Py.str_of_nat i ++ ext.
Proof.
  unfold Py.join, Py.startswith, UPLOAD_DIR, quad_filename.
  destruct base_name as [|c b].
  - exists "uploads/". intros i. reflexivity.
  - destruct (ascii_dec "/"%char c) as [E|E].
    + exists "". intros i. cbn [append String.prefix].
      destruct (ascii_dec "/"%char c); [|contradiction].
      match goal with
      | |- context [String.prefix "" ?s] => now destruct s
      end.
    + exists "uploads/". intros i. cbn [append String.prefix].
      destruct (ascii_dec "/"%char c); [contradiction | reflexivity].
Qed.

Lemma app_inv_head_str (a s t : string) : a ++ s = a ++ t -> s = t.
Proof.
  induction a as [|c a IH]; simpl; [auto|].
  intros H. inversion H. auto.
Qed.

(** Quadrants of different ordinals are stored under different paths. *)
Lemma quadrant_paths_differ (base_name ext : string) (i j : nat)
  (a b : ascii) :
  Py.str_of_nat i = String a "" -> Py.str_of_nat j = String b "" ->
  a <> b ->
  Py.join UPLOAD_DIR (quad_filename base_name i ext)
  <> Py.join UPLOAD_DIR (quad_filename base_name j ext).
Proof.
  intros Hi Hj Hab. destruct (quadrant_paths base_name ext) as [pre Hq].
  rewrite !Hq, Hi, Hj. intros E.
  apply app_inv_head_str in E. apply app_inv_head_str in E.
  simpl in E. inversion E. contradiction.
Qed.

(** No quadrant is stored over its composite. *)
Lemma quadrant_path_not_composite (filename : string) (i : nat) :
  String.length (Py.str_of_nat i) = 1%nat ->
  Py.join UPLOAD_DIR
    (quad_filename (fst (Py.splitext filename)) i
       (snd (Py.splitext filename)))
  <> Py.join UPLOAD_DIR filename.
Proof.
  intros Hi E. apply (f_equal String.length) in E.
  pose proof (f_equal String.length (splitext_join filename)) as Hj.
  rewrite length_app_str in Hj.
  destruct (length_join_uploads filename) as [Hc|Hc];
    destruct (length_join_uploads
                (quad_filename (fst (Py.splitext filename)) i
                   (snd (Py.splitext filename)))) as [Hq|Hq];
    rewrite Hc, Hq in E; unfold quad_filename in E;
    rewrite !length_app_str, Hi in E; simpl in E; lia.
Qed.

End SplitPaths.

(** X6. The split is all or nothing.  When it succeeds, the composite
    decodes and its halves are positive, each of the four names it returns
    holds its quadrant on the disk, the composite is removed when asked and
    kept otherwise, and no other path changes.  When it fails, no quadrant is
    saved: the disk is as it was for a missing or undecodable composite and
    for an extension PIL does not know; for a composite under 2 pixels wide
    or high the first [save] raises, the composite is kept and only a file
    that was already stored under the first quadrant's path changes. *)
Theorem split_is_all_or_nothing :
  forall (registered_extension : string -> bool) (filename : string)
         (remove_original : bool) (d : Imaging.disk),
    let filepath := Py.join Imaging.UPLOAD_DIR filename in
    let ext := snd (Py.splitext filename) in
    let first_quadrant :=
      Py.join Imaging.UPLOAD_DIR
        (Imaging.quad_filename (fst (Py.splitext filename)) 1 ext) in
    match Imaging.split_grid_image registered_extension filename
            remove_original d with
    | (d', Imaging.SplitOk split_data) =>
        length split_data = 4
        /\ (exists grid,
              d filepath = Some (Imaging.Picture grid)
              /\ (0 < Imaging.width grid / 2)%Z
              /\ (0 < Imaging.height grid / 2)%Z
              /\ registered_extension (Py.lower ext) = true)
        /\ (forall name q, In (name, q) split_data ->
              d' (Py.join Imaging.UPLOAD_DIR name)
              = Some (Imaging.Picture q))
        /\ d' filepath = (if remove_original then None else d filepath)
        /\ (forall p, p <> filepath ->
              (forall name q, In (name, q) split_data ->
                 p <> Py.join Imaging.UPLOAD_DIR name) ->
              d' p = d p)
    | (d', Imaging.SplitNotFound path) =>
        d' = d /\ path = filepath /\ d filepath = None
    | (d', Imaging.SplitFailed Imaging.UnidentifiedImage) =>
        d' = d
        /\ (d filepath = Some Imaging.Garbage
            \/ d filepath = Some Imaging.Empty)
    | (d', Imaging.SplitFailed (Imaging.UnknownExtension e)) =>
        d' = d /\ e = ext /\ registered_extension (Py.lower ext) = false
    | (d', Imaging.SplitFailed Imaging.EmptyImage) =>
        (exists grid,
           d filepath = Some (Imaging.Picture grid)
           /\ (Imaging.width grid / 2 <= 0
               \/ Imaging.height grid / 2 <= 0)%Z)
        /\ d' filepath = d filepath
        /\ (forall p, p <> first_quadrant -> d' p = d p)
        /\ (d first_quadrant = None -> d' = d)
    end.
Proof.
  intros registered_extension filename remove_original d filepath ext
    first_quadrant.
  pose proof (quadrant_path_not_composite filename 1 eq_refl) as N1.
  pose proof (quadrant_path_not_composite filename 2 eq_refl) as N2.
  pose proof (quadrant_path_not_composite filename 3 eq_refl) as N3.
  pose proof (quadrant_path_not_composite filename 4 eq_refl) as N4.
  fold filepath in N1, N2, N3, N4. fold ext in N1, N2, N3, N4.
  fold first_quadrant in N1.
  subst first_quadrant ext.
  unfold Imaging.split_grid_image. fold filepath.
  destruct (d filepath) as [[grid| |]|] eqn:Hd;
    [|split; auto|split; auto|repeat split; auto].
  destruct (Py.splitext filename) as [base_name ext] eqn:Hsplit.
  cbn [fst snd] in *.
  cbn [Imaging.save_quadrants Imaging.origins].
  destruct (registered_extension (Py.lower ext)) eqn:Hreg;
    [|repeat split; auto].
  rewrite !trimmed_quadrant_empty.
  set (W := Imaging.width grid) in *. set (H := Imaging.height grid) in *.
  assert (D12 := quadrant_paths_differ base_name ext 1 2 "1" "2"
                   eq_refl eq_refl ltac:(discriminate)).
  assert (D13 := quadrant_paths_differ base_name ext 1 3 "1" "3"
                   eq_refl eq_refl ltac:(discriminate)).
  assert (D14 := quadrant_paths_differ base_name ext 1 4 "1" "4"
                   eq_refl eq_refl ltac:(discriminate)).
  assert (D23 := quadrant_paths_differ base_name ext 2 3 "2" "3"
                   eq_refl eq_refl ltac:(discriminate)).
  assert (D24 := quadrant_paths_differ base_name ext 2 4 "2" "4"
                   eq_refl eq_refl ltac:(discriminate)).
  assert (D34 := quadrant_paths_differ base_name ext 3 4 "3" "4"
                   eq_refl eq_refl ltac:(discriminate)).
  set (P1 := Py.join Imaging.UPLOAD_DIR
               (Imaging.quad_filename base_name 1 ext)) in *.
  set (P2 := Py.join Imaging.UPLOAD_DIR
               (Imaging.quad_filename base_name 2 ext)) in *.
  set (P3 := Py.join Imaging.UPLOAD_DIR
               (Imaging.quad_filename base_name 3 ext)) in *.
  set (P4 := Py.join Imaging.UPLOAD_DIR
               (Imaging.quad_filename base_name 4 ext)) in *.
  destruct ((0 <? W / 2)%Z && (0 <? H / 2)%Z) eqn:Hpos; cbn [negb].
  - apply andb_true_iff in Hpos as [HW HH]. apply Z.ltb_lt in HW, HH.
    split; [reflexivity|].
    split; [exists grid; auto|].
    split; [|split].
    + intros name q Hin. cbn [In app] in Hin.
      destruct Hin as [E|[E|[E|[E|[]]]]]; inversion E; subst name q; clear E;
        fold P1 P2 P3 P4;
        destruct remove_original; unfold Imaging.remove, Imaging.write;
        cbv beta;
        rewrite ?(proj2 (String.eqb_neq _ _) N1),
          ?(proj2 (String.eqb_neq _ _) N2),
          ?(proj2 (String.eqb_neq _ _) N3),
          ?(proj2 (String.eqb_neq _ _) N4),
          ?(proj2 (String.eqb_neq _ _) D12),
          ?(proj2 (String.eqb_neq _ _) D13),
          ?(proj2 (String.eqb_neq _ _) D14),
          ?(proj2 (String.eqb_neq _ _) D23),
          ?(proj2 (String.eqb_neq _ _) D24),
          ?(proj2 (String.eqb_neq _ _) D34),
          ?String.eqb_refl;
        reflexivity.
    + destruct remove_original; unfold Imaging.remove, Imaging.write;
        cbv beta; rewrite ?String.eqb_refl; [reflexivity|].
      rewrite ?(proj2 (String.eqb_neq _ _) (not_eq_sym N1)),
        ?(proj2 (String.eqb_neq _ _) (not_eq_sym N2)),
        ?(proj2 (String.eqb_neq _ _) (not_eq_sym N3)),
        ?(proj2 (String.eqb_neq _ _) (not_eq_sym N4)).
      exact Hd.
    + intros p Hp Hq'. cbn [app] in Hq'.
      assert (Q1 : p <> P1) by (eapply Hq'; cbn [In]; eauto).
      assert (Q2 : p <> P2) by (eapply Hq'; cbn [In]; eauto).
      assert (Q3 : p <> P3) by (eapply Hq'; cbn [In]; eauto).
      assert (Q4 : p <> P4) by (eapply Hq'; cbn [In]; eauto 6).
      destruct remove_original; unfold Imaging.remove, Imaging.write;
        cbv beta;
        rewrite ?(proj2 (String.eqb_neq _ _) Hp),
          ?(proj2 (String.eqb_neq _ _) Q1),
          ?(proj2 (String.eqb_neq _ _) Q2),
          ?(proj2 (String.eqb_neq _ _) Q3),
          ?(proj2 (String.eqb_neq _ _) Q4);
        reflexivity.
  - apply andb_false_iff in Hpos.
    split; [|split; [|split]].
    + exists grid. split; [reflexivity|].
      destruct Hpos as [Hpos|Hpos]; apply Z.ltb_ge in Hpos; auto.
    + unfold Imaging.failed_save. destruct (d P1); [|exact Hd].
      unfold Imaging.write.
      now rewrite (proj2 (String.eqb_neq _ _) (not_eq_sym N1)).
    + intros p Hp. unfold Imaging.failed_save.
      destruct (d P1); [|reflexivity].
      unfold Imaging.write. now rewrite (proj2 (String.eqb_neq _ _) Hp).
    + intros Hnone. unfold Imaging.failed_save. now rewrite Hnone.
Qed.

(* ================================================================== *)
(** * Further properties of the compute tools *)
(* ================================================================== *)

Section ToolFacts.

Import Imaging.
Local Open Scope string_scope.






End ToolFacts.

Section GenerateFacts.

Import Imaging.
Local Open Scope string_scope.

Variable registered_extension : string -> bool.

(** The split of a freshly written composite. *)
Lemma split_of_composite (ts : string) (image_bytes : file) (d : disk) :
  let name := Tools.composite_name ts 0 in
  let path := Py.join UPLOAD_DIR name in
  let written := write d path image_bytes in
  match image_bytes with
  | Picture grid =>
      if registered_extension ".png"
      then
        if ((0 <? width grid / 2) && (0 <? height grid / 2))%Z
        then exists split_data,
               split_grid_image registered_extension name true written
               = (remove
                    (write
                       (write
                          (write
                             (write written
                                (Py.join UPLOAD_DIR
                                   (("image_" ++ ts ++ "_1") ++ "_1.png"))
                                (Picture (fst split_data)))
                             (Py.join UPLOAD_DIR
                                (("image_" ++ ts ++ "_1") ++ "_2.png"))
                             (Picture (fst (snd split_data))))
                          (Py.join UPLOAD_DIR
                             (("image_" ++ ts ++ "_1") ++ "_3.png"))
                          (Picture (fst (snd (snd split_data)))))
                       (Py.join UPLOAD_DIR
                          (("image_" ++ ts ++ "_1") ++ "_4.png"))
                       (Picture (snd (snd (snd split_data)))))
                    path,
                  SplitOk
                    [(("image_" ++ ts ++ "_1") ++ "_1.png", fst split_data);
                     (("image_" ++ ts ++ "_1") ++ "_2.png",
                      fst (snd split_data));
                     (("image_" ++ ts ++ "_1") ++ "_3.png",
                      fst (snd (snd split_data)));
                     (("image_" ++ ts ++ "_1") ++ "_4.png",
                      snd (snd (snd split_data)))])
        else split_grid_image registered_extension name true written
             = (failed_save written
                  (Py.join UPLOAD_DIR
                     (("image_" ++ ts ++ "_1") ++ "_1.png")),
                SplitFailed EmptyImage)
      else split_grid_image registered_extension name true written
           = (written, SplitFailed (UnknownExtension ".png"))
  | Garbage | Empty =>
      split_grid_image registered_extension name true written
      = (written, SplitFailed UnidentifiedImage)
  end.
Proof.
  intros name path written.
  assert (Hfile : written path = Some image_bytes)
    by (unfold written, write; now rewrite String.eqb_refl).
  destruct image_bytes as [grid| |].
  - destruct (registered_extension ".png") eqn:Hreg.
    + destruct ((0 <? width grid / 2) && (0 <? height grid / 2))%Z eqn:Hpos.
      * apply andb_true_iff in Hpos as [HW HH]. apply Z.ltb_lt in HW, HH.
        eexists (_, (_, (_, _))). cbn [fst snd].
        unfold name in *. unfold path in *.
        rewrite composite_name_split in *.
        rewrite (split_grid_image_names registered_extension grid
                   ("image_" ++ ts ++ "_1") "png" true written
                   (composite_stem ts) eq_refl eq_refl Hreg Hfile HW HH).
        reflexivity.
      * unfold split_grid_image. fold path. rewrite Hfile.
        unfold name. rewrite composite_name_split.
        rewrite (splitext_stem _ "png" (composite_stem ts) eq_refl eq_refl).
        cbn [save_quadrants origins].
        change (Py.lower ("." ++ "png")) with ".png". rewrite Hreg.
        rewrite trimmed_quadrant_empty, Hpos. reflexivity.
    + unfold split_grid_image. fold path. rewrite Hfile.
      unfold name. rewrite composite_name_split.
      rewrite (splitext_stem _ "png" (composite_stem ts) eq_refl eq_refl).
      cbn [save_quadrants origins].
      change (Py.lower ("." ++ "png")) with ".png". rewrite Hreg.
      reflexivity.
  - unfold split_grid_image. fold path. now rewrite Hfile.
  - unfold split_grid_image. fold path. now rewrite Hfile.
Qed.

(** The composite and its first quadrant are stored under different
    paths. *)
Lemma composite_not_first_quadrant (ts : string) :
  Py.join UPLOAD_DIR (Tools.composite_name ts 0)
  <> Py.join UPLOAD_DIR (("image_" ++ ts ++ "_1") ++ "_1.png").
Proof.
  rewrite composite_name_split.
  change (("image_" ++ ts ++ "_1") ++ "." ++ "png")
    with (("image_" ++ ts ++ "_1") ++ ".png").
  rewrite !quadrant_path. intros E. apply app_inv_head_str in E.
  discriminate.
Qed.

End GenerateFacts.

(** X8. A generation fails exactly when the model call raises or returns no
    inline data; the disk is then left as it was.  In every other case the
    result is a success that names either four quadrants or, when the
    composite could not be split, the composite itself, which then stays on
    the disk; nothing else changes then, except that a file already stored
    under the name of the first quadrant is destroyed when the split stops at
    a quadrant without pixels. *)
Theorem generation_fails_exactly_without_payload :
  forall (registered_extension : string -> bool) (now uuid4 prompt : string)
         (pack_size : Z) (model : Tools.response) (d : Imaging.disk),
    let ts := (now ++ "_" ++ Py.take 8 uuid4)%string in
    let composite := Tools.composite_name ts 0 in
    let first_quadrant := (("image_" ++ ts ++ "_1") ++ "_1.png")%string in
    let payload :=
      match model with
      | Tools.Returns (Some parts) => Tools.first_inline_data parts
      | _ => None
      end in
    let r := Tools.generate_image_compute registered_extension now uuid4
               model prompt pack_size d in
    (payload = None
     /\ r = (d, Tools.GenerateError
                  ("Failed to generate any images. "
                   ++ match model with
                      | Tools.Raises e => "Error generating image 1: " ++ e
                      | Tools.Returns _ => "Unknown error"
                      end)%string))
    \/ (exists image_bytes d' images,
          payload = Some image_bytes
          /\ r = (d', Tools.GenerateOk images
                        ("Successfully generated "
                         ++ Py.str_of_nat (length images) ++ " images")%string
                        (Py.take 8 uuid4))
          /\ (length images = 4
              \/ (images = [composite]
                  /\ d' (Py.join Imaging.UPLOAD_DIR composite)
                     = Some image_bytes
                  /\ (forall p,
                        p <> Py.join Imaging.UPLOAD_DIR first_quadrant ->
                        d' p
                        = Imaging.write d
                            (Py.join Imaging.UPLOAD_DIR composite)
                            image_bytes p)
                  /\ (d (Py.join Imaging.UPLOAD_DIR first_quadrant) = None ->
                      d' = Imaging.write d
                             (Py.join Imaging.UPLOAD_DIR composite)
                             image_bytes)))).
Proof.
  intros registered_extension now uuid4 prompt pack_size model d
    ts composite first_quadrant payload r.
  subst r. unfold Tools.generate_image_compute.
  cbn [seq fold_left]. unfold Tools.generate_step. fold ts.
  destruct model as [e|[parts|]];
    [left; split; reflexivity| |left; split; reflexivity].
  simpl in payload. subst payload.
  destruct (Tools.first_inline_data parts) as [image_bytes|];
    [|left; split; reflexivity].
  right. fold composite.
  pose proof (split_of_composite registered_extension ts image_bytes d)
    as Hs.
  cbv zeta in Hs. fold composite first_quadrant in Hs.
  pose proof (composite_not_first_quadrant ts) as Hne.
  fold composite first_quadrant in Hne.
  set (path := Py.join Imaging.UPLOAD_DIR composite) in *.
  set (q1 := Py.join Imaging.UPLOAD_DIR first_quadrant) in *.
  assert (Hwritten : Imaging.write d path image_bytes path
                     = Some image_bytes)
    by (unfold Imaging.write; now rewrite String.eqb_refl).
  assert (Hq1 : Imaging.write d path image_bytes q1 = d q1).
  { unfold Imaging.write.
    now rewrite (proj2 (String.eqb_neq _ _) (not_eq_sym Hne)). }
  destruct image_bytes as [grid| |].
  - destruct (registered_extension ".png").
    + destruct ((0 <? Imaging.width grid / 2)
                && (0 <? Imaging.height grid / 2))%Z.
      * destruct Hs as [split_data Hs]. rewrite Hs.
        do 3 eexists. split; [reflexivity|]. split; [reflexivity|].
        left. reflexivity.
      * rewrite Hs. do 3 eexists. split; [reflexivity|].
        split; [reflexivity|]. right. split; [reflexivity|].
        unfold Imaging.failed_save. rewrite Hq1.
        destruct (d q1) as [f|] eqn:Hd.
        -- split; [|split].
           ++ unfold Imaging.write at 1.
              now rewrite (proj2 (String.eqb_neq _ _) Hne).
           ++ intros p Hp. unfold Imaging.write at 1.
              now rewrite (proj2 (String.eqb_neq _ _) Hp).
           ++ discriminate.
        -- split; [exact Hwritten|]. split; reflexivity.
    + rewrite Hs. do 3 eexists. split; [reflexivity|].
      split; [reflexivity|]. right. split; [reflexivity|].
      split; [exact Hwritten|]. split; reflexivity.
  - rewrite Hs. do 3 eexists. split; [reflexivity|].
    split; [reflexivity|]. right. split; [reflexivity|].
    split; [exact Hwritten|]. split; reflexivity.
  - rewrite Hs. do 3 eexists. split; [reflexivity|].
    split; [reflexivity|]. right. split; [reflexivity|].
    split; [exact Hwritten|]. split; reflexivity.
Qed.

(** X9. A payload that does not decode, or a PIL that does not know [.png],
    makes the split fail; the generation still reports success, with the
    unsplit composite as its only image, and keeps that file. *)
Theorem unsplit_composite_is_returned :
  forall (registered_extension : string -> bool) (now uuid4 prompt : string)
         (pack_size : Z) (parts : list (option Imaging.file))
         (image_bytes : Imaging.file) (d : Imaging.disk),
    Tools.first_inline_data parts = Some image_bytes ->
    image_bytes = Imaging.Garbage \/ registered_extension ".png" = false ->
    let composite :=
      ("image_" ++ now ++ "_" ++ Py.take 8 uuid4 ++ "_1.png")%string in
    Tools.generate_image_compute registered_extension now uuid4
      (Tools.Returns (Some parts)) prompt pack_size d
    = (Imaging.write d ("uploads/" ++ composite)%string image_bytes,
       Tools.GenerateOk [composite] "Successfully generated 1 images"
         (Py.take 8 uuid4)).
Proof.
  intros registered_extension now uuid4 prompt pack_size parts image_bytes d
    Hparts Hbad composite.
  unfold Tools.generate_image_compute.
  cbn [seq fold_left]. unfold Tools.generate_step. rewrite Hparts.
  pose proof (split_of_composite registered_extension
                (now ++ "_" ++ Py.take 8 uuid4)%string image_bytes d) as Hs.
  cbv zeta in Hs.
  assert (Hname : Tools.composite_name (now ++ "_" ++ Py.take 8 uuid4) 0
                  = composite).
  { unfold Tools.composite_name, composite. simpl.
    repeat (rewrite ?app_assoc_str; cbn [append]). reflexivity. }
  assert (Hpath : Py.join Imaging.UPLOAD_DIR composite
                  = ("uploads/" ++ composite)%string) by reflexivity.
  rewrite Hname, Hpath in *.
  destruct image_bytes as [grid| |].
  - destruct Hbad as [Hbad|Hbad]; [discriminate|]. rewrite Hbad in Hs.
    now rewrite Hs.
  - now rewrite Hs.
  - now rewrite Hs.
Qed.

(** A model that returns bytes that are no image. *)
Lemma unsplit_composite_is_returned_witness :
  snd (Tools.generate_image_compute Samples.png_only
         "20250101_120000_000001" "abcd1234-0000-4000-8000-000000000000"
         (Tools.Returns (Some [Some Imaging.Garbage]))
         "a red dress" 1 (fun _ => None))
  = Tools.GenerateOk ["image_20250101_120000_000001_abcd1234_1.png"%string]
      "Successfully generated 1 images" "abcd1234".
Proof.
  exact (f_equal snd
    (unsplit_composite_is_returned Samples.png_only
       "20250101_120000_000001"%string
       "abcd1234-0000-4000-8000-000000000000"%string "a red dress"%string
       1%Z [Some Imaging.Garbage] Imaging.Garbage (fun _ => None)
       eq_refl (or_introl eq_refl))).
Defined.

(** X10. After a generation whose composite decodes, is at least 2 pixels
    wide and high and is split, the composite is gone from the disk, the
    four trimmed quadrants are stored under
    [uploads/image_<ts>_1_<ordinal>.png], and every other path holds what it
    held before. *)
Theorem generation_replaces_composite_by_quadrants :
  forall (registered_extension : string -> bool) (now uuid4 prompt : string)
         (pack_size : Z) (parts : list (option Imaging.file))
         (grid : Imaging.image) (d : Imaging.disk),
    registered_extension ".png" = true ->
    Tools.first_inline_data parts = Some (Imaging.Picture grid) ->
    (2 <= Imaging.width grid)%Z -> (2 <= Imaging.height grid)%Z ->
    let stem :=
      ("uploads/image_" ++ (now ++ "_" ++ Py.take 8 uuid4) ++ "_1")%string in
    let W := Imaging.width grid in
    let H := Imaging.height grid in
    let trimmed o :=
      Imaging.Picture
        (Imaging.remove_white_borders
           (Imaging.quadrant grid (W / 2) (H / 2) o)
           Imaging.default_threshold) in
    let d' := fst (Tools.generate_image_compute registered_extension now
                     uuid4 (Tools.Returns (Some parts)) prompt pack_size d) in
    d' (stem ++ ".png")%string = None
    /\ d' (stem ++ "_1.png")%string = Some (trimmed (0, 0)%Z)
    /\ d' (stem ++ "_2.png")%string = Some (trimmed (W / 2, 0)%Z)
    /\ d' (stem ++ "_3.png")%string = Some (trimmed (0, H / 2)%Z)
    /\ d' (stem ++ "_4.png")%string = Some (trimmed (W / 2, H / 2)%Z)
    /\ (forall p,
          ~ In p [(stem ++ ".png")%string; (stem ++ "_1.png")%string;
                  (stem ++ "_2.png")%string; (stem ++ "_3.png")%string;
                  (stem ++ "_4.png")%string] ->
          d' p = d p).
Proof.
  intros registered_extension now uuid4 prompt pack_size parts grid d
    Hreg Hparts HW HH stem W H trimmed d'.
  exact (proj2 (generation_of_grid registered_extension now uuid4 prompt
                  pack_size parts grid d Hreg Hparts HW HH)).
Qed.

(** A generation on an empty disk. *)
Lemma generation_replaces_composite_by_quadrants_witness :
  fst (Tools.generate_image_compute Samples.png_only
         "20250101_120000_000001" "abcd1234-0000-4000-8000-000000000000"
         (Tools.Returns (Some [Some (Imaging.Picture Samples.four_colours)]))
         "a red dress" 1 (fun _ => None))
    "uploads/image_20250101_120000_000001_abcd1234_1.png"
  = None.
Proof.
  exact (proj1
    (generation_replaces_composite_by_quadrants Samples.png_only
       "20250101_120000_000001"%string
       "abcd1234-0000-4000-8000-000000000000"%string "a red dress"%string
       1%Z [Some (Imaging.Picture Samples.four_colours)]
       Samples.four_colours (fun _ => None) eq_refl eq_refl
       ltac:(simpl; lia) ltac:(simpl; lia))).
Defined.

(* ================================================================== *)
(** * Further properties of the artifact wrappers *)
(* ================================================================== *)

Section WrapperFacts.

Import Imaging Memory.
Local Open Scope string_scope.


(** A successful generation names at least one image. *)
Lemma generation_names_an_image
  (registered_extension : string -> bool) (now uuid4 prompt : string)
  (pack_size : Z) (model : Tools.response) (d : disk) :
  forall d' message unique_id,
    Tools.generate_image_compute registered_extension now uuid4 model prompt
      pack_size d
    <> (d', Tools.GenerateOk [] message unique_id).
Proof.
  intros d' message unique_id. unfold Tools.generate_image_compute.
  destruct (fold_left _ _ _) as [[d0 all_images] errors].
  destruct all_images; discriminate.
Qed.

(** The loop over the images, in terms of the images that get saved. *)
Lemma save_steps (save_artifact : string -> option string) (d : disk)
  (images : list string) (k : nat) (memory : SessionMemory) :
  fold_left (Wrapper.save_step save_artifact d) images (k, memory)
  = (k + length (Wrapper.saved_images save_artifact d images),
     match k, Wrapper.saved_images save_artifact d images with
     | O, f :: _ => set_last_generated memory f
     | _, _ => memory
     end).
Proof.
  revert k memory. induction images as [|f images IH]; intros k memory.
  - simpl. rewrite Nat.add_0_r. now destruct k.
  - cbn [fold_left Wrapper.saved_images filter].
    unfold Wrapper.save_step at 2.
    fold (Wrapper.saved_images save_artifact d images).
    destruct (d (Py.join UPLOAD_DIR f)) as [file|]; [|apply IH].
    destruct (save_artifact f) as [e|]; [apply IH|].
    rewrite IH. cbn [length]. f_equal; [lia|].
    destruct k; reflexivity.
Qed.

End WrapperFacts.


(** X12. The generation wrapper reports the number of images of the
    generation, whatever was saved, and counts as saved the images whose
    file exists and whose artifact is stored without an exception; the
    ledger's last generated image becomes the first image saved, which need
    not be the first image, and stays as it was when nothing is saved or no
    tool context is given. *)
Theorem generation_wrapper_records_first_saved :
  forall (registered_extension : string -> bool) (now uuid4 : string)
         (model : Tools.response)
         (tool_context : option (string -> option string))
         (prompt : string) (pack_size : Z)
         (memory : Memory.SessionMemory) (d : Imaging.disk),
    match Tools.generate_image_compute registered_extension now uuid4 model
            prompt pack_size d with
    | (d', Tools.GenerateError error) =>
        Wrapper.generate_image_with_artifacts registered_extension now uuid4
          model tool_context prompt pack_size memory d
        = (("Error: " ++ error)%string, memory, d')
    | (d', Tools.GenerateOk images _ _) =>
        let saved :=
          match tool_context with
          | Some save_artifact =>
              Wrapper.saved_images save_artifact d' images
          | None => []
          end in
        Wrapper.generate_image_with_artifacts registered_extension now uuid4
          model tool_context prompt pack_size memory d
        = (("Successfully generated " ++ Py.str_of_nat (length images)
            ++ " images. Artifacts saved: "
            ++ Py.str_of_nat (length saved))%string,
           match saved with
           | f :: _ => Memory.set_last_generated memory f
           | [] => memory
           end,
           d')
    end.
Proof.
  intros registered_extension now uuid4 model tool_context prompt pack_size
    memory d.
  unfold Wrapper.generate_image_with_artifacts.
  pose proof (generation_names_an_image
                registered_extension now uuid4 prompt pack_size model d) as Hne.
  destruct (Tools.generate_image_compute registered_extension now uuid4 model
              prompt pack_size d) as [d' [images msg uid|error]];
    [|reflexivity].
  destruct images as [|f images]; [exfalso; now apply (Hne d' msg uid)|].
  destruct tool_context as [save_artifact|]; [|reflexivity].
  rewrite save_steps. reflexivity.
Qed.

(** X13. [save_image_artifact_from_disk] touches the ledger only when the
    artifact was saved and [update_memory] is exactly ["generated"] or
    ["edited"]: without a tool context, for a missing file or when saving
    raises it reports an error, and for any other value of [update_memory] it
    reports success, in both cases with the ledger unchanged. *)
Theorem save_artifact_updates_ledger_on_exact_keyword :
  forall (tool_context : option (string -> option string))
         (filename update_memory : string)
         (memory : Memory.SessionMemory) (d : Imaging.disk),
    let saved :=
      match tool_context with
      | Some save_artifact =>
          match d (Py.join Imaging.UPLOAD_DIR filename), d filename,
                save_artifact filename with
          | Some _, _, None => true
          | None, Some _, None => true
          | _, _, _ => false
          end
      | None => false
      end in
    let '(message, memory') :=
      Wrapper.save_image_artifact_tool tool_context filename update_memory
        memory d in
    (if saved
     then message = ("Successfully saved artifact: " ++ filename)%string
     else Py.startswith message "Error" = true /\ memory' = memory)
    /\ (update_memory <> "generated"%string ->
        update_memory <> "edited"%string -> memory' = memory)
    /\ (saved = true -> update_memory = "generated"%string ->
        memory' = Memory.set_last_generated memory filename)
    /\ (saved = true -> update_memory = "edited"%string ->
        memory' = Memory.set_last_edited memory filename).
Proof.
  intros tool_context filename update_memory memory d.
  unfold Wrapper.save_image_artifact_tool,
    Wrapper.save_image_artifact_from_disk.
  destruct tool_context as [save_artifact|];
    [|cbv zeta; repeat split; auto; discriminate].
  cbv zeta.
  destruct (d (Py.join Imaging.UPLOAD_DIR filename)) as [f1|];
    [|destruct (d filename) as [f2|];
      [|repeat split; auto; discriminate]];
    (destruct (save_artifact filename) as [e|];
     [repeat split; auto; discriminate|]);
    (repeat split; auto;
     [intros Hg He;
      destruct (String.eqb_spec update_memory "generated");
      [contradiction|];
      destruct (String.eqb_spec update_memory "edited");
      [contradiction | reflexivity]
     |intros _ ->; reflexivity
     |intros _ ->; reflexivity]).
Qed.

(* ================================================================== *)
(** * Further properties of the listing and the poller *)
(* ================================================================== *)

Section ListingMore.

Import Api.
Local Open Scope Z_scope.

Lemma insert_desc_sorted (f : string * Z) (sorted : list (string * Z)) :
  newest_first sorted -> newest_first (insert_desc f sorted).
Proof.
  unfold newest_first. induction sorted as [|g rest IH]; intros Hs; simpl.
  - constructor; constructor.
  - inversion Hs as [|? ? Hrest Hall]; subst.
    destruct (Z.gtb_spec (snd g) (snd f)).
    + constructor; [auto|].
      apply Forall_forall. intros p Hp.
      apply insert_desc_In in Hp as [->|Hp]; [lia|].
      rewrite Forall_forall in Hall. auto.
    + constructor; [exact Hs|].
      constructor; [lia|].
      rewrite Forall_forall in *. intros p Hp. specialize (Hall p Hp). lia.
Qed.

Lemma sort_desc_sorted (files : list (string * Z)) :
  newest_first (sort_desc files).
Proof.
  induction files as [|f files IH]; simpl; [constructor|].
  now apply insert_desc_sorted.
Qed.

Lemma insert_desc_perm (f : string * Z) (sorted : list (string * Z)) :
  Permutation (f :: sorted) (insert_desc f sorted).
Proof.
  induction sorted as [|g rest IH]; simpl; [reflexivity|].
  destruct (snd g >? snd f); [|reflexivity].
  rewrite perm_swap. now constructor.
Qed.

Lemma sort_desc_perm (files : list (string * Z)) :
  Permutation files (sort_desc files).
Proof.
  induction files as [|f files IH]; simpl; [reflexivity|].
  rewrite <- insert_desc_perm. now constructor.
Qed.

(** The keys are read off the files one by one. *)
Lemma keyed_pairs (files : list dirent) (ks : list (string * Z)) :
  keyed files = Some ks ->
  map (fun f => (d_name f, d_mtime f)) files
  = map (fun k => (fst k, Some (snd k))) ks.
Proof.
  revert ks. induction files as [|f files IH]; intros ks Hk.
  - now inversion Hk.
  - simpl in Hk. destruct (d_mtime f) as [t|] eqn:Ht; [|discriminate].
    destruct (keyed files) as [ks'|]; [|discriminate].
    inversion Hk; subst. simpl. now rewrite Ht, (IH ks' eq_refl).
Qed.

Lemma keyed_none (files : list dirent) :
  keyed files = None <-> exists f, In f files /\ d_mtime f = None.
Proof.
  induction files as [|f files IH]; simpl.
  - split; [discriminate | intros (? & [] & _)].
  - destruct (d_mtime f) as [t|] eqn:Ht.
    + destruct (keyed files) as [ks|].
      * split; [discriminate|].
        intros (g & [<-|Hg] & Hn); [congruence|].
        assert (E : Some ks = None) by (apply (proj2 IH); eauto).
        discriminate.
      * split; [|reflexivity]. intros _.
        destruct (proj1 IH eq_refl) as (g & Hg & Hn). eauto.
    + split; [|reflexivity]. intros _. exists f. auto.
Qed.

End ListingMore.

(** X14. A listing holds at most [limit] names, and they are the names of
    the [.png] files of the directory that start with the prefix, newest
    first, cut at [limit]; [GET /api/images] reports up to 100 of them with
    their count. *)
Theorem listing_is_selected_sorted_and_capped :
  forall (entries : list Api.dirent) (prefix : string) (limit : nat),
    let selected :=
      filter (fun f => Py.endswith (Api.d_name f) ".png"
                       && Py.startswith (Api.d_name f) prefix) entries in
    let names := Api.list_images (Some entries) prefix limit in
    length names <= limit
    /\ (forall x, In x names ->
          Py.endswith x ".png" = true /\ Py.startswith x prefix = true
          /\ exists f, In f entries /\ Api.d_name f = x)
    /\ ((forall f, In f selected -> Api.d_mtime f <> None) ->
        exists files,
          names = firstn limit (map fst files)
          /\ Api.newest_first files
          /\ Permutation
               (map (fun f => (Api.d_name f, Api.d_mtime f)) selected)
               (map (fun k => (fst k, Some (snd k))) files))
    /\ Api.ImagesResponse.count (Api.list_all_images (Some entries))
       = length (Api.ImagesResponse.images
                   (Api.list_all_images (Some entries)))
    /\ Api.ImagesResponse.count (Api.list_all_images (Some entries)) <= 100.
Proof.
  intros entries prefix limit selected names.
  assert (Hcap : forall l, length (Api.list_images (Some entries) "" l) <= l).
  { intros l. unfold Api.list_images. destruct (Api.keyed _); [|simpl; lia].
    rewrite length_firstn. lia. }
  split; [|split; [|split; [|split]]].
  - subst names. unfold Api.list_images. fold selected.
    destruct (Api.keyed selected); [|simpl; lia].
    rewrite length_firstn. lia.
  - intros x Hx.
    destruct (list_images_selects _ _ _ _ Hx) as [Hpng Hpre].
    split; [exact Hpng|]. split; [exact Hpre|].
    subst names. unfold Api.list_images in Hx. fold selected in Hx.
    destruct (Api.keyed selected) as [ks|] eqn:Hk; [|destruct Hx].
    apply In_firstn in Hx. apply in_map_iff in Hx as [[n t] [E Hin]].
    simpl in E. subst n. apply (proj1 (sort_desc_In _ _)) in Hin.
    apply (proj1 (keyed_In _ _ Hk _ _)) in Hin as (f & Hf & Hn & _).
    exists f. split; [|exact Hn].
    unfold selected in Hf. now apply filter_In in Hf.
  - intros Hall. destruct (keyed_total selected Hall) as [ks Hk].
    exists (Api.sort_desc ks). split; [|split].
    + subst names. unfold Api.list_images. fold selected. now rewrite Hk.
    + apply sort_desc_sorted.
    + rewrite <- (sort_desc_perm ks). now rewrite (keyed_pairs _ _ Hk).
  - reflexivity.
  - apply Hcap.
Qed.

(** X15. One unreadable file empties the whole listing: when the directory
    cannot be listed, or when [getmtime] fails for one selected file, the
    listing is empty, whatever else the directory holds. *)
Theorem listing_is_empty_when_a_file_is_unreadable :
  forall (prefix : string) (limit : nat),
    Api.list_images None prefix limit = []
    /\ forall (entries : list Api.dirent) (f : Api.dirent),
         In f entries ->
         Py.endswith (Api.d_name f) ".png" = true ->
         Py.startswith (Api.d_name f) prefix = true ->
         Api.d_mtime f = None ->
         Api.list_images (Some entries) prefix limit = [].
Proof.
  intros prefix limit. split; [reflexivity|].
  intros entries f Hin Hpng Hpre Hnone. unfold Api.list_images.
  replace (Api.keyed _) with (@None (list (string * Z))); [reflexivity|].
  symmetry. apply keyed_none. exists f. split; [|exact Hnone].
  apply filter_In. split; [exact Hin|]. now rewrite Hpng, Hpre.
Qed.

(** A quadrant that vanished between the listing and the reading of its
    time hides the other image. *)
Lemma listing_is_empty_when_a_file_is_unreadable_witness :
  Api.list_images
    (Some [Api.mkDirent "image_1_1.png" (Some 100%Z);
           Api.mkDirent "image_2_1.png" None]) "" 4
  = [].
Proof.
  exact (proj2 (listing_is_empty_when_a_file_is_unreadable ""%string 4)
           [Api.mkDirent "image_1_1.png" (Some 100%Z);
            Api.mkDirent "image_2_1.png" None]
           (Api.mkDirent "image_2_1.png" None)
           (or_intror (or_introl eq_refl)) eq_refl eq_refl eq_refl).
Defined.

(** X16. With no time to wait ([max_wait_time <= 0]) the poller returns its
    first listing at once, empty or not, without any sleep and whatever the
    fuel and the interval. *)
Theorem poller_without_time_returns_first_listing :
  forall (fuel : nat) (w : Api.world) (clock : nat) (prefix : string)
         (limit : nat) (max_wait_time poll_interval : Z),
    (max_wait_time <= 0)%Z ->
    Api.wait_for_images fuel w clock prefix limit max_wait_time poll_interval
    = Some {| Api.filenames := Api.list_images (w clock) prefix limit;
              Api.waited := 0;
              Api.listings := S clock |}.
Proof.
  intros fuel w clock prefix limit max_wait_time poll_interval Hmax.
  unfold Api.wait_for_images.
  destruct fuel; cbn [Api.wait_loop Api.filenames Api.waited];
    replace (0 <? max_wait_time)%Z with false
      by (symmetry; apply Z.ltb_ge; lia);
    now rewrite andb_false_r.
Qed.

Lemma poller_without_time_returns_first_listing_witness :
  Api.wait_for_images 0 Worlds.empty 0 "" 4 0 2
  = Some {| Api.filenames := [];
            Api.waited := 0;
            Api.listings := 1 |}.
Proof.
  exact (poller_without_time_returns_first_listing 0 Worlds.empty 0
           ""%string 4 0%Z 2%Z ltac:(lia)).
Defined.

Section StuckPoll.

Import Api.
Local Open Scope Z_scope.

Lemma wait_loop_stuck (fuel : nat) (w : world) (prefix : string)
  (limit : nat) (max_wait_time poll_interval : Z) (st : poll) :
  poll_interval <= 0 ->
  (forall k, list_images (w k) prefix limit = []) ->
  filenames st = [] -> waited st < max_wait_time ->
  wait_loop fuel w prefix limit max_wait_time poll_interval st = None.
Proof.
  intros Hstep Hempty. revert st.
  induction fuel as [|fuel IH]; intros st Hnone Hwait; cbn [wait_loop];
    rewrite Hnone; cbn [is_empty andb];
    replace (waited st <? max_wait_time) with true
      by (symmetry; apply Z.ltb_lt; lia);
    [reflexivity|].
  apply IH; cbn [filenames waited]; [apply Hempty | lia].
Qed.

End StuckPoll.

(** X17. With an interval that is not positive the accumulated wait never
    grows: as long as nothing matches and the bound is positive, the loop of
    the poller does not end, whatever the number of iterations allowed. *)
Theorem poller_never_returns_without_positive_interval :
  forall (fuel : nat) (w : Api.world) (clock : nat) (prefix : string)
         (limit : nat) (max_wait_time poll_interval : Z),
    (poll_interval <= 0)%Z -> (0 < max_wait_time)%Z ->
    (forall k, Api.list_images (w k) prefix limit = []) ->
    Api.wait_for_images fuel w clock prefix limit max_wait_time poll_interval
    = None.
Proof.
  intros fuel w clock prefix limit max_wait_time poll_interval
    Hstep Hmax Hempty.
  unfold Api.wait_for_images.
  apply wait_loop_stuck; cbn [Api.filenames Api.waited];
    [exact Hstep | exact Hempty | apply Hempty | exact Hmax].
Qed.

Lemma poller_never_returns_without_positive_interval_witness :
  Api.wait_for_images 1000 Worlds.empty 0 "" 4 90 0 = None.
Proof.
  exact (poller_never_returns_without_positive_interval 1000 Worlds.empty 0
           ""%string 4 90%Z 0%Z ltac:(lia) ltac:(lia)
           (fun k => eq_refl)).
Defined.

Section MessageFacts.

Import Api.
Local Open Scope string_scope.

(** The loop over the events, from any state. *)
Lemma events_fold (events : list event) (message : string)
  (final_event : option event) :
  fold_left
    (fun '(message, final_event) e =>
       (add_parts message (parts_of e),
        if is_final_response e then Some e else final_event))
    events (message, final_event)
  = (fold_left (fun m e => add_parts m (parts_of e)) events message,
     fold_left (fun fe e => if is_final_response e then Some e else fe)
       events final_event).
Proof.
  revert message final_event.
  induction events as [|e events IH]; intros message final_event;
    [reflexivity|].
  cbn [fold_left]. apply IH.
Qed.

Lemma last_final_none (events : list event) (final_event : option event) :
  (forall e, In e events -> is_final_response e = false) ->
  fold_left (fun fe e => if is_final_response e then Some e else fe)
    events final_event = final_event.
Proof.
  revert final_event. induction events as [|e events IH];
    intros final_event Hnone; [reflexivity|].
  cbn [fold_left]. rewrite (Hnone e (or_introl eq_refl)).
  apply IH. intros e' He'. apply Hnone. now right.
Qed.

End MessageFacts.

(** X18. The message of a run is the text of its last final event alone,
    whatever the events before and after it said, when that event has parts;
    a run without a final event, or whose last final event has no parts,
    gives the text of all its events in order. *)
Theorem message_is_text_of_last_final_event :
  (forall (before after : list Api.event) (e : Api.event),
      Api.is_final_response e = true ->
      (forall e', In e' after -> Api.is_final_response e' = false) ->
      Api.agent_message (before ++ e :: after)
      = match Api.parts_of e with
        | [] => Api.all_text (before ++ e :: after)
        | parts => Api.add_parts "" parts
        end)
  /\ (forall events : list Api.event,
        (forall e, In e events -> Api.is_final_response e = false) ->
        Api.agent_message events = Api.all_text events).
Proof.
  split.
  - intros before after e Hfinal Hafter.
    unfold Api.agent_message. rewrite events_fold.
    rewrite fold_left_app. cbn [fold_left]. rewrite Hfinal.
    rewrite (last_final_none after (Some e) Hafter).
    fold (Api.all_text (before ++ e :: after)).
    now destruct (Api.parts_of e).
  - intros events Hnone. unfold Api.agent_message.
    rewrite events_fold, (last_final_none events None Hnone).
    reflexivity.
Qed.

(** A run that reports an error first and answers in its final event. *)
Lemma message_is_text_of_last_final_event_witness :
  Api.agent_message
    [Api.mkEvent false (Some [Some "Error: tool failed. "%string]);
     Api.mkEvent true (Some [Some "I've generated "%string; None;
                             Some "4 outfits."%string]);
     Api.mkEvent false (Some [Some "(trailing)"%string])]
  = "I've generated 4 outfits."%string.
Proof.
  exact (proj1 message_is_text_of_last_final_event
           [Api.mkEvent false (Some [Some "Error: tool failed. "%string])]
           [Api.mkEvent false (Some [Some "(trailing)"%string])]
           (Api.mkEvent true (Some [Some "I've generated "%string; None;
                                    Some "4 outfits."%string]))
           eq_refl
           ltac:(intros e' [<-|[]]; reflexivity)).
Defined.

(* ================================================================== *)
(** * Further properties of the endpoints *)
(* ================================================================== *)

Section TargetFacts.

Import Memory.
Local Open Scope string_scope.

Lemma last_of_generated_In (ins : list insertion) (f : string) :
  last_of generated_name ins = Some f -> In f (map name_of ins).
Proof.
  induction ins as [|i ins IH]; simpl; [discriminate|].
  destruct (last_of generated_name ins) as [g|].
  - intros E. right. apply IH. exact E.
  - destruct i; simpl; [|discriminate]. intros E. inversion E. now left.
Qed.

Lemma recent_not_empty (ins : list insertion) :
  ins <> [] -> _recent_images (run ins) <> [].
Proof.
  destruct ins as [|i ins] using rev_ind; [congruence|]. intros _.
  rewrite run_snoc, recent_apply. apply touch_not_empty.
Qed.

End TargetFacts.

(** X19. An edit request without a source is refused (status 400) on a
    fresh ledger, before the delegation layer or the directory play any
    part; once a non-empty name was inserted into the ledger, such a request
    always finds a target, and the target is one of the inserted names. *)
Theorem edit_without_source_needs_an_insertion :
  forall (ins : list Memory.insertion) (request : Api.EditRequest),
    Py.truthy (Api.image_filename request) = false ->
    (forall i, In i ins -> Memory.name_of i <> ""%string) ->
    match ins with
    | [] =>
        forall (fuel : nat) (run_async : Api.runner) (w : Api.world),
          Api.edit_image fuel run_async w request (Memory.run ins)
          = Some (Api.HTTPException 400
                    "No image available to edit. Please provide image_filename or generate an image first.",
                  Memory.run ins)
    | _ =>
        exists target,
          Api.image_to_edit request (Memory.run ins) = Some target
          /\ target <> ""%string
          /\ In target (map Memory.name_of ins)
    end.
Proof.
  intros ins request Hsrc Hnames.
  destruct ins as [|i0 ins0] eqn:Hins.
  - intros fuel run_async w. unfold Api.edit_image, Api.image_to_edit, Py.or_.
    rewrite Hsrc. reflexivity.
  - rewrite <- Hins in *.
    assert (Hne : ins <> []) by (rewrite Hins; discriminate).
    assert (Hnonempty : forall f, In f (map Memory.name_of ins) ->
                                  f <> ""%string).
    { intros f Hf. apply in_map_iff in Hf as (i & <- & Hi). now apply Hnames. }
    unfold Api.image_to_edit, Py.or_. rewrite Hsrc.
    destruct (pointers_fold ins Memory.init) as [Hg _].
    unfold Memory.get_last_generated. fold (Memory.run ins) in Hg.
    rewrite Hg.
    destruct (Memory.last_of Memory.generated_name ins) as [g|] eqn:Hlast.
    + pose proof (last_of_generated_In ins g Hlast) as Hin.
      pose proof (Hnonempty g Hin) as Hgne.
      exists g. simpl. destruct (String.eqb_spec g ""); [contradiction|].
      auto.
    + simpl. unfold Memory.get_most_recent.
      destruct (Memory._recent_images (Memory.run ins)) as [|x rest] eqn:Hrec.
      * exfalso. now apply (recent_not_empty ins Hne).
      * assert (Hin : In x (map Memory.name_of ins))
          by (apply recent_subset; rewrite Hrec; now left).
        exists x. auto.
Qed.

(** After one edited image was recorded, an edit without a source targets
    it. *)
Lemma edit_without_source_needs_an_insertion_witness :
  exists target,
    Api.image_to_edit (Api.mkEditRequest "make it red" None)
      (Memory.run [Memory.Edited "edited_1_a.png"])
    = Some target
    /\ target <> ""%string
    /\ In target (map Memory.name_of [Memory.Edited "edited_1_a.png"]).
Proof.
  exact (edit_without_source_needs_an_insertion
           [Memory.Edited "edited_1_a.png"]
           (Api.mkEditRequest "make it red" None) eq_refl
           ltac:(intros i [<-|[]]; discriminate)).
Defined.

(** X20. An upload that succeeds stores the content at
    [os.path.join("uploads", filename)], which is [uploads/<filename>] for a
    relative name and the name itself, a path outside the uploads directory,
    for an absolute one; it records the name as the last generated image and
    so makes it the target of the next edit request that names no source.
    An upload whose file cannot be opened leaves the disk and the ledger as
    they were. *)
Theorem upload_becomes_implicit_edit_target :
  forall (open_error : string -> option string) (filename : string)
         (content : Imaging.file) (memory : Memory.SessionMemory)
         (d : Imaging.disk) (request : Api.EditRequest),
    filename <> ""%string ->
    Py.truthy (Api.image_filename request) = false ->
    let path := Py.join Imaging.UPLOAD_DIR filename in
    path = (if Py.startswith filename "/" then filename
            else "uploads/" ++ filename)%string
    /\ match open_error path with
       | None =>
           exists memory' d',
             Api.upload_image open_error filename content memory d
             = (Api.Returned
                  ("File uploaded successfully: " ++ filename)%string,
                memory', d')
             /\ d' path = Some content
             /\ (forall p, p <> path -> d' p = d p)
             /\ Memory.get_last_generated memory' = Some filename
             /\ In filename (Memory._recent_images memory')
             /\ Api.image_to_edit request memory' = Some filename
       | Some e =>
           Api.upload_image open_error filename content memory d
           = (Api.HTTPException 500 ("Error uploading file: " ++ e)%string,
              memory, d)
       end.
Proof.
  intros open_error filename content memory d request Hne Hsrc path.
  split.
  { unfold path, Py.join, Imaging.UPLOAD_DIR.
    now destruct (Py.startswith filename "/"). }
  unfold Api.upload_image. fold path.
  destruct (open_error path) as [e|]; [reflexivity|].
  do 2 eexists. split; [reflexivity|]. split; [|split; [|split; [|split]]].
  - unfold Imaging.write. now rewrite String.eqb_refl.
  - intros p Hp. unfold Imaging.write.
    now rewrite (proj2 (String.eqb_neq _ _) Hp).
  - reflexivity.
  - change (Memory._recent_images (Memory.set_last_generated memory filename))
      with (Memory.touch (Memory._recent_images memory) filename).
    apply touch_listed.
  - unfold Api.image_to_edit, Py.or_. rewrite Hsrc. simpl.
    destruct (String.eqb_spec filename ""); [contradiction | reflexivity].
Qed.

(** An upload under an absolute name. *)
Lemma upload_becomes_implicit_edit_target_witness :
  exists memory' d',
    Api.upload_image (fun _ => None) "/tmp/photo.jpg" Imaging.Garbage
      Memory.init (fun _ => None)
    = (Api.Returned "File uploaded successfully: /tmp/photo.jpg",
       memory', d')
    /\ d' "/tmp/photo.jpg"%string = Some Imaging.Garbage
    /\ (forall p, p <> "/tmp/photo.jpg"%string -> d' p = None)
    /\ Memory.get_last_generated memory' = Some "/tmp/photo.jpg"%string
    /\ In "/tmp/photo.jpg"%string (Memory._recent_images memory')
    /\ Api.image_to_edit (Api.mkEditRequest "make it red" None) memory'
       = Some "/tmp/photo.jpg"%string.
Proof.
  exact (proj2
    (upload_becomes_implicit_edit_target (fun _ => None)
       "/tmp/photo.jpg"%string Imaging.Garbage Memory.init (fun _ => None)
       (Api.mkEditRequest "make it red" None)
       ltac:(discriminate) eq_refl)).
Defined.

Section StaleFacts.

Import Api.
Local Open Scope Z_scope.



End StaleFacts.



Section ChatFacts.

Import Api.
Local Open Scope Z_scope.

Lemma recent_since_In (dir : listing) (time_threshold : Z)
  (all_images recent_images : list string) :
  recent_since dir time_threshold all_images = inr recent_images ->
  forall img, In img recent_images ->
    In img all_images
    /\ exists f t, stat dir img = Some f /\ d_mtime f = Some t
                   /\ time_threshold <= t.
Proof.
  revert recent_images.
  induction all_images as [|x rest IH]; intros recent_images Hr img Hin.
  - inversion Hr; subst. destruct Hin.
  - simpl in Hr. destruct (stat dir x) as [f|] eqn:Hstat.
    + destruct (d_mtime f) as [t|] eqn:Ht; [|discriminate].
      destruct (recent_since dir time_threshold rest) as [e|rs];
        [discriminate|].
      destruct (Z.geb_spec t time_threshold) as [Hge|Hlt];
        inversion Hr; subst.
      * destruct Hin as [<-|Hin].
        -- split; [now left|]. exists f, t. repeat split; auto; lia.
        -- destruct (IH rs eq_refl img Hin) as [H1 H2].
           split; [now right | exact H2].
      * destruct (IH recent_images eq_refl img Hin) as [H1 H2].
        split; [now right | exact H2].
    + destruct (IH recent_images Hr img Hin) as [H1 H2].
      split; [now right | exact H2].
Qed.

Lemma sort_keys_names (dir : listing) (recent_images : list string)
  (keys : list (string * Z)) :
  sort_keys dir recent_images = inr keys -> map fst keys = recent_images.
Proof.
  revert keys. induction recent_images as [|x rest IH]; intros keys Hk.
  - now inversion Hk.
  - simpl in Hk. destruct (stat dir x) as [[n [t|]]|]; try discriminate.
    destruct (sort_keys dir rest) as [e|ks]; [discriminate|].
    inversion Hk; subst. simpl. now rewrite (IH ks eq_refl).
Qed.

Lemma sorted_names_In (keys : list (string * Z)) (n : nat) (x : string) :
  In x (firstn n (map fst (sort_desc keys))) -> In x (map fst keys).
Proof.
  intros Hin. apply In_firstn in Hin.
  apply in_map_iff in Hin as [[y t] [E Hin]]. simpl in E. subst y.
  apply (proj1 (sort_desc_In _ _)) in Hin.
  apply in_map_iff. now exists (x, t).
Qed.

End ChatFacts.

(** X22. A chat request whose run completes either fails with status 500
    (a file vanished while its time was read), or answers with success, the
    message of the run ("Response received" when it is empty) and at most 4
    file names.  Every name answered is a [.png] file that was modified no
    earlier than 5 units before the request started; for an ASCII request
    without a generation keyword and an ASCII message without success wording
    no file is answered.  When a name is answered, the ledger then holds the
    first one as its last edited image when it starts with [edited_], and as
    its last generated image otherwise. *)
Theorem chat_answers_only_recent_files :
  forall (request_start_time : Z) (run_async : Api.runner) (w : Api.world)
         (request : Api.ChatRequest) (memory : Memory.SessionMemory)
         (events : list Api.event),
    run_async (Api.chat_message request) = Api.RunYields events ->
    match Api.chat request_start_time run_async w request memory with
    | (Api.HTTPException status_code _, _) => status_code = 500%Z
    | (Api.Returned r, memory') =>
        Api.ChatResponse.success r = true
        /\ Api.ChatResponse.message r
           = (if String.eqb (Api.agent_message events) ""
              then "Response received"%string
              else Api.agent_message events)
        /\ length (Api.ChatResponse.filenames r) <= 4
        /\ (forall x, In x (Api.ChatResponse.filenames r) ->
              Py.endswith x ".png" = true
              /\ exists f t,
                   Api.stat (w 1) x = Some f /\ Api.d_mtime f = Some t
                   /\ (request_start_time - 5 <= t)%Z)
        /\ (Py.isascii (Api.chat_message request) = true ->
            Py.isascii (Api.agent_message events) = true ->
            Api.any_in Api.generation_keywords
              (Py.lower (Api.chat_message request)) = false ->
            Api.any_in Api.success_keywords
              (Py.lower (Api.agent_message events)) = false ->
            Api.ChatResponse.filenames r = [])
        /\ match Api.ChatResponse.filenames r with
           | [] => True
           | first :: _ =>
               if Py.startswith first "edited_"
               then Memory.get_last_edited memory' = Some first
               else Memory.get_last_generated memory' = Some first
           end
    end.
Proof.
  intros request_start_time run_async w request memory events Hrun.
  unfold Api.chat. rewrite Hrun. cbv zeta.
  destruct (Api.any_in Api.generation_keywords
              (Py.lower (Api.chat_message request))
            || Api.any_in Api.success_keywords
                 (Py.lower (Api.agent_message events))) eqn:Hkey.
  - destruct (Api.recent_since (w 1) (request_start_time - 5)
                (Api.list_images (w 0) "" 10)) as [e|recent] eqn:Hrecent;
      [reflexivity|].
    destruct (Api.sort_keys (w 2) recent) as [e|keys] eqn:Hkeys;
      [reflexivity|].
    assert (Hprops :
      length (firstn 4 (map fst (Api.sort_desc keys))) <= 4
      /\ forall x, In x (firstn 4 (map fst (Api.sort_desc keys))) ->
           Py.endswith x ".png" = true
           /\ exists f t,
                Api.stat (w 1) x = Some f /\ Api.d_mtime f = Some t
                /\ (request_start_time - 5 <= t)%Z).
    { split; [rewrite length_firstn; lia|].
      intros x Hx. apply sorted_names_In in Hx.
      rewrite (sort_keys_names _ _ _ Hkeys) in Hx.
      destruct (recent_since_In _ _ _ _ Hrecent x Hx) as [Hall Hstat].
      split; [|exact Hstat].
      now apply (list_images_selects (w 0) "" 10 x). }
    destruct Hprops as [Hlen Hin].
    apply orb_true_iff in Hkey.
    destruct (firstn 4 (map fst (Api.sort_desc keys))) as [|first rest];
      cbn [Api.ChatResponse.success Api.ChatResponse.message
           Api.ChatResponse.filenames];
      (split; [reflexivity|]); (split; [reflexivity|]);
      (split; [exact Hlen|]); (split; [exact Hin|]);
      (split;
       [intros _ _ H1 H2; rewrite H1, H2 in Hkey; destruct Hkey;
        discriminate|]).
    + exact I.
    + destruct (Py.startswith first "edited_"); reflexivity.
  - cbn [Api.ChatResponse.success Api.ChatResponse.message
         Api.ChatResponse.filenames].
    split; [reflexivity|]. split; [reflexivity|].
    split; [simpl; lia|]. split; [intros x []|].
    split; [reflexivity | exact I].
Qed.

(** A request with a generation keyword on a directory whose files are
    older than the request but for one edited image. *)
Lemma chat_answers_only_recent_files_witness :
  fst (Api.chat 200 (Worlds.says "Done") Worlds.leftovers
         (Api.mkChatRequest "show me a dress") Memory.init)
  = Api.Returned
      {| Api.ChatResponse.success := true;
         Api.ChatResponse.message := "Done";
         Api.ChatResponse.filenames := ["edited_2_image_1_1.png"%string] |}
  /\ Memory.get_last_edited
       (snd (Api.chat 200 (Worlds.says "Done") Worlds.leftovers
               (Api.mkChatRequest "show me a dress") Memory.init))
     = Some "edited_2_image_1_1.png"%string.
Proof.
  pose proof (chat_answers_only_recent_files 200 (Worlds.says "Done")
                Worlds.leftovers (Api.mkChatRequest "show me a dress")
                Memory.init
                [Api.mkEvent true (Some [Some "Done"%string])] eq_refl) as H.
  destruct (Api.chat 200 (Worlds.says "Done") Worlds.leftovers
              (Api.mkChatRequest "show me a dress") Memory.init)
    as [[status_code detail|r] memory'] eqn:E.
  - vm_compute in E. discriminate.
  - destruct H as (_ & _ & _ & _ & _ & Hledger).
    vm_compute in E. inversion E; subst. cbn [fst snd].
    split; [reflexivity | exact Hledger].
Defined.

Section PathFacts.

Local Open Scope string_scope.

Lemma split_on_not_nil (sep : ascii) (s : string) : Py.split_on sep s <> [].
Proof.
  destruct s as [|c t]; cbn [Py.split_on]; [discriminate|].
  destruct (Ascii.eqb c sep); [discriminate|].
  destruct (Py.split_on sep t); discriminate.
Qed.

Lemma split_on_sep_app (sep : ascii) (a b : string) :
  Py.split_on sep (a ++ String sep b)
  = (Py.split_on sep a ++ Py.split_on sep b)%list.
Proof.
  induction a as [|c a IH]; cbn [append Py.split_on].
  - now rewrite Ascii.eqb_refl.
  - rewrite IH. destruct (Ascii.eqb c sep); [reflexivity|].
    pose proof (split_on_not_nil sep a) as Hne.
    destruct (Py.split_on sep a); [contradiction | reflexivity].
Qed.

Lemma rfind_absent_cons (c a : ascii) (s : string) :
  Py.rfind c (String a s) = (-1)%Z ->
  Ascii.eqb a c = false /\ Py.rfind c s = (-1)%Z.
Proof.
  cbn [Py.rfind]. pose proof (rfind_bounds c s) as Hb.
  destruct (Z.leb_spec 0 (Py.rfind c s)); [lia|].
  destruct (Ascii.eqb a c); [lia|]. intros _. split; [reflexivity | lia].
Qed.

Lemma split_on_absent (sep : ascii) (s : string) :
  Py.rfind sep s = (-1)%Z -> Py.split_on sep s = [s].
Proof.
  induction s as [|c s IH]; [reflexivity|].
  intros H. apply rfind_absent_cons in H as [Hc Hs].
  cbn [Py.split_on]. now rewrite Hc, (IH Hs).
Qed.

Lemma startswith_absent (c : ascii) (s : string) :
  Py.rfind c s = (-1)%Z -> Py.startswith s (String c "") = false.
Proof.
  destruct s as [|a s]; [reflexivity|].
  intros H. apply rfind_absent_cons in H as [Hc _].
  unfold Py.startswith. simpl.
  destruct (ascii_dec c a) as [->|]; [|reflexivity].
  now rewrite Ascii.eqb_refl in Hc.
Qed.

Lemma prefix_length (p s : string) :
  String.prefix p s = true -> String.length p <= String.length s.
Proof.
  revert s. induction p as [|a p IH]; intros [|b s]; simpl;
    try (intros; lia); try discriminate.
  destruct (ascii_dec a b); [|discriminate].
  intros H. apply IH in H. lia.
Qed.

Lemma prefix_app_str (a b : string) : String.prefix a (a ++ b) = true.
Proof.
  induction a as [|c a IH]; simpl.
  - now destruct b.
  - destruct (ascii_dec c c); [exact IH | contradiction].
Qed.

Lemma prefix_app_short (p a r : string) :
  String.length p <= String.length a ->
  String.prefix p (a ++ r) = String.prefix p a.
Proof.
  revert a. induction p as [|x p IH]; intros a Hlen.
  - destruct a; simpl; [now destruct r | reflexivity].
  - destruct a as [|y a]; simpl in *; [lia|].
    destruct (ascii_dec x y); [apply IH; lia | reflexivity].
Qed.

Lemma endswith_slash (s : string) :
  Py.endswith s "/" = true -> exists s0, s = s0 ++ "/".
Proof.
  induction s as [|c s IH]; [discriminate|].
  cbn [Py.endswith].
  destruct (String.eqb_spec (String c s) "/") as [E|_].
  - intros _. exists "". exact E.
  - intros H. destruct (IH H) as [s0 ->]. now exists (String c s0).
Qed.

(** The working directory is absolute: joining a relative path to it puts
    the path behind one slash. *)
Lemma join_cwd (cwd : string) :
  Py.startswith cwd "/" = true ->
  exists c0,
    forall x, Py.startswith x "/" = false ->
      Py.join cwd x = c0 ++ String "/"%char x
      /\ Py.startswith (c0 ++ String "/"%char x) "/" = true.
Proof.
  intros Habs. destruct (Py.endswith cwd "/") eqn:E.
  - destruct (endswith_slash _ E) as [c0 ->]. exists c0. intros x Hx.
    assert (Hj : (c0 ++ "/") ++ x = c0 ++ String "/"%char x)
      by (now rewrite app_assoc_str).
    split.
    + unfold Py.join. now rewrite Hx, E, orb_true_r.
    + rewrite <- Hj. unfold Py.startswith in *.
      rewrite prefix_app_short; [exact Habs|].
      rewrite length_app_str. simpl. lia.
  - exists cwd. intros x Hx. destruct cwd as [|a cwd]; [discriminate|].
    split.
    + unfold Py.join. rewrite Hx, E. reflexivity.
    + unfold Py.startswith in *.
      rewrite prefix_app_short; [exact Habs | simpl; lia].
Qed.

Lemma join_with_snoc (sep : string) (l : list string) (x : string) :
  Py.join_with sep (l ++ [x])
  = match l with
    | [] => x
    | _ => Py.join_with sep l ++ sep ++ x
    end.
Proof.
  induction l as [|a l IH]; [reflexivity|].
  destruct l as [|b l]; [reflexivity|].
  change (Py.join_with sep ((a :: b :: l) ++ [x]))
    with (a ++ sep ++ Py.join_with sep ((b :: l) ++ [x])).
  rewrite IH.
  change (Py.join_with sep (a :: b :: l))
    with (a ++ sep ++ Py.join_with sep (b :: l)).
  now rewrite !app_assoc_str.
Qed.

(** The components kept for a path that continues [c0/uploads] with one
    more component. *)
Lemma normpath_step_uploads (i : nat) (st : list string) :
  Py.normpath_step i st "uploads" = (st ++ ["uploads"])%list.
Proof. reflexivity. Qed.

Lemma normpath_step_parent (i : nat) (st : list string) :
  i <> 0 ->
  Py.normpath_step i (st ++ ["uploads"]) ".." = st.
Proof.
  intros Hi. unfold Py.normpath_step. simpl String.eqb. simpl negb.
  rewrite last_last.
  replace (Nat.eqb i 0) with false by (symmetry; now apply Nat.eqb_neq).
  destruct (st ++ ["uploads"])%list eqn:E.
  - now destruct st.
  - rewrite <- E. simpl. apply removelast_last.
Qed.

End PathFacts.

Section GuardFacts.

Local Open Scope string_scope.

Lemma prefix_refl_str (s : string) : String.prefix s s = true.
Proof.
  induction s as [|c s IH]; simpl; [reflexivity|].
  destruct (ascii_dec c c); [exact IH | contradiction].
Qed.

Lemma prefix_too_long (p s : string) :
  String.length s < String.length p -> String.prefix p s = false.
Proof.
  intros Hlen. destruct (String.prefix p s) eqn:E; [|reflexivity].
  apply prefix_length in E. lia.
Qed.

(** [normpath] of an absolute path: one or two slashes before the kept
    components. *)
Lemma normpath_absolute (p : string) :
  Py.startswith p "/" = true ->
  let i := if Py.startswith p "//" && negb (Py.startswith p "///")
           then 2 else 1 in
  Py.normpath p
  = (if Nat.eqb i 2 then "//" else "/")
    ++ Py.join_with "/"
         (fold_left (Py.normpath_step i) (Py.split_on "/"%char p) []).
Proof.
  intros Habs i. unfold Py.normpath.
  destruct p as [|c p]; [discriminate|].
  change (String.eqb (String c p) "") with false. cbv iota.
  rewrite Habs. fold i. cbv zeta.
  subst i. destruct (Py.startswith (String c p) "//"
                     && negb (Py.startswith (String c p) "///"));
    reflexivity.
Qed.

(** The guard of [get_image] on a name without a slash. *)
Lemma guard_on_plain_name (cwd filename : string) :
  Py.startswith cwd "/" = true ->
  Py.rfind "/"%char filename = (-1)%Z ->
  Py.join Imaging.UPLOAD_DIR filename = "uploads/" ++ filename
  /\ Py.startswith (Py.abspath cwd ("uploads/" ++ filename))
       (Py.abspath cwd Imaging.UPLOAD_DIR)
     = negb (String.eqb filename "..").
Proof.
  intros Habs Hplain.
  pose proof (startswith_absent "/"%char filename Hplain) as Hrel.
  split.
  { unfold Py.join, Imaging.UPLOAD_DIR. now rewrite Hrel. }
  destruct (join_cwd cwd Habs) as [c0 Hj].
  destruct (Hj "uploads" eq_refl) as [Hj1 Hs1].
  destruct (Hj ("uploads/" ++ filename) eq_refl) as [Hj2 Hs2].
  unfold Py.abspath, Imaging.UPLOAD_DIR.
  change (Py.startswith ("uploads/" ++ filename) "/") with false.
  change (Py.startswith "uploads" "/") with false.
  cbn [negb]. rewrite Hj1, Hj2.
  set (P1 := c0 ++ String "/"%char "uploads") in *.
  assert (HP2 : c0 ++ String "/"%char ("uploads/" ++ filename)
                = P1 ++ String "/"%char filename).
  { unfold P1. rewrite app_assoc_str. reflexivity. }
  rewrite HP2 in *.
  rewrite (normpath_absolute P1 Hs1), (normpath_absolute _ Hs2).
  assert (Hlen : 8 <= String.length P1)
    by (unfold P1; rewrite length_app_str; simpl; lia).
  cbv zeta.
  assert (Hinit : forall q, String.length q <= 3 ->
            Py.startswith (P1 ++ String "/"%char filename) q
            = Py.startswith P1 q)
    by (intros q Hq; unfold Py.startswith; apply prefix_app_short; lia).
  rewrite !Hinit by (simpl; lia).
  set (i := if Py.startswith P1 "//" && negb (Py.startswith P1 "///")
            then 2 else 1).
  assert (Hi : i <> 0) by (subst i; destruct (_ && _); discriminate).
  set (sl := if Nat.eqb i 2 then "//" else "/").
  assert (Hsp1 : Py.split_on "/"%char P1
                 = (Py.split_on "/"%char c0 ++ ["uploads"])%list)
    by (unfold P1; now rewrite split_on_sep_app).
  rewrite (split_on_sep_app "/"%char P1 filename).
  rewrite (split_on_absent "/"%char filename Hplain), Hsp1.
  rewrite !fold_left_app. cbn [fold_left].
  set (st0 := fold_left (Py.normpath_step i) (Py.split_on "/"%char c0) []).
  rewrite normpath_step_uploads.
  unfold Py.startswith.
  destruct (String.eqb_spec filename "..") as [->|Hnp]; cbn [negb].
  - rewrite (normpath_step_parent i st0 Hi).
    apply prefix_too_long. rewrite !length_app_str, join_with_snoc.
    destruct st0; [simpl; lia|].
    rewrite !length_app_str. simpl. lia.
  - unfold Py.normpath_step.
    destruct (String.eqb filename "" || String.eqb filename ".") eqn:Hskip.
    + apply prefix_refl_str.
    + replace (String.eqb filename "..") with false
        by (symmetry; now apply String.eqb_neq).
      cbn [negb orb].
      rewrite (join_with_snoc "/" (st0 ++ ["uploads"]) filename).
      destruct (st0 ++ ["uploads"])%list eqn:E; [now destruct st0|].
      rewrite <- E. rewrite <- app_assoc_str. apply prefix_app_str.
Qed.

End GuardFacts.

(** X23. For a file name without a slash, as the route delivers them, the
    guard of [GET /api/images/{filename}] refuses exactly the name [..]
    (status 403), whatever the absolute working directory; for every other
    name the answer depends on [os.path.exists] alone: status 404 when
    nothing exists at [uploads/<filename>], and otherwise a [FileResponse]
    for that path, be it a file or a directory such as [uploads/.]. *)
Theorem image_guard_refuses_only_the_parent :
  forall (cwd : string) (is_directory : string -> bool) (d : Imaging.disk)
         (filename : string),
    Py.startswith cwd "/" = true ->
    Py.rfind "/"%char filename = (-1)%Z ->
    Api.get_image cwd is_directory d filename
    = if String.eqb filename ".."
      then Api.HTTPException 403 "Invalid filename"
      else if Imaging.path_exists is_directory d
                ("uploads/" ++ filename)%string
      then Api.Returned ("uploads/" ++ filename)%string
      else Api.HTTPException 404 ("Image not found: " ++ filename)%string.
Proof.
  intros cwd is_directory d filename Habs Hplain.
  destruct (guard_on_plain_name cwd filename Habs Hplain) as [Hpath Hguard].
  unfold Api.get_image. cbv zeta. rewrite Hpath, Hguard.
  destruct (String.eqb filename ".."); [reflexivity|].
  cbn [negb]. now destruct (Imaging.path_exists _ _ _).
Qed.

(** The parent directory is refused; the uploads directory itself is
    answered. *)
Lemma image_guard_refuses_only_the_parent_witness :
  Api.get_image "/srv/app" (String.eqb "uploads/.") (fun _ => None) ".."
  = Api.HTTPException 403 "Invalid filename"
  /\ Api.get_image "/srv/app" (String.eqb "uploads/.") (fun _ => None) "."
     = Api.Returned "uploads/.".
Proof.
  split.
  - exact (image_guard_refuses_only_the_parent "/srv/app"%string
             (String.eqb "uploads/.") (fun _ => None) ".."%string
             eq_refl eq_refl).
  - exact (image_guard_refuses_only_the_parent "/srv/app"%string
             (String.eqb "uploads/.") (fun _ => None) "."%string
             eq_refl eq_refl).
Defined.
